(** * Image hosting backend: ingestion, thumbnailing and download accounting

    A shallow embedding of the service layer of the repository
    (image_service.py, download_service.py, storage_service.py,
    image_processing.py, the image and download endpoints and init_db.py)
    together with the properties of its specification and further
    properties of the code.

    The metadata store and the object store are modelled by an explicit
    world that every operation threads through; a call to either store is
    logged in a trace and may fail, as decided by the environment. *)

From Stdlib Require Import ZArith List String Ascii Bool Lia Sorted.
From stdpp Require Import base option list gmap strings.

Local Open Scope string_scope.
Local Open Scope list_scope.
Local Open Scope Z_scope.

(** ** Exceptions *)

(** The two exception classes of app/core/exceptions.py and the library
    exceptions that the service code lets through. *)
Inductive exn : Type :=
| ImageNotFoundException              (* HTTPException, 404, "Image not found" *)
| StorageException (detail : string)  (* HTTPException, 500, "Storage error: ..." *)
| InvalidId                           (* bson.errors.InvalidId *)
| PyMongoError                        (* any failure of a metadata store call *)
| GoogleCloudError                    (* any failure of an object store call *)
| ValidationError                     (* pydantic *)
| KeyError
| ValueError
| ZeroDivisionError
| OverflowError
| UnidentifiedImageError              (* PIL cannot decode the bytes *)
| OSError.                            (* PIL cannot encode the image *)

#[global] Instance exn_eq_dec : EqDecision exn.
Proof. solve_decision. Defined.

(** [str(e)], used for the detail of a StorageException. The message of a
    library exception is the library's; the name of its class stands for it
    here. *)
Definition str_exn (e : exn) : string :=
  match e with
  | ImageNotFoundException => "404: Image not found"
  | StorageException d => "500: Storage error: " +:+ d
  | InvalidId => "InvalidId"
  | PyMongoError => "PyMongoError"
  | GoogleCloudError => "GoogleCloudError"
  | ValidationError => "ValidationError"
  | KeyError => "KeyError"
  | ValueError => "ValueError"
  | ZeroDivisionError => "ZeroDivisionError"
  | OverflowError => "OverflowError"
  | UnidentifiedImageError => "UnidentifiedImageError"
  | OSError => "OSError"
  end.

(** What the client sees (app/main.py registers [exception_handler] for
    every exception that is not an HTTPException). *)
Definition http_status (e : exn) : Z :=
  match e with
  | ImageNotFoundException => 404
  | _ => 500
  end.

Definition http_detail (e : exn) : string :=
  match e with
  | ImageNotFoundException => "Image not found"
  | StorageException d => "Storage error: " +:+ d
  | _ => "An unexpected error occurred"
  end.

Inductive result (A : Type) : Type :=
| Ok (a : A)
| Raise (e : exn).
Arguments Ok {A} a.
Arguments Raise {A} e.

(** ** Documents *)

(** An ObjectId is kept as its canonical text: 24 lower-case hex digits. *)
Definition ObjectId := string.

Definition is_hex (c : ascii) : bool :=
  let n := Z.of_nat (nat_of_ascii c) in
  (((48 <=? n) && (n <=? 57)) || ((97 <=? n) && (n <=? 102))
   || ((65 <=? n) && (n <=? 70)))%Z.

(** [c.lower()] on an ASCII letter. *)
Definition lower (c : ascii) : ascii :=
  let n := nat_of_ascii c in
  if ((65 <=? Z.of_nat n) && (Z.of_nat n <=? 90))%Z then ascii_of_nat (n + 32) else c.

Fixpoint string_forallb (p : ascii -> bool) (s : string) : bool :=
  match s with
  | EmptyString => true
  | String c s' => p c && string_forallb p s'
  end.

Fixpoint string_map (f : ascii -> ascii) (s : string) : string :=
  match s with
  | EmptyString => EmptyString
  | String c s' => String (f c) (string_map f s')
  end.

(** utils/object_id.py. bson also takes a text of 24 characters in which
    white space separates pairs of hex digits; such ids are outside this
    model, which takes ids to hold no white space. *)
Definition is_valid_object_id (id_str : string) : bool :=
  (Nat.eqb (String.length id_str) 24) && string_forallb is_hex id_str.

(** [ObjectId(id_str)]: raises InvalidId unless the text is 24 hex digits. *)
Definition ObjectId_of (id_str : string) : result ObjectId :=
  if is_valid_object_id id_str then Ok (string_map lower id_str) else Raise InvalidId.

(** The values a document field holds. [VNull] is Python's None. *)
Inductive value : Type :=
| VNull
| VBool (b : bool)
| VInt (n : Z)
| VStr (s : string)
| VDate (t : Z)
| VObjectId (o : ObjectId)
| VList (l : list string).

#[global] Instance value_eq_dec : EqDecision value.
Proof. solve_decision. Defined.

(** A Python dict with string keys, and so a document of the store. *)
Abbreviation document := (gmap string value).

Definition bytes := list Byte.byte.

(** A blob of the object store: its content and its content type. *)
Definition blob : Type := bytes * option string.

(** ** The world *)

Inductive bucket : Type := Originals | Thumbnails.

#[global] Instance bucket_eq_dec : EqDecision bucket.
Proof. solve_decision. Defined.

(** The calls that leave the process. *)
Inductive call : Type :=
| DbFindOne (o : ObjectId)
| DbFind
| DbCount
| DbInsertImage
| DbUpdateOne (o : ObjectId)
| DbDeleteOne (o : ObjectId)
| DbAggregate
| DbInsertDownload
| BlobUpload (b : bucket) (key : string)
| BlobDownload (b : bucket) (key : string)
| BlobExists (b : bucket) (key : string)
| BlobDelete (b : bucket) (key : string).

#[global] Instance call_eq_dec : EqDecision call.
Proof. solve_decision. Defined.

(** What the program does not control. Each function is indexed by the
    number of external calls made so far. *)
Record Env : Type := {
  fails : nat -> bool;            (* does the next external call fail? *)
  utcnow_at : nat -> Z;           (* datetime.utcnow() *)
  object_id_at : nat -> ObjectId; (* the _id the store gives to an insert *)
  uuid4_at : nat -> string        (* uuid.uuid4() *)
}.

Record World : Type := {
  db_images : list document;               (* db.images, in natural order *)
  db_downloads : list document;            (* db.downloads *)
  original_bucket : gmap string blob;
  thumbnail_bucket : gmap string blob;
  trace : list call;                    (* external calls, latest first *)
  env : Env
}.

Definition set_images (f : list document -> list document) (w : World) : World :=
  {| db_images := f (db_images w); db_downloads := db_downloads w;
     original_bucket := original_bucket w; thumbnail_bucket := thumbnail_bucket w;
     trace := trace w; env := env w |}.

Definition set_downloads (f : list document -> list document) (w : World) : World :=
  {| db_images := db_images w; db_downloads := f (db_downloads w);
     original_bucket := original_bucket w; thumbnail_bucket := thumbnail_bucket w;
     trace := trace w; env := env w |}.

Definition get_bucket (b : bucket) (w : World) : gmap string blob :=
  match b with
  | Originals => original_bucket w
  | Thumbnails => thumbnail_bucket w
  end.

Definition set_bucket (b : bucket) (f : gmap string blob -> gmap string blob)
    (w : World) : World :=
  match b with
  | Originals =>
      {| db_images := db_images w; db_downloads := db_downloads w;
         original_bucket := f (original_bucket w);
         thumbnail_bucket := thumbnail_bucket w;
         trace := trace w; env := env w |}
  | Thumbnails =>
      {| db_images := db_images w; db_downloads := db_downloads w;
         original_bucket := original_bucket w;
         thumbnail_bucket := f (thumbnail_bucket w);
         trace := trace w; env := env w |}
  end.

Definition log (c : call) (w : World) : World :=
  {| db_images := db_images w; db_downloads := db_downloads w;
     original_bucket := original_bucket w; thumbnail_bucket := thumbnail_bucket w;
     trace := c :: trace w; env := env w |}.

(** ** The monad of the service code: state and exceptions *)

Definition M (A : Type) : Type := World -> result A * World.

Definition ret {A} (a : A) : M A := fun w => (Ok a, w).

Definition raise {A} (e : exn) : M A := fun w => (Raise e, w).

Definition bind {A B} (m : M A) (k : A -> M B) : M B :=
  fun w =>
    match m w with
    | (Ok a, w') => k a w'
    | (Raise e, w') => (Raise e, w')
    end.

Notation "'do' x <~ m ; k" := (bind m (fun x => k))
  (at level 10, x name, m at level 100, k at level 200).

(** [try: m except Exception as e: h e] *)
Definition try_except {A} (m : M A) (h : exn -> M A) : M A :=
  fun w =>
    match m w with
    | (Ok a, w') => (Ok a, w')
    | (Raise e, w') => h e w'
    end.

Definition lift {A} (r : result A) : M A := fun w => (r, w).

(** An external call: it is logged; when the environment makes it fail it
    raises [err] and has no effect, otherwise [act] runs on the world. *)
Definition external {A} (c : call) (err : exn) (act : World -> result A * World) : M A :=
  fun w =>
    let w1 := log c w in
    if fails (env w) (length (trace w)) then (Raise err, w1) else act w1.

Definition utcnow : M Z := fun w => (Ok (utcnow_at (env w) (length (trace w))), w).

Definition uuid4 : M string := fun w => (Ok (uuid4_at (env w) (length (trace w))), w).

(** ** The metadata store (the motor/pymongo calls the services make) *)

Definition has_id (o : ObjectId) (d : document) : bool :=
  bool_decide (d !! "_id" = Some (VObjectId o)).

Fixpoint update_first (p : document -> bool) (f : document -> document)
    (l : list document) : list document :=
  match l with
  | [] => []
  | d :: l' => if p d then f d :: l' else d :: update_first p f l'
  end.

Fixpoint remove_first (p : document -> bool) (l : list document) : list document :=
  match l with
  | [] => []
  | d :: l' => if p d then l' else d :: remove_first p l'
  end.

(** [find_one({"_id": o})] *)
Definition find_one (o : ObjectId) : M (option document) :=
  external (DbFindOne o) PyMongoError
    (fun w => (Ok (List.find (has_id o) (db_images w)), w)).

(** [find_one({"_id": o}, {k: 1})]: the projection keeps _id and k. *)
Definition project (k : string) (d : document) : document :=
  filter (fun kv => kv.1 = "_id" \/ kv.1 = k) d.

Definition find_one_projected (o : ObjectId) (k : string) : M (option document) :=
  external (DbFindOne o) PyMongoError
    (fun w => (Ok (project k <$> List.find (has_id o) (db_images w)), w)).

Definition int64_max : Z := 2 ^ 63 - 1.

(** [$inc]: a missing field is created, a number is incremented (the store
    refuses to leave the 64-bit range), anything else is a write error. *)
Definition inc_field (k : string) (n : Z) (d : document) : result document :=
  match d !! k with
  | None => Ok (<[k := VInt n]> d)
  | Some (VInt m) =>
      if (m + n <=? int64_max)%Z then Ok (<[k := VInt (m + n)]> d) else Raise PyMongoError
  | Some _ => Raise PyMongoError
  end.

(** [update_one({"_id": o}, {"$inc": {k: n}})] *)
Definition update_one_inc (o : ObjectId) (k : string) (n : Z) : M unit :=
  external (DbUpdateOne o) PyMongoError
    (fun w =>
       match List.find (has_id o) (db_images w) with
       | None => (Ok tt, w)
       | Some d =>
           match inc_field k n d with
           | Ok d' => (Ok tt, set_images (update_first (has_id o) (fun _ => d')) w)
           | Raise e => (Raise e, w)
           end
       end).

(** [$set]: the fields of [upd] replace those of the document; _id cannot
    be changed. *)
Definition set_fields (upd : document) (d : document) : result document :=
  match upd !! "_id" with
  | Some v => if bool_decide (d !! "_id" = Some v) then Ok (upd ∪ d) else Raise PyMongoError
  | None => Ok (upd ∪ d)
  end.

(** [update_one({"_id": o}, {"$set": upd})] *)
Definition update_one_set (o : ObjectId) (upd : document) : M unit :=
  external (DbUpdateOne o) PyMongoError
    (fun w =>
       match List.find (has_id o) (db_images w) with
       | None => (Ok tt, w)
       | Some d =>
           match set_fields upd d with
           | Ok d' => (Ok tt, set_images (update_first (has_id o) (fun _ => d')) w)
           | Raise e => (Raise e, w)
           end
       end).

(** [insert_one(doc)] on a document without _id: the store assigns one; the
    unique index on _id refuses a duplicate. A date is kept as it is given
    (the store keeps milliseconds: the times of the model are to be read as
    whole milliseconds). *)
Definition insert_one_image (d : document) : M ObjectId :=
  fun w =>
    let o := object_id_at (env w) (length (trace w)) in
    external DbInsertImage PyMongoError
      (fun w1 =>
         if existsb (has_id o) (db_images w1) then (Raise PyMongoError, w1)
         else (Ok o, set_images (fun l => l ++ [<["_id" := VObjectId o]> d]) w1)) w.

Definition insert_one_download (d : document) : M ObjectId :=
  fun w =>
    let o := object_id_at (env w) (length (trace w)) in
    external DbInsertDownload PyMongoError
      (fun w1 =>
         if existsb (has_id o) (db_downloads w1) then (Raise PyMongoError, w1)
         else (Ok o, set_downloads (fun l => l ++ [<["_id" := VObjectId o]> d]) w1)) w.

(** [delete_one({"_id": o})], returning [deleted_count]. *)
Definition delete_one (o : ObjectId) : M Z :=
  external (DbDeleteOne o) PyMongoError
    (fun w =>
       if existsb (has_id o) (db_images w)
       then (Ok 1%Z, set_images (remove_first (has_id o)) w)
       else (Ok 0%Z, w)).

(** The query dict of get_images and count_images: an optional
    [{"tags": {"$all": ts}}] and an optional [{"is_featured": b}]. *)
Record query : Type := {
  q_tags : option (list string);
  q_is_featured : option bool
}.

(** [$all]: every listed value is an element of the array field (a scalar
    field counts as a one-element array). *)
Definition all_in (ts : list string) (v : option value) : bool :=
  match v with
  | Some (VList l) => forallb (fun t => bool_decide (t ∈ l)) ts
  | Some (VStr s) => forallb (fun t => bool_decide (t = s)) ts
  | _ => false
  end.

Definition matches (q : query) (d : document) : bool :=
  match q_tags q with
  | None => true
  | Some ts => all_in ts (d !! "tags")
  end
  &&
  match q_is_featured q with
  | None => true
  | Some b => bool_decide (d !! "is_featured" = Some (VBool b))
  end.

(** The order of the store on field values (a missing field sorts as null;
    values of different types are ordered by type). *)
Definition bson_rank (v : option value) : Z :=
  match v with
  | None | Some VNull => 1
  | Some (VInt _) => 2
  | Some (VStr _) => 3
  | Some (VList _) => 4
  | Some (VObjectId _) => 5
  | Some (VBool _) => 6
  | Some (VDate _) => 7
  end.

Definition bson_leb (a b : option value) : bool :=
  match a, b with
  | Some (VDate x), Some (VDate y) => (x <=? y)%Z
  | Some (VInt x), Some (VInt y) => (x <=? y)%Z
  | Some (VBool x), Some (VBool y) => implb x y
  | _, _ => (bson_rank a <=? bson_rank b)%Z
  end.

(** [sort(k, -1)]: descending on field [k]. Documents that tie on the
    field are kept in their natural order here; the store promises no order
    among them. *)
Fixpoint insert_desc (k : string) (d : document) (l : list document) : list document :=
  match l with
  | [] => [d]
  | x :: l' =>
      if bson_leb (x !! k) (d !! k) then d :: x :: l' else x :: insert_desc k d l'
  end.

Definition sort_desc (k : string) (l : list document) : list document :=
  foldr (insert_desc k) [] l.

(** [skip(n)] and [limit(n)] of a cursor ([limit(0)] is no limit), and
    [to_list(length)]. *)
Definition cursor_skip (n : Z) (l : list document) : list document :=
  drop (Z.to_nat n) l.

Definition cursor_limit (n : Z) (l : list document) : list document :=
  if (n =? 0)%Z then l else take (Z.to_nat n) l.

Definition to_list (length : Z) (l : list document) : list document :=
  take (Z.to_nat length) l.

(** [find(q).skip(skip).limit(limit).sort("created_at", -1).to_list(length)].
    The store sorts first, then skips, then limits, whatever the order in
    which the cursor was configured. A negative skip or length is refused by
    the driver before the store is asked. *)
Definition find_to_list (q : query) (skip limit length : Z) : M (list document) :=
  if (skip <? 0)%Z || (length <? 0)%Z then raise ValueError
  else
    external DbFind PyMongoError
      (fun w =>
         (Ok (to_list length
                (cursor_limit limit
                   (cursor_skip skip
                      (sort_desc "created_at" (List.filter (matches q) (db_images w)))))),
          w)).

(** [count_documents(q)] *)
Definition count_documents (q : query) : M Z :=
  external DbCount PyMongoError
    (fun w => (Ok (Z.of_nat (length (List.filter (matches q) (db_images w)))), w)).

(** [$sum] adds the numbers and skips everything else. *)
Definition numeric (v : option value) : Z :=
  match v with
  | Some (VInt n) => n
  | _ => 0
  end.

(** [aggregate([{"$group": {"_id": None, "total": {"$sum": "$downloads"}}}])
    .to_list(length=1)]: one group when there is at least one document, no
    group at all on an empty collection. *)
Definition group_total (l : list document) : list document :=
  match l with
  | [] => []
  | _ :: _ =>
      [ {[ "_id" := VNull;
           "total" := VInt (foldr (fun d acc => numeric (d !! "downloads") + acc)%Z 0%Z l) ]} ]
  end.

Definition aggregate_total : M (list document) :=
  external DbAggregate PyMongoError
    (fun w => (Ok (take 1 (group_total (db_images w))), w)).

(** ** Python dicts *)

(** [d[k]] *)
Definition getitem (d : document) (k : string) : result value :=
  match d !! k with
  | Some v => Ok v
  | None => Raise KeyError
  end.

(** [d.get(k, dflt)] *)
Definition dict_get (d : document) (k : string) (dflt : value) : value :=
  default dflt (d !! k).

(** ** The models (app/models/image.py, app/models/download.py)

    Validation is strict here: a field holding a value of another type is
    refused (pydantic's coercions between types are not modelled). *)

Definition as_str (v : value) : option string :=
  match v with VStr s => Some s | _ => None end.

Definition as_int (v : value) : option Z :=
  match v with VInt n => Some n | _ => None end.

Definition as_opt_str (v : option value) : option (option string) :=
  match v with
  | None | Some VNull => Some None
  | Some (VStr s) => Some (Some s)
  | Some _ => None
  end.

(** [validate_object_id], under Optional. *)
Definition validate_object_id (v : value) : option (option string) :=
  match v with
  | VNull => Some None
  | VObjectId o => Some (Some o)
  | VStr s => if is_valid_object_id s then Some (Some s) else None
  | _ => None
  end.

Definition to_result {A} (o : option A) : result A :=
  match o with
  | Some a => Ok a
  | None => Raise ValidationError
  end.

Module models_image.

Record Image : Type := {
  id : option string;
  name : string;
  description : string;
  filename : string;
  thumbnail_url : string;
  hd_url : string;
  file_size : Z;
  content_type : string;
  downloads : Z;
  tags : list string;
  created_at : Z;
  updated_at : option Z;
  is_featured : bool
}.

(** The constructor call [Image] on the unpacked document; [now] is what
    the default factory of created_at returns. *)
Definition validate (now : Z) (doc : document) : result Image :=
  to_result (
    i ← doc !! "_id" ≫= validate_object_id;
    n ← doc !! "name" ≫= as_str;
    de ← doc !! "description" ≫= as_str;
    f ← doc !! "filename" ≫= as_str;
    t ← doc !! "thumbnail_url" ≫= as_str;
    h ← doc !! "hd_url" ≫= as_str;
    fs ← doc !! "file_size" ≫= as_int;
    ct ← doc !! "content_type" ≫= as_str;
    dl ← match doc !! "downloads" with
         | None => Some 0 | Some (VInt k) => Some k | Some _ => None end;
    tg ← match doc !! "tags" with
         | None => Some [] | Some (VList l) => Some l | Some _ => None end;
    ca ← match doc !! "created_at" with
         | None => Some now | Some (VDate k) => Some k | Some _ => None end;
    ua ← match doc !! "updated_at" with
         | None | Some VNull => Some None
         | Some (VDate k) => Some (Some k) | Some _ => None end;
    fe ← match doc !! "is_featured" with
         | None => Some false | Some (VBool b) => Some b | Some _ => None end;
    Some {| id := i; name := n; description := de; filename := f;
            thumbnail_url := t; hd_url := h; file_size := fs; content_type := ct;
            downloads := dl; tags := tg; created_at := ca; updated_at := ua;
            is_featured := fe |}).

End models_image.

Module models_download.

Record Download : Type := {
  id : option string;
  image_id : string;
  ip_address : string;
  user_agent : string;
  referer : option string;
  country_code : option string;
  timestamp : Z
}.

(** The constructor call [Download] on the unpacked dict. *)
Definition validate (now : Z) (doc : document) : result Download :=
  to_result (
    i ← doc !! "_id" ≫= validate_object_id;
    im ← doc !! "image_id" ≫= as_str;
    ip ← doc !! "ip_address" ≫= as_str;
    ua ← doc !! "user_agent" ≫= as_str;
    re ← as_opt_str (doc !! "referer");
    cc ← as_opt_str (doc !! "country_code");
    ts ← match doc !! "timestamp" with
         | None => Some now | Some (VDate k) => Some k | Some _ => None end;
    Some {| id := i; image_id := im; ip_address := ip; user_agent := ua;
            referer := re; country_code := cc; timestamp := ts |}).

End models_download.

(** ** What the libraries provide *)

(** A decoded image, as far as the code looks at it. *)
Record PILImage : Type := {
  pil_size : Z * Z;              (* image.size: (width, height) *)
  pil_format : option string;    (* image.format *)
  pil_data : bytes               (* the pixels *)
}.

(** The imaging library. Decoding, encoding and resampling are not part of
    the repository; the code depends on them only through these calls. *)
Class PIL : Type := {
  (* Image.open(BytesIO(b)); None when the bytes are not an image *)
  PIL_open : bytes -> option PILImage;
  (* image.thumbnail(size), which changes the image in place *)
  PIL_thumbnail : PILImage -> Z * Z -> PILImage;
  (* image.resize(size, LANCZOS); None when the library refuses the size *)
  PIL_resize : PILImage -> Z * Z -> option PILImage;
  (* image.save(io, format=f); None when the encoder fails *)
  PIL_save : PILImage -> string -> option bytes
}.

(** app/core/config.py, as far as the storage service reads it, and
    [os.path.splitext(name)[1]]. *)
Class Settings : Type := {
  GCS_ORIGINAL_BUCKET : string;
  GCS_THUMBNAIL_BUCKET : string;
  splitext_ext : string -> string
}.

(** fastapi's UploadFile; [read()] is taken from position 0. *)
Record UploadFile : Type := {
  uf_filename : string;
  uf_content_type : option string;
  uf_content : bytes
}.

(** ** The object store (the google.cloud.storage calls) *)

Definition blob_upload (b : bucket) (key : string) (content : bytes)
    (ctype : option string) : M unit :=
  external (BlobUpload b key) GoogleCloudError
    (fun w => (Ok tt, set_bucket b (fun m => <[key := (content, ctype)]> m) w)).

Definition blob_download (b : bucket) (key : string) : M bytes :=
  external (BlobDownload b key) GoogleCloudError
    (fun w =>
       match get_bucket b w !! key with
       | Some (content, _) => (Ok content, w)
       | None => (Raise GoogleCloudError, w)
       end).

Definition blob_exists (b : bucket) (key : string) : M bool :=
  external (BlobExists b key) GoogleCloudError
    (fun w => (Ok (bool_decide (is_Some (get_bucket b w !! key))), w)).

Definition blob_delete (b : bucket) (key : string) : M unit :=
  external (BlobDelete b key) GoogleCloudError
    (fun w =>
       match get_bucket b w !! key with
       | Some _ => (Ok tt, set_bucket b (fun m => delete key m) w)
       | None => (Raise GoogleCloudError, w)
       end).

(** ** app/services/storage_service.py *)

Module StorageService.
Section WithLibraries.
Context `{PIL} `{Settings}.

(** The dict that upload_image returns. *)
Record StorageData : Type := {
  sd_filename : string;
  sd_hd_url : string;
  sd_content_type : option string;
  sd_file_size : Z
}.

Definition upload_image (file : UploadFile) (filename : option string)
    : M StorageData :=
  try_except
    (do filename <~
       match filename with
       | Some (String c s) => ret (String c s)
       | _ => do u <~ uuid4; ret (u +:+ splitext_ext (uf_filename file))
       end;
     let content := uf_content file in
     let file_size := Z.of_nat (length content) in
     do _ <~ blob_upload Originals filename content (uf_content_type file);
     let hd_url :=
       "https://storage.googleapis.com/" +:+ GCS_ORIGINAL_BUCKET +:+ "/" +:+ filename in
     ret {| sd_filename := filename; sd_hd_url := hd_url;
            sd_content_type := uf_content_type file; sd_file_size := file_size |})
    (fun e => raise (StorageException (str_exn e))).

Definition generate_thumbnail (filename : string) (content : bytes) : M string :=
  try_except
    (do content <~
       match content with
       | [] => blob_download Originals filename
       | _ :: _ => ret content
       end;
     do image <~
       match PIL_open content with
       | Some i => ret i
       | None => raise UnidentifiedImageError
       end;
     let image := PIL_thumbnail image (200, 200) in
     let image_format :=
       match pil_format image with
       | Some (String c s) => String c s
       | _ => "JPEG"
       end in
     do thumbnail_io <~
       match PIL_save image image_format with
       | Some b => ret b
       | None => raise OSError
       end;
     let thumbnail_filename := "thumb_" +:+ filename in
     do _ <~ blob_upload Thumbnails thumbnail_filename thumbnail_io
               (Some ("image/" +:+ string_map lower image_format));
     ret ("https://storage.googleapis.com/" +:+ GCS_THUMBNAIL_BUCKET +:+ "/"
          +:+ thumbnail_filename))
    (fun e => raise (StorageException (str_exn e))).

Definition delete_image (filename : string) : M bool :=
  try_except
    (do original_exists <~ blob_exists Originals filename;
     do _ <~ (if original_exists then blob_delete Originals filename else ret tt);
     let thumbnail_filename := "thumb_" +:+ filename in
     do thumbnail_exists <~ blob_exists Thumbnails thumbnail_filename;
     do _ <~ (if thumbnail_exists
              then blob_delete Thumbnails thumbnail_filename else ret tt);
     ret true)
    (fun e => raise (StorageException (str_exn e))).

End WithLibraries.
End StorageService.

(** ** src/services/image_service.py *)

Module ImageService.
Section WithLibraries.
Context `{PIL} `{Settings}.
Import models_image.

(** The query that get_images and count_images build. *)
Definition build_query (tags : option (list string)) (is_featured : option bool)
    : query :=
  {| q_tags := match tags with
               | Some (t :: ts) => Some (t :: ts)
               | _ => None
               end;
     q_is_featured := is_featured |}.

Fixpoint validate_all (now : Z) (docs : list document) : result (list Image) :=
  match docs with
  | [] => Ok []
  | d :: ds =>
      match validate now d with
      | Raise e => Raise e
      | Ok i =>
          match validate_all now ds with
          | Raise e => Raise e
          | Ok rest => Ok (i :: rest)
          end
      end
  end.

Definition get_images (skip limit : Z) (tags : option (list string))
    (is_featured : option bool) : M (list Image) :=
  let query := build_query tags is_featured in
  do images <~ find_to_list query skip limit limit;
  do now <~ utcnow;
  lift (validate_all now images).

Definition count_images (tags : option (list string)) (is_featured : option bool)
    : M Z :=
  let query := build_query tags is_featured in
  count_documents query.

Definition get_image (image_id : string) : M Image :=
  try_except
    (do o <~ lift (ObjectId_of image_id);
     do doc <~ find_one o;
     match doc with
     | None => raise ImageNotFoundException
     | Some d => do now <~ utcnow; lift (validate now d)
     end)
    (fun e => raise ImageNotFoundException).

Definition create_image (file : UploadFile) (image_data : document) : M Image :=
  try_except
    (do storage_data <~ StorageService.upload_image file None;
     let content := uf_content file in
     do thumbnail_url <~
       StorageService.generate_thumbnail
         (StorageService.sd_filename storage_data) content;
     do name <~ lift (getitem image_data "name");
     do now <~ utcnow;
     let new_image : document :=
       <["name" := name]>
       (<["description" := dict_get image_data "description" (VStr "")]>
       (<["filename" := VStr (StorageService.sd_filename storage_data)]>
       (<["thumbnail_url" := VStr thumbnail_url]>
       (<["hd_url" := VStr (StorageService.sd_hd_url storage_data)]>
       (<["file_size" := VInt (StorageService.sd_file_size storage_data)]>
       (<["content_type" :=
            from_option VStr VNull (StorageService.sd_content_type storage_data)]>
       (<["tags" := dict_get image_data "tags" (VList [])]>
       (<["downloads" := VInt 0]>
       (<["created_at" := VDate now]>
       (<["is_featured" := dict_get image_data "is_featured" (VBool false)]>
        ∅)))))))))) in
     do inserted_id <~ insert_one_image new_image;
     let new_image := <["_id" := VObjectId inserted_id]> new_image in
     do now' <~ utcnow;
     lift (validate now' new_image))
    (fun e => raise e).

Definition update_image (image_id : string) (image_data : document) : M Image :=
  try_except
    (do image <~ get_image image_id;
     do now <~ utcnow;
     let update_data : document :=
       filter (fun kv => kv.2 <> VNull) image_data ∪ {[ "updated_at" := VDate now ]} in
     do o <~ lift (ObjectId_of image_id);
     do _ <~ update_one_set o update_data;
     get_image image_id)
    (fun e => raise e).

Definition delete_image (image_id : string) : M bool :=
  try_except
    (do image <~ get_image image_id;
     do _ <~ StorageService.delete_image (filename image);
     do o <~ lift (ObjectId_of image_id);
     do deleted_count <~ delete_one o;
     ret (0 <? deleted_count))
    (fun e => raise e).

End WithLibraries.
End ImageService.

(** ** src/services/download_service.py *)

Module DownloadService.
Import models_download.

Definition record_download (image_id : string) (request_info : document)
    : M Download :=
  try_except
    (do o <~ lift (ObjectId_of image_id);
     do _ <~ update_one_inc o "downloads" 1;
     do now <~ utcnow;
     let download_data : document :=
       <["image_id" := VStr image_id]>
       (<["ip_address" := dict_get request_info "ip_address" (VStr "unknown")]>
       (<["user_agent" := dict_get request_info "user_agent" (VStr "unknown")]>
       (<["referer" := dict_get request_info "referer" VNull]>
       (<["country_code" := dict_get request_info "country_code" VNull]>
       (<["timestamp" := VDate now]> ∅))))) in
     do inserted_id <~ insert_one_download download_data;
     let download_data := <["_id" := VObjectId inserted_id]> download_data in
     do now' <~ utcnow;
     lift (validate now' download_data))
    (fun e => raise e).

Definition get_total_downloads : M value :=
  try_except
    (do result <~ aggregate_total;
     match result with
     | d :: _ => lift (getitem d "total")
     | [] => ret (VInt 0)
     end)
    (fun e => raise e).

Definition get_image_downloads (image_id : string) : M value :=
  try_except
    (do o <~ lift (ObjectId_of image_id);
     do image <~ find_one_projected o "downloads";
     match image with
     | Some d => lift (getitem d "downloads")
     | None => ret (VInt 0)
     end)
    (fun e => raise e).

End DownloadService.

(** ** app/api/v1/endpoints/downloads.py *)

(** The parts of the request that the endpoint reads. *)
Record Request : Type := {
  client_host : string;
  headers : gmap string string
}.

Module downloads_endpoints.
Section WithLibraries.
Context `{PIL} `{Settings}.

(** POST /downloads/{image_id}: the response is the download URL. *)
Definition download_image (image_id : string) (request : Request) : M string :=
  do image <~ ImageService.get_image image_id;
  let request_info : document :=
    <["ip_address" := VStr (client_host request)]>
    (<["user_agent" := VStr (default "unknown" (headers request !! "user-agent"))]>
    (<["referer" := from_option VStr VNull (headers request !! "referer")]> ∅)) in
  do _ <~ DownloadService.record_download image_id request_info;
  ret (models_image.hd_url image).

(** GET /downloads/total *)
Definition get_total_downloads : M value :=
  DownloadService.get_total_downloads.

(** GET /downloads/{image_id}/count *)
Definition get_image_downloads (image_id : string) : M value :=
  do _ <~ ImageService.get_image image_id;
  DownloadService.get_image_downloads image_id.

End WithLibraries.
End downloads_endpoints.

(** ** Python floats

    A Python float is an IEEE 754 binary64 number. Every finite binary64
    number is an integer multiple of 2^-1074, and a float is kept here as
    that integer. An operation computes the exact result and rounds it to
    the nearest representable number, ties to even. *)

Module binary64.

(** 1.0 *)
Definition one : Z := 2 ^ 1074.

(** The first magnitude that is too large to be finite. *)
Definition huge : Z := 2 ^ 2098.

(** The integer nearest to n/d, ties to even (0 <= n, 0 < d). *)
Definition rne (n d : Z) : Z :=
  let q := n / d in
  match 2 * (n mod d) ?= d with
  | Lt => q
  | Gt => q + 1
  | Eq => if Z.even q then q else q + 1
  end.

(** The binary64 number nearest to n/d units (0 <= n, 0 < d): 53
    significant bits, fewer below 2^-1022. *)
Definition round_pos (n d : Z) : Z :=
  let e := Z.max 0 (Z.log2 (n / d) - 52) in
  rne n (d * 2 ^ e) * 2 ^ e.

Definition round (n d : Z) : Z :=
  if n <? 0 then - round_pos (- n) d else round_pos n d.

Definition finite (x : Z) : result Z :=
  if Z.abs x <? huge then Ok x else Raise OverflowError.

(** [a / b] on two ints. *)
Definition int_truediv (a b : Z) : result Z :=
  if b =? 0 then Raise ZeroDivisionError
  else finite (round (Z.sgn b * a * one) (Z.abs b)).

(** [float(a)] *)
Definition of_int (a : Z) : result Z := finite (round (a * one) 1).

(** [a * x] on an int and a float. An infinite product is reported as
    the OverflowError that int() raises on it. *)
Definition int_mul (a : Z) (x : Z) : result Z :=
  match of_int a with
  | Raise e => Raise e
  | Ok fa => finite (round (fa * x) one)
  end.

(** [x < y] *)
Definition ltb (x y : Z) : bool := x <? y.

(** [min(x, y)]: the first of the smallest. *)
Definition py_min (x y : Z) : Z := if ltb y x then y else x.

(** [int(x)]: towards zero. *)
Definition to_int (x : Z) : Z := Z.quot x one.

End binary64.

(** ** app/utils/image_processing.py *)

Module image_processing.
Section WithLibraries.
Context `{PIL}.

Definition rbind {A B} (r : result A) (k : A -> result B) : result B :=
  match r with
  | Ok a => k a
  | Raise e => Raise e
  end.



(** The size computed by resize_image: None when the image is kept as it
    is, the new (width, height) when it is resized. *)
Definition new_dimensions (size max_size : Z * Z) : result (option (Z * Z)) :=
  let '(width, height) := size in
  rbind (binary64.int_truediv (fst max_size) width) (fun rw =>
  rbind (binary64.int_truediv (snd max_size) height) (fun rh =>
  let ratio := binary64.py_min rw rh in
  if binary64.ltb ratio binary64.one then
    rbind (binary64.int_mul width ratio) (fun fw =>
    let new_width := binary64.to_int fw in
    rbind (binary64.int_mul height ratio) (fun fh =>
    let new_height := binary64.to_int fh in
    Ok (Some (new_width, new_height))))
  else Ok None)).



Definition generate_thumbnail (image_bytes : bytes) (size : Z * Z)
    (format : string) : result bytes :=
  match PIL_open image_bytes with
  | None => Raise UnidentifiedImageError
  | Some image =>
      let image := PIL_thumbnail image size in
      match PIL_save image format with
      | Some b => Ok b
      | None => Raise OSError
      end
  end.

Definition get_image_dimensions (image_bytes : bytes) : result (Z * Z) :=
  match PIL_open image_bytes with
  | None => Raise UnidentifiedImageError
  | Some image => Ok (pil_size image)
  end.

End WithLibraries.
End image_processing.

(** ** Observations on a world *)

(** Neither store differs between the two worlds. *)
Definition same_stores (w w' : World) : Prop :=
  db_images w' = db_images w /\ db_downloads w' = db_downloads w /\
  original_bucket w' = original_bucket w /\ thumbnail_bucket w' = thumbnail_bucket w.

(** The calls made between [w] and [w'], in the order they were made. *)
Definition calls_between (w w' : World) : list call :=
  rev (take (length (trace w') - length (trace w))%nat (trace w')).

(** The document stored for an image id, if any. *)
Definition stored_image (image_id : string) (w : World) : option document :=
  match ObjectId_of image_id with
  | Ok o => List.find (has_id o) (db_images w)
  | Raise _ => None
  end.

(** The next external call succeeds. *)
Definition next_ok (w : World) : Prop := fails (env w) (length (trace w)) = false.

(** ** A small codec and configuration, to run the model on concrete inputs *)

(** Two bytes stand for an image: its width and its height, both
    positive. *)
Definition sample_PIL : PIL :=
  {| PIL_open b :=
       match b with
       | [w; h] =>
           if (0 <? Z.of_N (Byte.to_N w)) && (0 <? Z.of_N (Byte.to_N h))
           then Some {| pil_size := (Z.of_N (Byte.to_N w), Z.of_N (Byte.to_N h));
                        pil_format := Some "PNG"; pil_data := [] |}
           else None
       | _ => None
       end;
     PIL_thumbnail i sz :=
       {| pil_size := (Z.min (fst (pil_size i)) (fst sz), Z.min (snd (pil_size i)) (snd sz));
          pil_format := pil_format i; pil_data := pil_data i |};
     PIL_resize i sz :=
       if (0 <? fst sz) && (0 <? snd sz)
       then Some {| pil_size := sz; pil_format := None; pil_data := pil_data i |}
       else None;
     PIL_save i f :=
       match Byte.of_N (Z.to_N (fst (pil_size i))), Byte.of_N (Z.to_N (snd (pil_size i))) with
       | Some w, Some h => Some [w; h]
       | _, _ => None
       end |}.

(** [os.path.splitext(name)[1]]: the text from the last dot of the last
    path component on, unless only dots come before that dot. *)
Fixpoint has_char (c : ascii) (s : string) : bool :=
  match s with
  | EmptyString => false
  | String c' s' => Ascii.eqb c' c || has_char c s'
  end.

Fixpoint basename (s : string) : string :=
  match s with
  | EmptyString => EmptyString
  | String c s' =>
      if has_char "/" s' then basename s'
      else if Ascii.eqb c "/" then s' else s
  end.

Fixpoint skip_dots (s : string) : string :=
  match s with
  | String c s' => if Ascii.eqb c "." then skip_dots s' else s
  | EmptyString => EmptyString
  end.

Fixpoint from_last_dot (s : string) : option string :=
  match s with
  | EmptyString => None
  | String c s' =>
      match from_last_dot s' with
      | Some e => Some e
      | None => if Ascii.eqb c "." then Some s else None
      end
  end.

Definition posix_splitext_ext (name : string) : string :=
  default EmptyString (from_last_dot (skip_dots (basename name))).

Definition sample_settings : Settings :=
  {| GCS_ORIGINAL_BUCKET := "originals";
     GCS_THUMBNAIL_BUCKET := "thumbnails";
     splitext_ext := posix_splitext_ext |}.

Definition hex_digit (n : nat) : ascii :=
  nth n (list_ascii_of_string "0123456789abcdef") "0"%char.

(** [n] in [digits] hex digits. *)
Fixpoint hex_of (digits n : nat) : string :=
  match digits with
  | O => ""
  | S d => hex_of d (n / 16) +:+ String (hex_digit (n mod 16)) ""
  end.

(** An environment in which every call succeeds, except the calls whose
    index is listed; the store numbers the ids it hands out. *)
Definition sample_env (failing : list nat) : Env :=
  {| fails := fun n => bool_decide (n ∈ failing);
     utcnow_at := fun n => 1700000000 + Z.of_nat n;
     object_id_at := fun n => "65a0000000000000" +:+ hex_of 8 n;
     uuid4_at := fun _ => "0b3f2c1e-7a4d-4e55-9c1f-2d6a8e9b0c11" |}.

Definition empty_world (failing : list nat) : World :=
  {| db_images := []; db_downloads := [];
     original_bucket := ∅; thumbnail_bucket := ∅;
     trace := []; env := sample_env failing |}.

(** A stored image document, with the fields that create_image writes. *)
Definition image_doc (o name filename : string) (count created : Z)
    (tags : list string) (featured : bool) : document :=
  <["_id" := VObjectId o]>
  (<["name" := VStr name]>
  (<["description" := VStr ""]>
  (<["filename" := VStr filename]>
  (<["thumbnail_url" := VStr ("https://storage.googleapis.com/thumbnails/thumb_" +:+ filename)]>
  (<["hd_url" := VStr ("https://storage.googleapis.com/originals/" +:+ filename)]>
  (<["file_size" := VInt 2]>
  (<["content_type" := VStr "image/png"]>
  (<["tags" := VList tags]>
  (<["downloads" := VInt count]>
  (<["created_at" := VDate created]>
  (<["is_featured" := VBool featured]> ∅))))))))))).

Definition cat_id : string := "507f1f77bcf86cd799439011".

Definition cat_doc : document :=
  image_doc cat_id "cat" "cat.png" 3 1700000000 ["pets"; "cats"] true.

(** A store that holds the one image [cat_doc] and its two blobs. *)
Definition cat_world (failing : list nat) : World :=
  {| db_images := [cat_doc]; db_downloads := [];
     original_bucket := {[ "cat.png" := ([Byte.x32; Byte.x1e], Some "image/png") ]};
     thumbnail_bucket := {[ "thumb_cat.png" := ([Byte.x32; Byte.x1e], Some "image/png") ]};
     trace := []; env := sample_env failing |}.

Definition sample_request : Request :=
  {| client_host := "203.0.113.7";
     headers := {[ "user-agent" := "curl/8.0" ]} |}.

(** The calls to the object store. *)
Definition blob_call (c : call) : Prop :=
  match c with
  | BlobUpload _ _ | BlobDownload _ _ | BlobExists _ _ | BlobDelete _ _ => True
  | _ => False
  end.

(** The calls of a complete create_image, in order: the original is
    uploaded, read back only when the file was empty, then the thumbnail is
    uploaded and the document inserted. *)
Definition create_image_calls (filename : string) (content : bytes) : list call :=
  [BlobUpload Originals filename]
  ++ match content with
     | [] => [BlobDownload Originals filename]
     | _ :: _ => []
     end
  ++ [BlobUpload Thumbnails ("thumb_" +:+ filename); DbInsertImage].

(** A client that downloads the same image once per request, one request
    after the other. *)
Fixpoint download_each (image_id : string) (requests : list Request)
    : M (list string) :=
  match requests with
  | [] => ret []
  | request :: rest =>
      do url <~ downloads_endpoints.download_image image_id request;
      do urls <~ download_each image_id rest;
      ret (url :: urls)
  end.

(** ** app/schemas/image.py: the update schema *)

Module schemas_image.

Record ImageUpdate : Type := {
  name : option string;
  description : option string;
  tags : option (list string);
  is_featured : option bool
}.

(** The dict of an ImageUpdate: its four fields, None where unset. *)
Definition dict (p : ImageUpdate) : document :=
  <["name" := from_option VStr VNull (name p)]>
  (<["description" := from_option VStr VNull (description p)]>
  (<["tags" := from_option VList VNull (tags p)]>
  (<["is_featured" := from_option VBool VNull (is_featured p)]> ∅))).

End schemas_image.

(** ** src/api/v1/endpoints/images.py *)

Module images_endpoints.

(** GET /images: the response holds the page and the total. *)
Definition get_images (skip limit : Z) (tags : option (list string))
    (featured : option bool) : M (list models_image.Image * Z) :=
  do images <~ ImageService.get_images skip limit tags featured;
  do total_count <~ ImageService.count_images tags featured;
  ret (images, total_count).

(** GET /images/{image_id} *)
Definition get_image (image_id : string) : M models_image.Image :=
  ImageService.get_image image_id.

(** [s.split(",")] for a one-character separator: empty pieces are kept. *)
Fixpoint split_on (sep : ascii) (s : string) : list string :=
  match s with
  | EmptyString => [EmptyString]
  | String c s' =>
      if Ascii.eqb c sep then EmptyString :: split_on sep s'
      else
        match split_on sep s' with
        | x :: xs => String c x :: xs
        | [] => [String c EmptyString]
        end
  end.

Section WithLibraries.
Context `{PIL} `{Settings}.

(** POST /images, after the form has been parsed. *)
Definition create_image (name : string) (description tags : option string)
    (is_featured : option bool) (file : UploadFile) : M models_image.Image :=
  let tags_list :=
    match tags with
    | Some (String c s) => split_on "," (String c s)
    | _ => []
    end in
  let image_data : document :=
    <["name" := VStr name]>
    (<["description" :=
         VStr match description with
              | Some (String c s) => String c s
              | _ => EmptyString
              end]>
    (<["tags" := VList tags_list]>
    (<["is_featured" := from_option VBool VNull is_featured]> ∅))) in
  ImageService.create_image file image_data.

(** DELETE /images/{image_id}: the response has no body. *)
Definition delete_image (image_id : string) : M unit :=
  do _ <~ ImageService.delete_image image_id;
  ret tt.

End WithLibraries.

End images_endpoints.

(** Newest first. *)
Definition newest_first (a b : models_image.Image) : Prop :=
  models_image.created_at b <= models_image.created_at a.

(** Descending on field [k], in the order of the store. *)
Definition desc_on (k : string) (a b : document) : Prop :=
  bson_leb (b !! k) (a !! k) = true.

(** The exact scale min(mw / w, mh / h) of resize_image, as a fraction
    (numerator, denominator). *)
Definition exact_scale (size max_size : Z * Z) : Z * Z :=
  if fst max_size * snd size <=? snd max_size * fst size
  then (fst max_size, fst size)
  else (snd max_size, snd size).

(** Three stored images: two featured, one not; two carry both tags. *)
Definition dawn_id : string := "64b000000000000000000001".
Definition noon_id : string := "64b000000000000000000002".
Definition dusk_id : string := "64b000000000000000000003".

Definition gallery_world (failing : list nat) : World :=
  {| db_images :=
       [ image_doc dawn_id "dawn" "dawn.png" 0 10 ["sky"] true;
         image_doc noon_id "noon" "noon.png" 0 30 ["sky"; "sun"] true;
         image_doc dusk_id "dusk" "dusk.png" 0 20 ["sky"; "sun"] false ];
     db_downloads := [];
     original_bucket := ∅; thumbnail_bucket := ∅;
     trace := []; env := sample_env failing |}.

(** A two-byte file that [sample_PIL] decodes as a 50 x 30 image, and form
    data for it. *)
Definition cat_file : UploadFile :=
  {| uf_filename := "cat.png"; uf_content_type := Some "image/png";
     uf_content := [Byte.x32; Byte.x1e] |}.

Definition cat_data : document :=
  <["name" := VStr "cat"]> (<["tags" := VList ["pets"]]> ∅).

(** A file whose bytes are not an image. *)
Definition junk_file : UploadFile :=
  {| uf_filename := "notes.txt"; uf_content_type := Some "text/plain";
     uf_content := [Byte.x68; Byte.x69; Byte.x21] |}.

(** A patch that renames an image and leaves the rest alone. *)
Definition rename_patch : schemas_image.ImageUpdate :=
  {| schemas_image.name := Some "tabby"; schemas_image.description := None;
     schemas_image.tags := None; schemas_image.is_featured := None |}.

(** The scenario of the specification: create an image, read its counter,
    download it three times, read the counter and the total again. *)
Definition scenario `{PIL} `{Settings} : M (value * value * value) :=
  do image <~ ImageService.create_image cat_file cat_data;
  let image_id := default "" (models_image.id image) in
  do before <~ DownloadService.get_image_downloads image_id;
  do _ <~ download_each image_id [sample_request; sample_request; sample_request];
  do after <~ DownloadService.get_image_downloads image_id;
  do total <~ DownloadService.get_total_downloads;
  ret (before, after, total).

(** [",".join(l)] *)
Fixpoint join_with (sep : ascii) (l : list string) : string :=
  match l with
  | [] => EmptyString
  | [x] => x
  | x :: rest => x +:+ String sep (join_with sep rest)
  end.

Fixpoint string_mem (c : ascii) (s : string) : bool :=
  match s with
  | EmptyString => false
  | String c' s' => Ascii.eqb c' c || string_mem c s'
  end.

(** The ObjectIds of the documents of a collection, in order. *)
Definition doc_object_id (d : document) : option ObjectId :=
  match d !! "_id" with
  | Some (VObjectId o) => Some o
  | _ => None
  end.

Definition object_ids (l : list document) : list ObjectId := omap doc_object_id l.

(** No two stored images share an _id (the unique index of the store). *)
Definition unique_ids (l : list document) : Prop := NoDup (object_ids l).

(** An operation that keeps the ids of the image collection unique. *)
Definition keeps_ids {A} (m : M A) : Prop :=
  forall w, unique_ids (db_images w) -> unique_ids (db_images (m w).2).

(** ** src/db/init_db.py

    The catalog of the database: its collections and their single-field
    indexes. Creating a collection that exists is refused by the store
    (CollectionInvalid, a PyMongoError); creating an index creates its
    collection when needed and is a no-op when the index exists. *)

Module db_init.

Record Catalog : Type := {
  collections : gset string;
  indexes : gset (string * string)
}.

Definition list_collection_names (c : Catalog) : gset string := collections c.

Definition create_collection (name : string) (c : Catalog) : result Catalog :=
  if decide (name ∈ collections c) then Raise PyMongoError
  else Ok {| collections := {[ name ]} ∪ collections c; indexes := indexes c |}.

Definition create_index (collection field : string) (c : Catalog) : Catalog :=
  {| collections := {[ collection ]} ∪ collections c;
     indexes := {[ (collection, field) ]} ∪ indexes c |}.

Definition init_db (c : Catalog) : result Catalog :=
  let names := list_collection_names c in
  match (if decide ("images" ∈ names) then Ok c else create_collection "images" c) with
  | Raise e => Raise e
  | Ok c =>
      match (if decide ("downloads" ∈ names) then Ok c
             else create_collection "downloads" c) with
      | Raise e => Raise e
      | Ok c =>
          let c := create_index "images" "name" c in
          let c := create_index "images" "tags" c in
          let c := create_index "images" "created_at" c in
          let c := create_index "images" "is_featured" c in
          let c := create_index "downloads" "image_id" c in
          let c := create_index "downloads" "timestamp" c in
          let c := create_index "downloads" "ip_address" c in
          Ok c
      end
  end.

(** The indexes that init_db asks for. *)
Definition wanted_indexes : gset (string * string) :=
  {[ ("images", "name"); ("images", "tags"); ("images", "created_at");
     ("images", "is_featured"); ("downloads", "image_id");
     ("downloads", "timestamp"); ("downloads", "ip_address") ]}.

End db_init.

(** The record that get_image returns for [cat_doc]. *)
Definition cat_image : models_image.Image :=
  {| models_image.id := Some cat_id; models_image.name := "cat";
     models_image.description := ""; models_image.filename := "cat.png";
     models_image.thumbnail_url :=
       "https://storage.googleapis.com/thumbnails/thumb_cat.png";
     models_image.hd_url := "https://storage.googleapis.com/originals/cat.png";
     models_image.file_size := 2; models_image.content_type := "image/png";
     models_image.downloads := 3; models_image.tags := ["pets"; "cats"];
     models_image.created_at := 1700000000; models_image.updated_at := None;
     models_image.is_featured := true |}.

(** The image [cat_file], sent as a part that has no content type. *)
Definition untyped_file : UploadFile :=
  {| uf_filename := "cat.png"; uf_content_type := None;
     uf_content := [Byte.x32; Byte.x1e] |}.

(** A store whose one document lacks the field [k]. *)
Definition world_without (k : string) : World :=
  {| db_images := [delete k cat_doc]; db_downloads := [];
     original_bucket := ∅; thumbnail_bucket := ∅;
     trace := []; env := sample_env [] |}.

(** [cat_id] with its letters in upper case. *)
Definition cat_id_upper : string := "507F1F77BCF86CD799439011".

(** A dict for update_image that names the download counter. *)
Definition reset_counter : document := <["downloads" := VInt 0]> ∅.

(** ASCII white space, as [bytes.fromhex] skips it. *)
Definition is_space (c : ascii) : bool :=
  let n := Z.of_nat (nat_of_ascii c) in
  (((9 <=? n) && (n <=? 13)) || (n =? 32))%Z.

(** The texts that [ObjectId] refuses for certain: those that are not 24
    characters long, and those that hold a character that is neither a hex
    digit nor white space. *)
Definition bson_rejects (id_str : string) : bool :=
  negb (Nat.eqb (String.length id_str) 24)
  || negb (string_forallb (fun c => is_hex c || is_space c) id_str).

(** Two records that agree on every field but the creation time. *)
Definition same_but_created_at (a b : models_image.Image) : Prop :=
  models_image.id a = models_image.id b /\
  models_image.name a = models_image.name b /\
  models_image.description a = models_image.description b /\
  models_image.filename a = models_image.filename b /\
  models_image.thumbnail_url a = models_image.thumbnail_url b /\
  models_image.hd_url a = models_image.hd_url b /\
  models_image.file_size a = models_image.file_size b /\
  models_image.content_type a = models_image.content_type b /\
  models_image.downloads a = models_image.downloads b /\
  models_image.tags a = models_image.tags b /\
  models_image.updated_at a = models_image.updated_at b /\
  models_image.is_featured a = models_image.is_featured b.

(** Every document has a creation date and no two have the same: the
    order of the documents by creation date is then the same for every
    sort. *)
Definition dated_apart (l : list document) : bool :=
  forallb (fun d => match d !! "created_at" with
                    | Some (VDate _) => true
                    | _ => false
                    end) l
  && bool_decide (NoDup ((fun d : document => d !! "created_at") <$> l)).

(** ** Properties *)

Section Properties.
Context `{PIL} `{Settings}.

Lemma get_image_eq (image_id : string) (w : World) :
  ImageService.get_image image_id w =
  match ObjectId_of image_id with
  | Raise _ => (Raise ImageNotFoundException, w)
  | Ok o =>
      let w1 := log (DbFindOne o) w in
      if fails (env w) (length (trace w)) then (Raise ImageNotFoundException, w1)
      else
        match List.find (has_id o) (db_images w) with
        | None => (Raise ImageNotFoundException, w1)
        | Some d =>
            match models_image.validate (utcnow_at (env w) (S (length (trace w)))) d with
            | Ok i => (Ok i, w1)
            | Raise _ => (Raise ImageNotFoundException, w1)
            end
        end
  end.
Proof.
  unfold ImageService.get_image, try_except, bind, lift, find_one, external, raise, utcnow.
  destruct (ObjectId_of image_id) as [o|e]; [|reflexivity].
  simpl. destruct (fails (env w) (length (trace w))); [reflexivity|].
  destruct (List.find (has_id o) (db_images w)) as [d|]; [|reflexivity].
  simpl. destruct (models_image.validate _ d); reflexivity.
Qed.

Lemma get_image_frame (image_id : string) (w : World) :
  same_stores w (ImageService.get_image image_id w).2 /\
  env (ImageService.get_image image_id w).2 = env w /\
  (trace (ImageService.get_image image_id w).2 = trace w \/
   exists o, ObjectId_of image_id = Ok o /\
             trace (ImageService.get_image image_id w).2 = DbFindOne o :: trace w).
Proof.
  rewrite get_image_eq. unfold same_stores.
  destruct (ObjectId_of image_id) as [o|e]; simpl; [|tauto].
  assert (Hr : exists o0, Ok o = Ok o0 /\ DbFindOne o :: trace w = DbFindOne o0 :: trace w)
    by (exists o; tauto).
  destruct (fails (env w) (length (trace w))); simpl; [tauto|].
  destruct (List.find (has_id o) (db_images w)) as [d|]; simpl; [|tauto].
  destruct (models_image.validate _ d); simpl; tauto.
Qed.

Lemma get_image_missing (image_id : string) (w : World) :
  stored_image image_id w = None ->
  (ImageService.get_image image_id w).1 = Raise ImageNotFoundException.
Proof.
  unfold stored_image. rewrite get_image_eq.
  destruct (ObjectId_of image_id) as [o|e]; simpl; [|reflexivity].
  intros ->. destruct (fails (env w) (length (trace w))); reflexivity.
Qed.

Lemma get_image_raises (image_id : string) (w : World) (e : exn) :
  (ImageService.get_image image_id w).1 = Raise e -> e = ImageNotFoundException.
Proof.
  rewrite get_image_eq.
  destruct (ObjectId_of image_id) as [o|e0]; simpl; [|congruence].
  destruct (fails (env w) (length (trace w))); simpl; [congruence|].
  destruct (List.find (has_id o) (db_images w)) as [d|]; simpl; [|congruence].
  destruct (models_image.validate _ d); simpl; congruence.
Qed.

(** C1. For an image id under which no image is stored (a malformed id
    included), the download operation of the API, [download_image], fails
    with the not-found exception; no download event is inserted, no image
    document (hence no counter) changes, no blob changes, and the only call
    that may have reached the store is the lookup. *)
Theorem download_image_missing (image_id : string) (request : Request) (w : World) :
  stored_image image_id w = None ->
  exists w',
    downloads_endpoints.download_image image_id request w
      = (Raise ImageNotFoundException, w') /\
    db_downloads w' = db_downloads w /\
    db_images w' = db_images w /\
    original_bucket w' = original_bucket w /\
    thumbnail_bucket w' = thumbnail_bucket w /\
    (trace w' = trace w \/ exists o, trace w' = DbFindOne o :: trace w).
Proof.
  intros Hmiss.
  pose proof (get_image_missing image_id w Hmiss) as Hr.
  pose proof (get_image_frame image_id w) as (Hs & _ & Ht).
  unfold downloads_endpoints.download_image, bind.
  destruct (ImageService.get_image image_id w) as [r w'] eqn:E.
  simpl in *. subst r. exists w'. destruct Hs as (? & ? & ? & ?).
  repeat split; try assumption.
  destruct Ht as [Ht | (o & _ & Ht)]; [left | right; exists o]; exact Ht.
Qed.

(** *** The lenient counter lookup *)

Lemma project_lookup (k : string) (d : document) : project k d !! k = d !! k.
Proof.
  unfold project. rewrite map_lookup_filter.
  destruct (d !! k) as [v|]; simpl; [|reflexivity].
  rewrite option_guard_True; [reflexivity | right; reflexivity].
Qed.

Lemma get_image_downloads_eq (image_id : string) (w : World) :
  DownloadService.get_image_downloads image_id w =
  match ObjectId_of image_id with
  | Raise e => (Raise e, w)
  | Ok o =>
      let w1 := log (DbFindOne o) w in
      if fails (env w) (length (trace w)) then (Raise PyMongoError, w1)
      else
        match List.find (has_id o) (db_images w) with
        | None => (Ok (VInt 0), w1)
        | Some d => (getitem d "downloads", w1)
        end
  end.
Proof.
  unfold DownloadService.get_image_downloads, try_except, bind, lift,
    find_one_projected, external, raise, ret.
  destruct (ObjectId_of image_id) as [o|e]; [|reflexivity].
  simpl. destruct (fails (env w) (length (trace w))); [reflexivity|].
  destruct (List.find (has_id o) (db_images w)) as [d|]; simpl; [|reflexivity].
  unfold getitem. rewrite project_lookup. destruct (d !! "downloads"); reflexivity.
Qed.

(** C6. For a well-formed id and a store that answers, the counter lookup
    of the download service returns the value stored in the image's
    downloads field, and returns 0, not an error, when no image has the id.
    It never changes a store. *)
Theorem get_image_downloads_lenient (image_id : string) (o : ObjectId) (w : World) :
  ObjectId_of image_id = Ok o ->
  next_ok w ->
  (forall d v, List.find (has_id o) (db_images w) = Some d ->
               d !! "downloads" = Some v ->
               (DownloadService.get_image_downloads image_id w).1 = Ok v) /\
  (List.find (has_id o) (db_images w) = None ->
   (DownloadService.get_image_downloads image_id w).1 = Ok (VInt 0)) /\
  same_stores w (DownloadService.get_image_downloads image_id w).2.
Proof.
  intros Ho Hok. unfold next_ok in Hok.
  rewrite get_image_downloads_eq, Ho. simpl. rewrite Hok.
  repeat split.
  - intros d v -> Hv. simpl. unfold getitem. rewrite Hv. reflexivity.
  - intros ->. reflexivity.
  - destruct (List.find (has_id o) (db_images w)); reflexivity.
  - destruct (List.find (has_id o) (db_images w)); reflexivity.
  - destruct (List.find (has_id o) (db_images w)); reflexivity.
  - destruct (List.find (has_id o) (db_images w)); reflexivity.
Qed.

(** The HTTP route GET /downloads/{image_id}/count is stricter than the
    service: it looks the image up with get_image first. *)
Remark get_image_downloads_route_missing (image_id : string) (w : World) :
  stored_image image_id w = None ->
  (downloads_endpoints.get_image_downloads image_id w).1 = Raise ImageNotFoundException.
Proof.
  intros Hmiss. pose proof (get_image_missing image_id w Hmiss) as Hr.
  unfold downloads_endpoints.get_image_downloads, bind.
  destruct (ImageService.get_image image_id w) as [r w']. simpl in Hr. subst r.
  reflexivity.
Qed.

(** A malformed id is not looked up at all by the service. *)
Remark get_image_downloads_malformed (image_id : string) (w : World) :
  is_valid_object_id image_id = false ->
  DownloadService.get_image_downloads image_id w = (Raise InvalidId, w).
Proof.
  intros Hbad. rewrite get_image_downloads_eq. unfold ObjectId_of. rewrite Hbad.
  reflexivity.
Qed.

(** *** The total over all images *)

Lemma get_total_downloads_eq (w : World) :
  DownloadService.get_total_downloads w =
  let w1 := log DbAggregate w in
  if fails (env w) (length (trace w)) then (Raise PyMongoError, w1)
  else
    match db_images w with
    | [] => (Ok (VInt 0), w1)
    | _ :: _ =>
        (Ok (VInt (foldr (fun d acc => numeric (d !! "downloads") + acc) 0 (db_images w))),
         w1)
    end.
Proof.
  unfold DownloadService.get_total_downloads, try_except, bind, lift,
    aggregate_total, external, raise, ret.
  simpl. destruct (fails (env w) (length (trace w))); [reflexivity|].
  destruct (db_images w) as [|d l]; reflexivity.
Qed.

(** C10. With no image document in the store, and a store that answers,
    the total is the integer 0: the aggregation yields no group and the
    empty result list is mapped to 0. *)
Theorem get_total_downloads_empty (w : World) :
  db_images w = [] ->
  next_ok w ->
  group_total (db_images w) = [] /\
  DownloadService.get_total_downloads w = (Ok (VInt 0), log DbAggregate w).
Proof.
  intros Hempty Hok. unfold next_ok in Hok.
  rewrite get_total_downloads_eq. simpl. rewrite Hok, Hempty. split; reflexivity.
Qed.

(** On a store with images the total is the sum of their counters. *)
Lemma get_total_downloads_sum (w : World) :
  db_images w <> [] ->
  next_ok w ->
  (DownloadService.get_total_downloads w).1 =
  Ok (VInt (foldr (fun d acc => numeric (d !! "downloads") + acc) 0 (db_images w))).
Proof.
  intros Hne Hok. unfold next_ok in Hok.
  rewrite get_total_downloads_eq. simpl. rewrite Hok.
  destruct (db_images w); [congruence | reflexivity].
Qed.

(** *** Failures of the read path *)

(** Every failure inside get_image, a failed store call included, leaves
    it as the not-found exception, which the client sees as a 404. *)
Lemma get_image_store_fault (image_id : string) (o : ObjectId) (w : World) :
  ObjectId_of image_id = Ok o ->
  fails (env w) (length (trace w)) = true ->
  ImageService.get_image image_id w = (Raise ImageNotFoundException, log (DbFindOne o) w).
Proof.
  intros Ho Hf. rewrite get_image_eq, Ho. simpl. rewrite Hf. reflexivity.
Qed.

(** C4, evaluated: the image [cat_doc] is stored, the lookup call fails in
    the store, and get_image reports that the image is not found (404,
    "Image not found"), where the same fault in the counter lookup is let
    through as it is (500 with the generic message). *)
Example get_image_masks_store_fault :
  is_Some (stored_image cat_id (cat_world [0%nat])) /\
  (ImageService.get_image cat_id (cat_world [0%nat])).1 = Raise ImageNotFoundException /\
  http_status ImageNotFoundException = 404 /\
  (DownloadService.get_image_downloads cat_id (cat_world [0%nat])).1 = Raise PyMongoError /\
  http_status PyMongoError = 500 /\
  http_detail PyMongoError = "An unexpected error occurred".
Proof. split; [eexists; reflexivity|]. split_and!; vm_compute; reflexivity. Qed.

(** *** Deleting an image *)

Ltac split_calls :=
  repeat (simpl;
    match goal with
    | |- context [fails ?e ?n] =>
        let F := fresh "F" in destruct (fails e n) eqn:F
    | |- context [match ?m !! ?k with _ => _ end] =>
        let L := fresh "L" in destruct (m !! k) as [[? ?]|] eqn:L
    | |- context [bool_decide ?P] =>
        let B := fresh "B" in destruct (bool_decide P) eqn:B
    end).

Ltac no_fault :=
  match goal with
  | Hk : forall k, fails _ k = false, F : fails _ _ = true |- _ =>
      rewrite Hk in F; discriminate F
  end.

Ltac prefix_of t w :=
  match t with
  | trace w => constr:(@nil call)
  | ?c :: ?t' => let r := prefix_of t' w in constr:(c :: r)
  end.

(** Solves [exists l, t = l ++ trace w /\ ...] when [t] is [trace w] under
    a few conses. *)
Ltac give_prefix :=
  match goal with
  | |- exists l, ?t = l ++ trace ?w /\ _ =>
      let p := prefix_of t w in exists p; split; [reflexivity|]
  end.

Lemma delete_absent {A} (k : string) (m : gmap string A) :
  m !! k = None -> delete k m = m.
Proof. intros Hk. apply delete_id. exact Hk. Qed.

Lemma not_exists_lookup {A} (k : string) (m : gmap string A) :
  bool_decide (is_Some (m !! k)) = false -> m !! k = None.
Proof.
  intros Hb. apply bool_decide_eq_false in Hb.
  destruct (m !! k); [exfalso; apply Hb; eauto | reflexivity].
Qed.

Lemma storage_delete_image_spec (filename : string) (w : World) :
  let r := (StorageService.delete_image filename w).1 in
  let w' := (StorageService.delete_image filename w).2 in
  (exists l, trace w' = l ++ trace w /\ Forall blob_call l) /\
  db_images w' = db_images w /\ db_downloads w' = db_downloads w /\ env w' = env w /\
  match r with
  | Ok b =>
      b = true /\
      original_bucket w' = delete filename (original_bucket w) /\
      thumbnail_bucket w' = delete ("thumb_" +:+ filename) (thumbnail_bucket w)
  | Raise e => exists d, e = StorageException d
  end /\
  ((forall k, fails (env w) k = false) -> r = Ok true).
Proof.
  unfold StorageService.delete_image, try_except, bind, blob_exists, blob_delete,
    external, ret, raise.
  split_calls.
  all: try solve [exfalso;
    match goal with
    | B : bool_decide (is_Some _) = _ |- _ => cbv in B; discriminate B
    end].
  all: simpl; (split; [give_prefix; repeat constructor|]).
  all: repeat split; try reflexivity; eauto; try (intros; no_fault).
  all: try (symmetry; apply delete_absent; assumption).
  all: symmetry; apply delete_absent, not_exists_lookup; assumption.
Qed.

Lemma find_existsb {A} (p : A -> bool) (l : list A) (d : A) :
  List.find p l = Some d -> existsb p l = true.
Proof.
  induction l as [|x l IH]; simpl; [discriminate|].
  destruct (p x); [reflexivity | exact IH].
Qed.

Lemma get_image_ok (image_id : string) (w : World) (img : models_image.Image) :
  (ImageService.get_image image_id w).1 = Ok img ->
  exists o d,
    ObjectId_of image_id = Ok o /\
    List.find (has_id o) (db_images w) = Some d /\
    models_image.validate (utcnow_at (env w) (S (length (trace w)))) d = Ok img /\
    fails (env w) (length (trace w)) = false /\
    (ImageService.get_image image_id w).2 = log (DbFindOne o) w.
Proof.
  rewrite get_image_eq.
  destruct (ObjectId_of image_id) as [o|e]; simpl; [|discriminate].
  destruct (fails (env w) (length (trace w))) eqn:Ff; simpl; [discriminate|].
  destruct (List.find (has_id o) (db_images w)) as [d|] eqn:Fd; simpl; [|discriminate].
  destruct (models_image.validate _ d) eqn:V; simpl; [|discriminate].
  intros [= ->]. exists o, d. repeat split; assumption || reflexivity.
Qed.

(** C5. delete_image first fetches the record and fails with the not-found
    exception, changing nothing, when there is none. It then removes the
    two blobs and only afterwards the metadata document: when the storage
    step fails (StorageException) the image documents are unchanged and
    delete_one was never called; when the operation succeeds its calls are
    the lookup, then object store calls only, then delete_one, and both
    blobs and the document are gone. A blob that is already absent is no
    error: with a record present and no failing call the operation
    succeeds whatever the buckets hold. (Traces list the latest call
    first.) *)
Theorem delete_image_storage_first (image_id : string) (w : World) :
  let r := (ImageService.delete_image image_id w).1 in
  let w' := (ImageService.delete_image image_id w).2 in
  (stored_image image_id w = None ->
   r = Raise ImageNotFoundException /\ same_stores w w') /\
  (forall d, r = Raise (StorageException d) ->
     db_images w' = db_images w /\
     exists l, trace w' = l ++ trace w /\ forall o, DbDeleteOne o ∉ l) /\
  (forall b, r = Ok b ->
     exists o img l,
       ObjectId_of image_id = Ok o /\
       (ImageService.get_image image_id w).1 = Ok img /\
       trace w' = DbDeleteOne o :: l ++ DbFindOne o :: trace w /\
       Forall blob_call l /\
       original_bucket w' = delete (models_image.filename img) (original_bucket w) /\
       thumbnail_bucket w'
         = delete ("thumb_" +:+ models_image.filename img) (thumbnail_bucket w) /\
       db_images w' = remove_first (has_id o) (db_images w)) /\
  (forall img, (ImageService.get_image image_id w).1 = Ok img ->
     (forall k, fails (env w) k = false) -> r = Ok true).
Proof.
  pose proof (get_image_frame image_id w) as (Hs & He & Ht).
  pose proof (get_image_missing image_id w) as Hmiss.
  pose proof (get_image_raises image_id w) as Hraise.
  pose proof (get_image_ok image_id w) as Hok.
  unfold ImageService.delete_image, try_except, bind.
  destruct (ImageService.get_image image_id w) as [[img|e] w1] eqn:E1; simpl in *.
  2:{ specialize (Hraise e eq_refl). subst e. unfold raise. simpl.
      split; [intros _; split; [reflexivity | exact Hs]|].
      split; [intros d [=]|]. split; [intros b [=]|]. intros img [=]. }
  destruct (Hok img eq_refl) as (o & doc & Ho & Hfind & Hval & Hf & Hw1). subst w1.
  pose proof (storage_delete_image_spec (models_image.filename img) (log (DbFindOne o) w))
    as (Hl & Hi & Hd & Henv & Hres & Hfine).
  destruct (StorageService.delete_image (models_image.filename img) (log (DbFindOne o) w))
    as [[b|e] w2] eqn:E2; simpl in *.
  2:{ destruct Hres as (d0 & ->). unfold raise. simpl.
      destruct Hl as (l & Hl & Hbl).
      split; [intros Hnone; specialize (Hmiss Hnone); discriminate|].
      split.
      - intros d _. split; [congruence|].
        exists (l ++ [DbFindOne o]). rewrite Hl, <- app_assoc. split; [reflexivity|].
        intros o' Hin. apply elem_of_app in Hin as [Hin | Hin].
        + rewrite Forall_forall in Hbl. apply (Hbl _ Hin).
        + apply list_elem_of_singleton in Hin. discriminate.
      - split; [intros; discriminate|].
        intros img' [= <-] Hk. specialize (Hfine Hk). discriminate. }
  destruct Hres as (-> & Horig & Hthumb).
  destruct Hl as (l & Hl & Hbl).
  unfold lift. rewrite Ho. unfold delete_one, external, ret, raise.
  rewrite Henv. simpl.
  destruct (fails (env w) (length (trace w2))) eqn:F; simpl.
  { split; [intros Hnone; specialize (Hmiss Hnone); discriminate|].
    split; [intros d [=]|]. split; [intros b [=]|].
    intros img' _ Hk. rewrite Hk in F. discriminate. }
  rewrite Hi. rewrite (find_existsb _ _ _ Hfind). simpl.
  split; [intros Hnone; specialize (Hmiss Hnone); discriminate|].
  split; [intros d [=]|].
  split; [|intros; reflexivity].
  intros b _. exists o, img, l. rewrite Hl, Hi.
  repeat split; assumption || reflexivity.
Qed.

(** *** Download accounting *)

Lemma record_download_ok (image_id : string) (request_info : document) (w w' : World)
    (dl : models_download.Download) :
  DownloadService.record_download image_id request_info w = (Ok dl, w') ->
  exists o,
    ObjectId_of image_id = Ok o /\
    env w' = env w /\
    original_bucket w' = original_bucket w /\
    thumbnail_bucket w' = thumbnail_bucket w /\
    trace w' = DbInsertDownload :: DbUpdateOne o :: trace w /\
    (exists ev, db_downloads w' = db_downloads w ++ [ev]) /\
    match List.find (has_id o) (db_images w) with
    | None => db_images w' = db_images w
    | Some d =>
        exists d', inc_field "downloads" 1 d = Ok d' /\
                   db_images w' = update_first (has_id o) (fun _ => d') (db_images w)
    end.
Proof.
  unfold DownloadService.record_download, try_except, bind, lift, update_one_inc,
    insert_one_download, external, utcnow, raise, ret.
  destruct (ObjectId_of image_id) as [o|e]; simpl; [|discriminate].
  destruct (fails (env w) (length (trace w))); simpl; [discriminate|].
  destruct (List.find (has_id o) (db_images w)) as [d|] eqn:Fd; simpl.
  - destruct (inc_field "downloads" 1 d) as [d'|e] eqn:Hinc; simpl; [|discriminate].
    destruct (fails (env w) (S (length (trace w)))); simpl; [discriminate|].
    destruct (existsb _ (db_downloads w)); simpl; [discriminate|].
    match goal with |- context [models_download.validate ?n ?d] =>
      destruct (models_download.validate n d) end; simpl; [|discriminate].
    intros [= <- <-]. exists o. simpl. rewrite Fd. repeat split; eauto.
  - destruct (fails (env w) (S (length (trace w)))); simpl; [discriminate|].
    destruct (existsb _ (db_downloads w)); simpl; [discriminate|].
    match goal with |- context [models_download.validate ?n ?d] =>
      destruct (models_download.validate n d) end; simpl; [|discriminate].
    intros [= <- <-]. exists o. simpl. rewrite Fd. repeat split; eauto.
Qed.

Lemma download_image_ok (image_id : string) (request : Request) (w w' : World)
    (url : string) :
  downloads_endpoints.download_image image_id request w = (Ok url, w') ->
  exists o d d',
    ObjectId_of image_id = Ok o /\
    List.find (has_id o) (db_images w) = Some d /\
    inc_field "downloads" 1 d = Ok d' /\
    db_images w' = update_first (has_id o) (fun _ => d') (db_images w) /\
    (exists ev, db_downloads w' = db_downloads w ++ [ev]) /\
    env w' = env w /\
    original_bucket w' = original_bucket w /\
    thumbnail_bucket w' = thumbnail_bucket w /\
    trace w' = DbInsertDownload :: DbUpdateOne o :: DbFindOne o :: trace w.
Proof.
  unfold downloads_endpoints.download_image, bind, ret.
  pose proof (get_image_ok image_id w) as Hok.
  destruct (ImageService.get_image image_id w) as [[img|e] w1] eqn:E1; simpl in *;
    [|discriminate].
  destruct (Hok img eq_refl) as (o & d & Ho & Hfind & _ & _ & ->).
  match goal with |- context [DownloadService.record_download ?i ?r ?w0] =>
    destruct (DownloadService.record_download i r w0) as [[dl|e] w2] eqn:E2 end;
    [|discriminate].
  intros [= <- <-].
  apply record_download_ok in E2 as (o' & Ho' & He & Hb1 & Hb2 & Ht & Hev & Himg).
  rewrite Ho in Ho'. injection Ho' as <-. simpl in *. rewrite Hfind in Himg.
  destruct Himg as (d' & Hinc & Himg).
  exists o, d, d'. repeat split; assumption.
Qed.

(** *** Creating an image *)

Lemma upload_image_eq (file : UploadFile) (w : World) :
  StorageService.upload_image file None w =
  let fn := uuid4_at (env w) (length (trace w)) +:+ splitext_ext (uf_filename file) in
  let w1 := log (BlobUpload Originals fn) w in
  if fails (env w) (length (trace w))
  then (Raise (StorageException "GoogleCloudError"), w1)
  else
    (Ok {| StorageService.sd_filename := fn;
           StorageService.sd_hd_url :=
             "https://storage.googleapis.com/" +:+ GCS_ORIGINAL_BUCKET +:+ "/" +:+ fn;
           StorageService.sd_content_type := uf_content_type file;
           StorageService.sd_file_size := Z.of_nat (length (uf_content file)) |},
     set_bucket Originals
       (fun m => <[fn := (uf_content file, uf_content_type file)]> m) w1).
Proof.
  unfold StorageService.upload_image, try_except, bind, uuid4, blob_upload,
    external, ret, raise.
  simpl. destruct (fails (env w) (length (trace w))); reflexivity.
Qed.

Lemma generate_thumbnail_spec (filename : string) (content : bytes) (w : World) :
  let r := (StorageService.generate_thumbnail filename content w).1 in
  let w' := (StorageService.generate_thumbnail filename content w).2 in
  let calls :=
    match content with
    | [] => [BlobDownload Originals filename]
    | _ :: _ => []
    end ++ [BlobUpload Thumbnails ("thumb_" +:+ filename)] in
  db_images w' = db_images w /\ db_downloads w' = db_downloads w /\
  original_bucket w' = original_bucket w /\ env w' = env w /\
  (exists l, trace w' = rev l ++ trace w /\ l `prefix_of` calls /\
             (forall u, r = Ok u -> l = calls)) /\
  (forall e, r = Raise e ->
     (exists d, e = StorageException d) /\ thumbnail_bucket w' = thumbnail_bucket w) /\
  (content <> [] -> PIL_open content = None ->
     r = Raise (StorageException "UnidentifiedImageError") /\ trace w' = trace w).
Proof.
  unfold StorageService.generate_thumbnail, try_except, bind, blob_upload,
    blob_download, external, ret, raise.
  destruct content as [|b0 content]; simpl.
  all: repeat (simpl;
    match goal with
    | |- context [fails ?e ?n] =>
        let F := fresh "F" in destruct (fails e n) eqn:F
    | |- context [match ?m !! ?k with _ => _ end] =>
        let L := fresh "L" in destruct (m !! k) as [[? ?]|] eqn:L
    | |- context [match PIL_open ?c with _ => _ end] =>
        let L := fresh "L" in destruct (PIL_open c) eqn:L
    | |- context [match PIL_save ?c ?f with _ => _ end] =>
        let L := fresh "L" in destruct (PIL_save c f) eqn:L
    end).
  all: simpl.
  all: repeat (split; [reflexivity|]).
  all: split;
    [ match goal with
      | |- exists l, ?t = rev l ++ trace ?w /\ _ =>
          let p := prefix_of t w in
          exists (rev p); split; [reflexivity|];
          split; [eexists; reflexivity | intros u Hu; (discriminate Hu || reflexivity)]
      end |].
  all: split;
    [ intros e He;
      first [ discriminate He
            | injection He as <-; split; [eexists; reflexivity | reflexivity] ]
    | intros Hne Hopen; first [ congruence | split; reflexivity ] ].
Qed.

Lemma create_image_calls_eq (filename : string) (content : bytes) :
  create_image_calls filename content =
  BlobUpload Originals filename ::
    (match content with
     | [] => [BlobDownload Originals filename]
     | _ :: _ => []
     end ++ [BlobUpload Thumbnails ("thumb_" +:+ filename)]) ++ [DbInsertImage].
Proof. destruct content; reflexivity. Qed.

(** The thumbnail step, when the bytes decode and encode and the object
    store answers. *)
Lemma generate_thumbnail_run (filename : string) (content bs : bytes)
    (image : PILImage) (thumb : bytes) (w : World) :
  (forall k, fails (env w) k = false) ->
  match content with
  | [] => fst <$> original_bucket w !! filename
  | _ :: _ => Some content
  end = Some bs ->
  PIL_open bs = Some image ->
  let small := PIL_thumbnail image (200, 200) in
  let image_format :=
    match pil_format small with
    | Some (String c s) => String c s
    | _ => "JPEG"
    end in
  PIL_save small image_format = Some thumb ->
  StorageService.generate_thumbnail filename content w =
  (Ok ("https://storage.googleapis.com/" +:+ GCS_THUMBNAIL_BUCKET +:+ "/"
       +:+ ("thumb_" +:+ filename)),
   set_bucket Thumbnails
     (fun m => <["thumb_" +:+ filename :=
                   (thumb, Some ("image/" +:+ string_map lower image_format))]> m)
     (log (BlobUpload Thumbnails ("thumb_" +:+ filename))
        match content with
        | [] => log (BlobDownload Originals filename) w
        | _ :: _ => w
        end)).
Proof.
  intros Hok Hsrc Hopen small image_format Hsave. subst small image_format.
  unfold StorageService.generate_thumbnail, try_except, bind, blob_upload,
    blob_download, external, ret, raise.
  destruct content as [|b0 content].
  - cbn [fst snd env log trace get_bucket original_bucket thumbnail_bucket length].
    rewrite Hok.
    destruct (original_bucket w !! filename) as [[bs0 ct]|];
      cbn [fmap option_fmap option_map fst] in Hsrc; [|discriminate].
    injection Hsrc as ->.
    cbn [fst snd env log trace get_bucket original_bucket thumbnail_bucket length].
    rewrite Hopen.
    cbn [fst snd env log trace get_bucket original_bucket thumbnail_bucket length].
    rewrite Hsave.
    cbn [fst snd env log trace get_bucket original_bucket thumbnail_bucket length].
    rewrite Hok. reflexivity.
  - injection Hsrc as <-.
    cbn [fst snd env log trace get_bucket original_bucket thumbnail_bucket length].
    rewrite Hopen.
    cbn [fst snd env log trace get_bucket original_bucket thumbnail_bucket length].
    rewrite Hsave.
    cbn [fst snd env log trace get_bucket original_bucket thumbnail_bucket length].
    rewrite Hok. reflexivity.
Qed.

(** A complete create_image: the file decodes, the thumbnail encodes, the
    form data has its types, every call is answered and the id that the
    store hands out is new. *)
Lemma create_image_complete (file : UploadFile) (image_data : document) (w : World)
    (image : PILImage) (thumb : bytes) (name description ct : string)
    (tags : list string) (featured : bool) :
  (forall k, fails (env w) k = false) ->
  PIL_open (uf_content file) = Some image ->
  let small := PIL_thumbnail image (200, 200) in
  let image_format :=
    match pil_format small with
    | Some (String c s) => String c s
    | _ => "JPEG"
    end in
  PIL_save small image_format = Some thumb ->
  image_data !! "name" = Some (VStr name) ->
  dict_get image_data "description" (VStr "") = VStr description ->
  dict_get image_data "tags" (VList []) = VList tags ->
  dict_get image_data "is_featured" (VBool false) = VBool featured ->
  uf_content_type file = Some ct ->
  let fn := uuid4_at (env w) (length (trace w)) +:+ splitext_ext (uf_filename file) in
  let n := (length (create_image_calls fn (uf_content file)) - 1
            + length (trace w))%nat in
  let o := object_id_at (env w) n in
  existsb (has_id o) (db_images w) = false ->
  exists d w',
    ImageService.create_image file image_data w
      = (Ok {| models_image.id := Some o;
               models_image.name := name;
               models_image.description := description;
               models_image.filename := fn;
               models_image.thumbnail_url :=
                 "https://storage.googleapis.com/" +:+ GCS_THUMBNAIL_BUCKET +:+ "/"
                 +:+ ("thumb_" +:+ fn);
               models_image.hd_url :=
                 "https://storage.googleapis.com/" +:+ GCS_ORIGINAL_BUCKET +:+ "/" +:+ fn;
               models_image.file_size := Z.of_nat (length (uf_content file));
               models_image.content_type := ct;
               models_image.downloads := 0;
               models_image.tags := tags;
               models_image.created_at := utcnow_at (env w) n;
               models_image.updated_at := None;
               models_image.is_featured := featured |}, w') /\
    trace w' = rev (create_image_calls fn (uf_content file)) ++ trace w /\
    env w' = env w /\
    db_images w' = db_images w ++ [d] /\
    db_downloads w' = db_downloads w /\
    original_bucket w' = <[fn := (uf_content file, Some ct)]> (original_bucket w) /\
    thumbnail_bucket w'
      = <["thumb_" +:+ fn :=
            (thumb, Some ("image/" +:+ string_map lower image_format))]>
          (thumbnail_bucket w) /\
    d !! "_id" = Some (VObjectId o) /\
    d !! "filename" = Some (VStr fn) /\
    d !! "downloads" = Some (VInt 0) /\
    d !! "created_at" = Some (VDate (utcnow_at (env w) n)).
Proof.
  intros Hok Hopen small image_format Hsave Hname Hdesc Htags Hfeat Hct fn n o Hfresh.
  subst small image_format.
  unfold ImageService.create_image, try_except, bind.
  rewrite upload_image_eq. cbv zeta. rewrite Hok. fold fn.
  cbn [fst snd StorageService.sd_filename StorageService.sd_hd_url
       StorageService.sd_content_type StorageService.sd_file_size].
  rewrite (generate_thumbnail_run fn (uf_content file) (uf_content file) image thumb);
    [ | intros k; apply Hok
      | destruct (uf_content file); [|reflexivity];
        cbn [original_bucket set_bucket log]; rewrite lookup_insert_eq; reflexivity
      | exact Hopen | exact Hsave ].
  cbn [fst snd]. unfold lift, raise, getitem. rewrite Hname. cbn [fst snd].
  unfold insert_one_image, external, utcnow.
  rewrite Hdesc, Htags, Hfeat, Hct. cbn [from_option].
  subst o n. rewrite create_image_calls_eq in *.
  destruct (uf_content file) as [|b0 content] eqn:Hcontent;
    cbn [length app Nat.sub Nat.add] in Hfresh |- *;
    cbn [fst snd env trace db_images db_downloads original_bucket thumbnail_bucket
         set_bucket set_images log length] in *;
    rewrite Hok, Hfresh;
    cbn [fst snd env trace db_images db_downloads original_bucket thumbnail_bucket
         set_bucket set_images log length].
  all: unfold models_image.validate.
  all: rewrite lookup_insert_eq; cbn [mbind option_bind validate_object_id];
    repeat (rewrite lookup_insert_ne by discriminate);
    rewrite lookup_insert_eq; cbn [mbind option_bind as_str].
  all: do 6 (repeat (rewrite lookup_insert_ne by discriminate);
             rewrite lookup_insert_eq; cbn [mbind option_bind as_str as_int]).
  all: repeat (rewrite lookup_insert_ne by discriminate); rewrite lookup_insert_eq.
  all: repeat (rewrite lookup_insert_ne by discriminate); rewrite lookup_insert_eq.
  all: repeat (rewrite lookup_insert_ne by discriminate); rewrite lookup_insert_eq.
  all: repeat (rewrite lookup_insert_ne by discriminate);
    rewrite lookup_empty || rewrite lookup_insert_eq.
  all: repeat (rewrite lookup_insert_ne by discriminate); rewrite ?lookup_insert_eq.
  all: cbn [mbind option_bind to_result fst snd].
  all: eexists _, _; split; [reflexivity|].
  all: cbn [fst snd env trace db_images db_downloads original_bucket thumbnail_bucket
            set_bucket set_images log length rev app].
  all: repeat split;
    repeat (rewrite lookup_insert_ne by discriminate); try apply lookup_insert_eq;
    reflexivity.
Qed.

(** What create_image does on every run: the order of its calls and what
    each failure leaves behind. *)
Lemma create_image_safety (file : UploadFile) (image_data : document) (w : World) :
  let fn := uuid4_at (env w) (length (trace w)) +:+ splitext_ext (uf_filename file) in
  let r := (ImageService.create_image file image_data w).1 in
  let w' := (ImageService.create_image file image_data w).2 in
  (exists l, trace w' = rev l ++ trace w /\
             l `prefix_of` create_image_calls fn (uf_content file)) /\
  (forall img, r = Ok img ->
     trace w' = rev (create_image_calls fn (uf_content file)) ++ trace w /\
     exists d, db_images w' = db_images w ++ [d]) /\
  (fails (env w) (length (trace w)) = true ->
     r = Raise (StorageException "GoogleCloudError") /\ same_stores w w' /\
     trace w' = BlobUpload Originals fn :: trace w) /\
  (fails (env w) (length (trace w)) = false ->
     original_bucket w'
       = <[fn := (uf_content file, uf_content_type file)]> (original_bucket w)) /\
  (forall e, r = Raise e -> e <> ValidationError -> db_images w' = db_images w) /\
  (fails (env w) (length (trace w)) = false ->
   uf_content file <> [] -> PIL_open (uf_content file) = None ->
     r = Raise (StorageException "UnidentifiedImageError") /\
     thumbnail_bucket w' = thumbnail_bucket w /\ db_images w' = db_images w /\
     trace w' = BlobUpload Originals fn :: trace w) /\
  (forall e, r = Raise e ->
     (exists d, e = StorageException d) \/ e = PyMongoError \/ e = KeyError \/
     e = ValidationError).
Proof.
  set (fn := uuid4_at (env w) (length (trace w)) +:+ splitext_ext (uf_filename file)).
  pose (post := fun (r : result models_image.Image) (w' : World) =>
    (exists l, trace w' = rev l ++ trace w /\
               l `prefix_of` create_image_calls fn (uf_content file)) /\
    (forall img, r = Ok img ->
       trace w' = rev (create_image_calls fn (uf_content file)) ++ trace w /\
       exists d, db_images w' = db_images w ++ [d]) /\
    (fails (env w) (length (trace w)) = true ->
       r = Raise (StorageException "GoogleCloudError") /\ same_stores w w' /\
       trace w' = BlobUpload Originals fn :: trace w) /\
    (fails (env w) (length (trace w)) = false ->
       original_bucket w'
         = <[fn := (uf_content file, uf_content_type file)]> (original_bucket w)) /\
    (forall e, r = Raise e -> e <> ValidationError -> db_images w' = db_images w) /\
    (fails (env w) (length (trace w)) = false ->
     uf_content file <> [] -> PIL_open (uf_content file) = None ->
       r = Raise (StorageException "UnidentifiedImageError") /\
       thumbnail_bucket w' = thumbnail_bucket w /\ db_images w' = db_images w /\
       trace w' = BlobUpload Originals fn :: trace w) /\
    (forall e, r = Raise e ->
       (exists d, e = StorageException d) \/ e = PyMongoError \/ e = KeyError \/
       e = ValidationError)).
  change (post (ImageService.create_image file image_data w).1
               (ImageService.create_image file image_data w).2).
  set (calls2 := match uf_content file with
                 | [] => [BlobDownload Originals fn]
                 | _ :: _ => []
                 end ++ [BlobUpload Thumbnails ("thumb_" +:+ fn)]).
  assert (Hcalls : create_image_calls fn (uf_content file)
                   = BlobUpload Originals fn :: calls2 ++ [DbInsertImage])
    by apply create_image_calls_eq.
  (* a failure after the upload of the original *)
  assert (Hfail : fails (env w) (length (trace w)) = false ->
    forall (e : exn) (w3 : World) (made : list call),
    db_images w3 = db_images w ->
    original_bucket w3
      = <[fn := (uf_content file, uf_content_type file)]> (original_bucket w) ->
    trace w3 = rev made ++ BlobUpload Originals fn :: trace w ->
    made `prefix_of` calls2 ++ [DbInsertImage] ->
    (exists d, e = StorageException d) \/ e = PyMongoError \/ e = KeyError ->
    (uf_content file <> [] -> PIL_open (uf_content file) = None ->
       e = StorageException "UnidentifiedImageError" /\ made = [] /\
       thumbnail_bucket w3 = thumbnail_bucket w) ->
    post (Raise e) w3).
  { intros F0 e w3 made Hi3 Ho3 Ht3 Hpre Hkind Hun. unfold post.
    split.
    { exists (BlobUpload Originals fn :: made). simpl. rewrite <- app_assoc.
      split; [exact Ht3|]. rewrite Hcalls. apply prefix_cons, Hpre. }
    split; [intros img [=]|].
    split; [rewrite F0; intros [=]|].
    split; [intros _; exact Ho3|]. split; [intros e0 _ _; exact Hi3|].
    split.
    { intros _ Hne Hopen. destruct (Hun Hne Hopen) as (-> & -> & Hth).
      repeat split; assumption. }
    intros e0 [= <-]. tauto. }
  unfold ImageService.create_image, try_except, bind.
  rewrite upload_image_eq. cbv zeta. fold fn.
  destruct (fails (env w) (length (trace w))) eqn:F0.
  { unfold raise, post, same_stores. simpl.
    split; [exists [BlobUpload Originals fn]; split;
            [reflexivity | rewrite Hcalls; eexists; reflexivity]|].
    split; [intros img [=]|].
    split; [intros _; repeat split; reflexivity|].
    split; [intros [=]|].
    split; [intros e _ _; reflexivity|].
    split; [intros [=]|].
    intros e [= <-]. left. eexists; reflexivity. }
  specialize (Hfail eq_refl).
  cbn [StorageService.sd_filename StorageService.sd_hd_url
       StorageService.sd_content_type StorageService.sd_file_size].
  match goal with |- context [StorageService.generate_thumbnail fn ?c ?w0] =>
    set (w1 := w0);
    pose proof (generate_thumbnail_spec fn c w1)
      as (Hi & Hd & Ho & He & (l & Ht & Hpre & Hall) & Herr & Hundec);
    destruct (StorageService.generate_thumbnail fn c w1) as [[url|e] w2] eqn:E2
  end; cbn [fst snd] in *.
  2:{ unfold raise. destruct (Herr e eq_refl) as ((d & ->) & Hth).
      apply (Hfail _ w2 l); auto.
      - apply prefix_app_r, Hpre.
      - left. eexists; reflexivity.
      - intros Hne Hopen. destruct (Hundec Hne Hopen) as (Hr & Htr).
        injection Hr as ->. split; [reflexivity|]. split; [|exact Hth].
        subst w1. simpl in Ht. rewrite Htr in Ht.
        destruct l as [|c l] using rev_ind; [reflexivity|].
        rewrite rev_app_distr in Ht. simpl in Ht.
        apply (f_equal length) in Ht. simpl in Ht. rewrite length_app in Ht.
        simpl in Ht. lia. }
  specialize (Hall url eq_refl). subst l. fold calls2 in Ht.
  assert (Hun : uf_content file <> [] -> PIL_open (uf_content file) = None -> False).
  { intros Hne Hopen. destruct (Hundec Hne Hopen) as (Hr & _). discriminate Hr. }
  clear Hundec Herr Hpre.
  assert (Hdone : forall (r : result models_image.Image) (d : document) (w3 : World),
    (forall e, r = Raise e -> e = ValidationError) ->
    db_images w3 = db_images w ++ [d] ->
    original_bucket w3
      = <[fn := (uf_content file, uf_content_type file)]> (original_bucket w) ->
    trace w3 = DbInsertImage :: rev calls2 ++ BlobUpload Originals fn :: trace w ->
    post r w3).
  { intros r d w3 Hr Hi3 Ho3 Ht3. unfold post. rewrite Hcalls.
    assert (Htr : trace w3
              = rev (BlobUpload Originals fn :: calls2 ++ [DbInsertImage]) ++ trace w).
    { rewrite Ht3. simpl. rewrite rev_app_distr. simpl. rewrite <- app_assoc.
      reflexivity. }
    split; [eexists; split; [exact Htr | reflexivity]|].
    split; [intros img _; split; [exact Htr | exists d; exact Hi3]|].
    split; [intros [=]|].
    split; [intros _; exact Ho3|].
    split; [intros e He0 Hne; destruct (Hne (Hr e He0))|].
    split; [intros _ Hne Hopen; destruct (Hun Hne Hopen)|].
    intros e He0. rewrite (Hr e He0). tauto. }
  unfold lift, raise.
  destruct (getitem image_data "name") as [name|e] eqn:Hname; cbn [fst snd].
  2:{ unfold getitem in Hname. destruct (image_data !! "name"); [discriminate|].
      injection Hname as <-.
      apply (Hfail KeyError w2 calls2); auto.
      - apply prefix_app_r. reflexivity.
      - intros Hne Hopen. destruct (Hun Hne Hopen). }
  unfold insert_one_image, external, utcnow. rewrite He. cbn [fst snd env log trace].
  change (env w1) with (env w).
  destruct (fails (env w) (length (trace w2))) eqn:F2; cbn [fst snd].
  { apply (Hfail PyMongoError (log DbInsertImage w2) (calls2 ++ [DbInsertImage])); auto.
    - simpl. rewrite Ht, rev_app_distr. reflexivity.
    - intros Hne Hopen. destruct (Hun Hne Hopen). }
  cbn [db_images log]. rewrite Hi. change (db_images w1) with (db_images w).
  destruct (existsb _ (db_images w)) eqn:Hdup; cbn [fst snd].
  { apply (Hfail PyMongoError (log DbInsertImage w2) (calls2 ++ [DbInsertImage])); auto.
    - simpl. rewrite Ht, rev_app_distr. reflexivity.
    - intros Hne Hopen. destruct (Hun Hne Hopen). }
  match goal with |- context [models_image.validate ?n ?d] =>
    destruct (models_image.validate n d) as [img|e] eqn:Hv end; cbn [fst snd].
  - eapply Hdone.
    + intros e [=].
    + simpl. rewrite Hi. reflexivity.
    + simpl. exact Ho.
    + simpl. rewrite Ht. reflexivity.
  - eapply Hdone.
    + intros e0 [= <-]. unfold models_image.validate, to_result in Hv.
      match type of Hv with match ?o with _ => _ end = _ => destruct o end;
        congruence.
    + simpl. rewrite Hi. reflexivity.
    + simpl. exact Ho.
    + simpl. rewrite Ht. reflexivity.
Qed.

(** C2. create_image makes its calls in one fixed order, each at most
    once: the upload of the original, then the thumbnail (its upload, after
    reading the original back when the file was empty), then the insert of
    the document. The calls made are always an initial part of that
    sequence and all of them are made on success. A failure of the first
    step leaves both stores as they were. After a successful upload the
    original blob is in the bucket at the end of the operation, whatever
    happens later: nothing is rolled back. A failed thumbnail step raises
    StorageException and a failed insert raises the store's error as it is;
    in both cases no image document is persisted. (The only exception that
    can follow a successful insert is a validation error of the returned
    model.) And the steps are all taken when nothing stands in the way:
    when the bytes decode, the thumbnail encodes, the form data has its
    types, every call is answered and the id handed out is new,
    create_image makes the whole sequence of calls, leaves the original and
    the thumbnail in their buckets and one new document in the collection,
    and returns the record of that document. *)
Theorem create_image_steps (file : UploadFile) (image_data : document) (w : World) :
  let fn := uuid4_at (env w) (length (trace w)) +:+ splitext_ext (uf_filename file) in
  let r := (ImageService.create_image file image_data w).1 in
  let w' := (ImageService.create_image file image_data w).2 in
  (exists l, trace w' = rev l ++ trace w /\
             l `prefix_of` create_image_calls fn (uf_content file)) /\
  (forall img, r = Ok img ->
     trace w' = rev (create_image_calls fn (uf_content file)) ++ trace w /\
     exists d, db_images w' = db_images w ++ [d]) /\
  (fails (env w) (length (trace w)) = true ->
     r = Raise (StorageException "GoogleCloudError") /\ same_stores w w' /\
     trace w' = BlobUpload Originals fn :: trace w) /\
  (fails (env w) (length (trace w)) = false ->
     original_bucket w'
       = <[fn := (uf_content file, uf_content_type file)]> (original_bucket w)) /\
  (forall e, r = Raise e -> e <> ValidationError -> db_images w' = db_images w) /\
  (fails (env w) (length (trace w)) = false ->
   uf_content file <> [] -> PIL_open (uf_content file) = None ->
     r = Raise (StorageException "UnidentifiedImageError") /\
     thumbnail_bucket w' = thumbnail_bucket w /\ db_images w' = db_images w /\
     trace w' = BlobUpload Originals fn :: trace w) /\
  (forall e, r = Raise e ->
     (exists d, e = StorageException d) \/ e = PyMongoError \/ e = KeyError \/
     e = ValidationError) /\
  ((forall k, fails (env w) k = false) ->
   forall (image : PILImage) (thumb : bytes) (name description ct : string)
          (tags : list string) (featured : bool),
     PIL_open (uf_content file) = Some image ->
     PIL_save (PIL_thumbnail image (200, 200))
       match pil_format (PIL_thumbnail image (200, 200)) with
       | Some (String c s) => String c s
       | _ => "JPEG"
       end = Some thumb ->
     image_data !! "name" = Some (VStr name) ->
     dict_get image_data "description" (VStr "") = VStr description ->
     dict_get image_data "tags" (VList []) = VList tags ->
     dict_get image_data "is_featured" (VBool false) = VBool featured ->
     uf_content_type file = Some ct ->
     let n := (length (create_image_calls fn (uf_content file)) - 1
               + length (trace w))%nat in
     let o := object_id_at (env w) n in
     existsb (has_id o) (db_images w) = false ->
     r = Ok {| models_image.id := Some o;
               models_image.name := name;
               models_image.description := description;
               models_image.filename := fn;
               models_image.thumbnail_url :=
                 "https://storage.googleapis.com/" +:+ GCS_THUMBNAIL_BUCKET +:+ "/"
                 +:+ ("thumb_" +:+ fn);
               models_image.hd_url :=
                 "https://storage.googleapis.com/" +:+ GCS_ORIGINAL_BUCKET +:+ "/" +:+ fn;
               models_image.file_size := Z.of_nat (length (uf_content file));
               models_image.content_type := ct;
               models_image.downloads := 0;
               models_image.tags := tags;
               models_image.created_at := utcnow_at (env w) n;
               models_image.updated_at := None;
               models_image.is_featured := featured |} /\
     trace w' = rev (create_image_calls fn (uf_content file)) ++ trace w /\
     original_bucket w' = <[fn := (uf_content file, Some ct)]> (original_bucket w) /\
     thumbnail_bucket w'
       = <["thumb_" +:+ fn :=
             (thumb,
              Some ("image/" +:+
                    string_map lower
                      match pil_format (PIL_thumbnail image (200, 200)) with
                      | Some (String c s) => String c s
                      | _ => "JPEG"
                      end))]> (thumbnail_bucket w) /\
     exists d,
       db_images w' = db_images w ++ [d] /\
       d !! "_id" = Some (VObjectId o) /\
       d !! "filename" = Some (VStr fn) /\
       d !! "downloads" = Some (VInt 0)).
Proof.
  pose proof (create_image_safety file image_data w) as Hs. cbv zeta in Hs |- *.
  destruct Hs as (S1 & S2 & S3 & S4 & S5 & S6 & S7).
  do 7 (split; [assumption|]).
  intros Hok image thumb name description ct tags featured Hopen Hsave Hname Hdesc
    Htags Hfeat Hct Hfresh.
  destruct (create_image_complete file image_data w image thumb name description ct
              tags featured Hok Hopen Hsave Hname Hdesc Htags Hfeat Hct Hfresh)
    as (d & w' & Hrun & Htrace & _ & Hdb & _ & Horig & Hthumb & Hid & Hfn & Hdl & _).
  rewrite Hrun. cbn [fst snd].
  split; [reflexivity|]. split; [exact Htrace|]. split; [exact Horig|].
  split; [exact Hthumb|].
  exists d. repeat split; assumption.
Qed.

(** *** The counter *)

Lemma validate_fields (now : Z) (d : document) (img : models_image.Image) :
  models_image.validate now d = Ok img ->
  d !! "filename" = Some (VStr (models_image.filename img)) /\
  d !! "thumbnail_url" = Some (VStr (models_image.thumbnail_url img)) /\
  d !! "hd_url" = Some (VStr (models_image.hd_url img)) /\
  d !! "name" = Some (VStr (models_image.name img)) /\
  d !! "description" = Some (VStr (models_image.description img)) /\
  (forall v, d !! "downloads" = Some v -> v = VInt (models_image.downloads img)) /\
  (d !! "downloads" = None -> models_image.downloads img = 0) /\
  (forall v, d !! "tags" = Some v -> v = VList (models_image.tags img)) /\
  (forall v, d !! "is_featured" = Some v -> v = VBool (models_image.is_featured img)) /\
  (forall v, d !! "created_at" = Some v -> v = VDate (models_image.created_at img)) /\
  (forall t, d !! "updated_at" = Some (VDate t) -> models_image.updated_at img = Some t).
Proof.
  unfold models_image.validate, to_result.
  destruct (d !! "_id") as [v0|]; simpl; [|discriminate].
  destruct (validate_object_id v0); simpl; [|discriminate].
  destruct (d !! "name") as [[]|]; simpl; try discriminate.
  destruct (d !! "description") as [[]|]; simpl; try discriminate.
  destruct (d !! "filename") as [[]|]; simpl; try discriminate.
  destruct (d !! "thumbnail_url") as [[]|]; simpl; try discriminate.
  destruct (d !! "hd_url") as [[]|]; simpl; try discriminate.
  destruct (d !! "file_size") as [[]|]; simpl; try discriminate.
  destruct (d !! "content_type") as [[]|]; simpl; try discriminate.
  destruct (d !! "downloads") as [[]|]; simpl; try discriminate.
  all: destruct (d !! "tags") as [[]|]; simpl; try discriminate.
  all: destruct (d !! "created_at") as [[]|]; simpl; try discriminate.
  all: destruct (d !! "updated_at") as [[]|]; simpl; try discriminate.
  all: destruct (d !! "is_featured") as [[]|]; simpl; try discriminate.
  all: intros [= <-]; simpl; repeat split; try reflexivity; try congruence.
Qed.

Lemma find_update_first (p : document -> bool) (l : list document) (d d' : document) :
  List.find p l = Some d -> p d' = true ->
  List.find p (update_first p (fun _ => d') l) = Some d'.
Proof.
  intros Hf Hp. induction l as [|x l IH]; simpl in *; [discriminate|].
  destruct (p x) eqn:Hx; simpl.
  - rewrite Hp. reflexivity.
  - rewrite Hx. apply IH, Hf.
Qed.

Lemma find_holds (p : document -> bool) (l : list document) (d : document) :
  List.find p l = Some d -> p d = true.
Proof.
  induction l as [|x l IH]; simpl; [discriminate|].
  destruct (p x) eqn:Hx; [intros [= <-]; exact Hx | exact IH].
Qed.

Lemma inc_field_downloads (d d' : document) (c : Z) :
  d !! "downloads" = Some (VInt c) ->
  inc_field "downloads" 1 d = Ok d' ->
  d' = <["downloads" := VInt (c + 1)]> d.
Proof.
  unfold inc_field. intros ->.
  destruct (c + 1 <=? int64_max); [intros [= <-]; reflexivity | discriminate].
Qed.

Lemma download_image_counter (image_id : string) (request : Request) (w w' : World)
    (url : string) :
  downloads_endpoints.download_image image_id request w = (Ok url, w') ->
  exists o d,
    ObjectId_of image_id = Ok o /\
    fails (env w) (length (trace w)) = false /\
    List.find (has_id o) (db_images w) = Some d /\
    env w' = env w /\
    forall c, d !! "downloads" = Some (VInt c) ->
      List.find (has_id o) (db_images w')
        = Some (<["downloads" := VInt (c + 1)]> d).
Proof.
  intros Hrun.
  assert (Hf : fails (env w) (length (trace w)) = false).
  { revert Hrun. unfold downloads_endpoints.download_image, bind.
    rewrite get_image_eq.
    destruct (ObjectId_of image_id); simpl; [|discriminate].
    destruct (fails (env w) (length (trace w))); [discriminate | reflexivity]. }
  apply download_image_ok in Hrun
    as (o & d & d' & Ho & Hfind & Hinc & Himg & _ & He & _).
  exists o, d. repeat split; try assumption.
  intros c Hc. rewrite Himg.
  rewrite (inc_field_downloads d d' c Hc Hinc).
  rewrite <- (inc_field_downloads d d' c Hc Hinc).
  apply (find_update_first _ _ d); [exact Hfind|].
  rewrite (inc_field_downloads d d' c Hc Hinc).
  pose proof (find_holds _ _ _ Hfind) as Hp. unfold has_id in *.
  apply bool_decide_eq_true in Hp. apply bool_decide_eq_true.
  rewrite lookup_insert_ne; [exact Hp | discriminate].
Qed.

Lemma download_each_counter (image_id : string) (requests : list Request) :
  forall (w w' : World) (urls : list string) (o : ObjectId) (d : document) (c : Z),
  download_each image_id requests w = (Ok urls, w') ->
  ObjectId_of image_id = Ok o ->
  List.find (has_id o) (db_images w) = Some d ->
  d !! "downloads" = Some (VInt c) ->
  env w' = env w /\
  exists d', List.find (has_id o) (db_images w') = Some d' /\
             d' !! "downloads" = Some (VInt (c + Z.of_nat (length requests))).
Proof.
  induction requests as [|request rest IH]; intros w w' urls o d c Hrun Ho Hfind Hc.
  - simpl in Hrun. injection Hrun as <- <-. split; [reflexivity|].
    exists d. split; [exact Hfind|]. rewrite Hc. simpl. do 2 f_equal. lia.
  - simpl in Hrun. unfold bind in Hrun.
    destruct (downloads_endpoints.download_image image_id request w)
      as [[url|e] w1] eqn:E1; [|discriminate].
    destruct (download_each image_id rest w1) as [[us|e] w2] eqn:E2; [|discriminate].
    injection Hrun as <- <-.
    apply download_image_counter in E1 as (o' & d0 & Ho' & _ & Hfind' & He1 & Hstep).
    rewrite Ho in Ho'. injection Ho' as <-.
    rewrite Hfind in Hfind'. injection Hfind' as <-.
    specialize (Hstep c Hc).
    destruct (IH w1 w2 us o _ (c + 1) E2 Ho Hstep) as (He2 & d' & Hfind2 & Hc2).
    { apply lookup_insert_eq. }
    split; [congruence|]. exists d'. split; [exact Hfind2|].
    rewrite Hc2. do 2 f_equal. simpl length. lia.
Qed.

Lemma create_image_ok (file : UploadFile) (image_data : document) (w w' : World)
    (img : models_image.Image) :
  ImageService.create_image file image_data w = (Ok img, w') ->
  exists d now,
    db_images w' = db_images w ++ [d] /\
    d !! "downloads" = Some (VInt 0) /\
    models_image.validate now d = Ok img.
Proof.
  unfold ImageService.create_image, try_except, bind.
  rewrite upload_image_eq. cbv zeta.
  destruct (fails (env w) (length (trace w))); [discriminate|].
  match goal with |- context [StorageService.generate_thumbnail ?f ?c ?w0] =>
    pose proof (generate_thumbnail_spec f c w0) as (Hi & _ & _ & He & _);
    destruct (StorageService.generate_thumbnail f c w0) as [[url|e] w2]
  end; cbn [fst snd] in *; [|discriminate].
  unfold lift, raise.
  destruct (getitem image_data "name") as [name|e]; cbn [fst snd]; [|discriminate].
  unfold insert_one_image, external, utcnow. cbn [fst snd env log trace db_images].
  destruct (fails (env w2) (length (trace w2))); [discriminate|].
  destruct (existsb _ (db_images w2)); [discriminate|].
  cbn [fst snd].
  match goal with |- context [models_image.validate ?n ?d] =>
    destruct (models_image.validate n d) as [img0|e] eqn:Hv end;
    cbn [fst snd]; [|discriminate].
  intros [= <- <-].
  eexists _, _. split; [|split; [|exact Hv]].
  - simpl. rewrite Hi. reflexivity.
  - reflexivity.
Qed.

(** The counter of a new image, and the counter after N downloads. *)
Lemma download_counter_steps :
  (forall (file : UploadFile) (image_data : document) (w w' : World)
          (img : models_image.Image),
     ImageService.create_image file image_data w = (Ok img, w') ->
     models_image.downloads img = 0 /\
     exists d, db_images w' = db_images w ++ [d] /\
               d !! "downloads" = Some (VInt 0)) /\
  (forall (image_id : string) (requests : list Request) (w w' : World)
          (urls : list string) (c : Z),
     download_each image_id requests w = (Ok urls, w') ->
     (DownloadService.get_image_downloads image_id w).1 = Ok (VInt c) ->
     next_ok w' ->
     (DownloadService.get_image_downloads image_id w').1
       = Ok (VInt (c + Z.of_nat (length requests)))).
Proof.
  split.
  - intros file image_data w w' img Hrun.
    apply create_image_ok in Hrun as (d & now & Hi & Hd & Hv).
    split; [|exists d; split; assumption].
    apply validate_fields in Hv as (_ & _ & _ & _ & _ & Hdl & _).
    specialize (Hdl _ Hd). congruence.
  - intros image_id requests w w' urls c Hrun Hbefore Hnext.
    rewrite get_image_downloads_eq in Hbefore.
    destruct (ObjectId_of image_id) as [o|e] eqn:Ho; simpl in Hbefore; [|discriminate].
    destruct (fails (env w) (length (trace w))) eqn:F; simpl in Hbefore; [discriminate|].
    destruct (List.find (has_id o) (db_images w)) as [d|] eqn:Hfind; simpl in Hbefore.
    + unfold getitem in Hbefore.
      destruct (d !! "downloads") as [v|] eqn:Hc; [|discriminate].
      injection Hbefore as ->.
      destruct (download_each_counter image_id requests w w' urls o d c
                  Hrun Ho Hfind Hc) as (He & d' & Hfind' & Hc').
      rewrite get_image_downloads_eq, Ho. simpl.
      unfold next_ok in Hnext. rewrite Hnext, Hfind'. simpl.
      unfold getitem. rewrite Hc'. reflexivity.
    + injection Hbefore as <-.
      destruct requests as [|request rest].
      * simpl in Hrun. injection Hrun as <- <-.
        rewrite get_image_downloads_eq, Ho. simpl. rewrite F, Hfind. reflexivity.
      * simpl in Hrun. unfold bind in Hrun.
        destruct (downloads_endpoints.download_image image_id request w)
          as [[url|e] w1] eqn:E1; [|discriminate].
        apply download_image_counter in E1 as (o' & d0 & Ho' & _ & Hfind' & _).
        rewrite Ho in Ho'. injection Ho' as <-. congruence.
Qed.

Lemma find_app_none {A} (p : A -> bool) (l1 l2 : list A) :
  List.find p l1 = None -> List.find p (l1 ++ l2) = List.find p l2.
Proof.
  induction l1 as [|x l1 IH]; [reflexivity|]. cbn [List.find app].
  destruct (p x); [discriminate | exact IH].
Qed.

Lemma existsb_find_none {A} (p : A -> bool) (l : list A) :
  existsb p l = false -> List.find p l = None.
Proof.
  induction l as [|x l IH]; [reflexivity|]. cbn [existsb List.find].
  destruct (p x); [discriminate | exact IH].
Qed.

(** A recorded download of a stored image whose counter has room, when the
    store answers and the id of the event is new. *)
Lemma record_download_run (image_id : string) (o : ObjectId) (info d : document)
    (ip ua : string) (re cc : option string) (c : Z) (w : World) :
  ObjectId_of image_id = Ok o ->
  List.find (has_id o) (db_images w) = Some d ->
  d !! "downloads" = Some (VInt c) ->
  c + 1 <= int64_max ->
  fails (env w) (length (trace w)) = false ->
  fails (env w) (S (length (trace w))) = false ->
  existsb (has_id (object_id_at (env w) (S (length (trace w))))) (db_downloads w)
    = false ->
  dict_get info "ip_address" (VStr "unknown") = VStr ip ->
  dict_get info "user_agent" (VStr "unknown") = VStr ua ->
  as_opt_str (Some (dict_get info "referer" VNull)) = Some re ->
  as_opt_str (Some (dict_get info "country_code" VNull)) = Some cc ->
  exists dl w', DownloadService.record_download image_id info w = (Ok dl, w').
Proof.
  intros Ho Hfind Hc Hmax Hf0 Hf1 Hfresh Hip Hua Hre Hcc.
  unfold DownloadService.record_download, try_except, bind, lift, update_one_inc,
    insert_one_download, external, utcnow, raise, ret.
  rewrite Ho. cbn [fst snd env log trace db_images db_downloads length].
  rewrite Hf0. cbn [fst snd env log trace db_images db_downloads length].
  rewrite Hfind. unfold inc_field. rewrite Hc.
  destruct (Z.leb_spec (c + 1) int64_max) as [_|Hlt]; [|lia].
  cbn [fst snd env log trace set_images db_images db_downloads length].
  rewrite Hf1, Hfresh.
  cbn [fst snd env log trace set_images set_downloads db_images db_downloads length].
  rewrite Hip, Hua.
  unfold models_download.validate.
  rewrite lookup_insert_eq. cbn [mbind option_bind validate_object_id].
  do 3 (repeat (rewrite lookup_insert_ne by discriminate);
        rewrite lookup_insert_eq; cbn [mbind option_bind as_str]).
  repeat (rewrite lookup_insert_ne by discriminate).
  rewrite lookup_insert_eq. rewrite Hre. cbn [mbind option_bind].
  repeat (rewrite lookup_insert_ne by discriminate).
  rewrite lookup_insert_eq. rewrite Hcc. cbn [mbind option_bind].
  repeat (rewrite lookup_insert_ne by discriminate).
  rewrite lookup_insert_eq. cbn [mbind option_bind to_result].
  eexists _, _. reflexivity.
Qed.

Lemma download_image_run (image_id : string) (o : ObjectId) (request : Request)
    (d : document) (img : models_image.Image) (c : Z) (w : World) :
  ObjectId_of image_id = Ok o ->
  List.find (has_id o) (db_images w) = Some d ->
  models_image.validate (utcnow_at (env w) (S (length (trace w)))) d = Ok img ->
  d !! "downloads" = Some (VInt c) ->
  c + 1 <= int64_max ->
  (forall k, fails (env w) k = false) ->
  existsb (has_id (object_id_at (env w) (S (S (length (trace w)))))) (db_downloads w)
    = false ->
  exists w',
    downloads_endpoints.download_image image_id request w
      = (Ok (models_image.hd_url img), w').
Proof.
  intros Ho Hfind Hval Hc Hmax Hok Hfresh.
  unfold downloads_endpoints.download_image, bind, ret.
  rewrite get_image_eq, Ho. cbv zeta. rewrite Hok, Hfind, Hval.
  match goal with |- context [DownloadService.record_download image_id ?info ?w1] =>
    destruct (record_download_run image_id o info d (client_host request)
                (default "unknown" (headers request !! "user-agent"))
                (headers request !! "referer") None c w1 Ho Hfind Hc Hmax
                (Hok _) (Hok _) Hfresh) as (dl & w' & Hrun)
  end.
  - unfold dict_get. rewrite lookup_insert_eq. reflexivity.
  - unfold dict_get. rewrite lookup_insert_ne, lookup_insert_eq by discriminate.
    reflexivity.
  - unfold dict_get. do 2 rewrite lookup_insert_ne by discriminate.
    rewrite lookup_insert_eq. destruct (headers request !! "referer"); reflexivity.
  - unfold dict_get. do 3 rewrite lookup_insert_ne by discriminate.
    rewrite lookup_empty. reflexivity.
  - rewrite Hrun. eexists. reflexivity.
Qed.

(** C9. The document that a successful create_image persists has its
    download counter at 0, and so has the record it returns. Each
    successful download through the API adds exactly 1 to the stored
    counter of that image, in one increment call to the store: when a
    client makes N downloads one after the other and all succeed, a counter
    lookup that returned c before returns c + N afterwards. Such runs
    exist: a create_image that nothing stands in the way of succeeds, with
    a counter that reads 0 afterwards, and so does a download of a stored,
    readable image. The increment is the store's: a download makes one
    lookup, one update call and one insert, and the update adds 1 to the
    counter that the store holds when the call arrives, whatever was read
    before. *)
Theorem download_counter_exact :
  (forall (file : UploadFile) (image_data : document) (w w' : World)
          (img : models_image.Image),
     ImageService.create_image file image_data w = (Ok img, w') ->
     models_image.downloads img = 0 /\
     exists d, db_images w' = db_images w ++ [d] /\
               d !! "downloads" = Some (VInt 0)) /\
  (forall (image_id : string) (requests : list Request) (w w' : World)
          (urls : list string) (c : Z),
     download_each image_id requests w = (Ok urls, w') ->
     (DownloadService.get_image_downloads image_id w).1 = Ok (VInt c) ->
     next_ok w' ->
     (DownloadService.get_image_downloads image_id w').1
       = Ok (VInt (c + Z.of_nat (length requests)))) /\
  (forall (file : UploadFile) (image_data : document) (w : World)
          (image : PILImage) (thumb : bytes) (name description ct : string)
          (tags : list string) (featured : bool),
     (forall k, fails (env w) k = false) ->
     PIL_open (uf_content file) = Some image ->
     PIL_save (PIL_thumbnail image (200, 200))
       match pil_format (PIL_thumbnail image (200, 200)) with
       | Some (String c s) => String c s
       | _ => "JPEG"
       end = Some thumb ->
     image_data !! "name" = Some (VStr name) ->
     dict_get image_data "description" (VStr "") = VStr description ->
     dict_get image_data "tags" (VList []) = VList tags ->
     dict_get image_data "is_featured" (VBool false) = VBool featured ->
     uf_content_type file = Some ct ->
     let fn := uuid4_at (env w) (length (trace w)) +:+ splitext_ext (uf_filename file) in
     let o := object_id_at (env w)
                (length (create_image_calls fn (uf_content file)) - 1
                 + length (trace w))%nat in
     existsb (has_id o) (db_images w) = false ->
     exists img w',
       ImageService.create_image file image_data w = (Ok img, w') /\
       models_image.id img = Some o /\
       models_image.downloads img = 0 /\
       (ObjectId_of o = Ok o ->
        (DownloadService.get_image_downloads o w').1 = Ok (VInt 0))) /\
  (forall (image_id : string) (o : ObjectId) (request : Request) (d : document)
          (img : models_image.Image) (c : Z) (w : World),
     ObjectId_of image_id = Ok o ->
     List.find (has_id o) (db_images w) = Some d ->
     models_image.validate (utcnow_at (env w) (S (length (trace w)))) d = Ok img ->
     d !! "downloads" = Some (VInt c) ->
     c + 1 <= int64_max ->
     (forall k, fails (env w) k = false) ->
     existsb (has_id (object_id_at (env w) (S (S (length (trace w))))))
       (db_downloads w) = false ->
     exists w',
       downloads_endpoints.download_image image_id request w
         = (Ok (models_image.hd_url img), w') /\
       (DownloadService.get_image_downloads image_id w').1 = Ok (VInt (c + 1))) /\
  (forall (image_id : string) (request : Request) (w w' : World) (url : string),
     downloads_endpoints.download_image image_id request w = (Ok url, w') ->
     exists o,
       ObjectId_of image_id = Ok o /\
       trace w' = DbInsertDownload :: DbUpdateOne o :: DbFindOne o :: trace w) /\
  (forall (image_id : string) (request_info : document) (w w' : World)
          (dl : models_download.Download) (o : ObjectId) (d : document) (c : Z),
     DownloadService.record_download image_id request_info w = (Ok dl, w') ->
     ObjectId_of image_id = Ok o ->
     List.find (has_id o) (db_images w) = Some d ->
     d !! "downloads" = Some (VInt c) ->
     List.find (has_id o) (db_images w') = Some (<["downloads" := VInt (c + 1)]> d) /\
     trace w' = DbInsertDownload :: DbUpdateOne o :: trace w).
Proof.
  destruct download_counter_steps as (Hzero & Hsum).
  split; [exact Hzero|]. split; [exact Hsum|].
  split; [|split; [|split]].
  - intros file image_data w image thumb name description ct tags featured
      Hok Hopen Hsave Hname Hdesc Htags Hfeat Hct fn o Hfresh.
    destruct (create_image_complete file image_data w image thumb name description ct
                tags featured Hok Hopen Hsave Hname Hdesc Htags Hfeat Hct Hfresh)
      as (d & w' & Hrun & _ & He & Hdb & _ & _ & _ & Hid & _ & Hdl & _).
    eexists _, w'. split; [exact Hrun|]. split; [reflexivity|]. split; [reflexivity|].
    intros Ho. rewrite get_image_downloads_eq, Ho. cbv zeta.
    rewrite He, Hok, Hdb.
    assert (Hnone : List.find (has_id o) (db_images w) = None).
    { apply existsb_find_none, Hfresh. }
    rewrite (find_app_none _ _ _ Hnone). cbn [List.find]. unfold has_id at 1.
    rewrite bool_decide_eq_true_2 by exact Hid.
    unfold getitem. rewrite Hdl. reflexivity.
  - intros image_id o request d img c w Ho Hfind Hval Hc Hmax Hok Hfresh.
    destruct (download_image_run image_id o request d img c w Ho Hfind Hval Hc Hmax
                Hok Hfresh) as (w' & Hrun).
    exists w'. split; [exact Hrun|].
    destruct (download_image_counter image_id request w w' _ Hrun)
      as (o' & d0 & Ho' & _ & Hfind' & He & Hstep).
    rewrite Ho in Ho'. injection Ho' as <-.
    rewrite Hfind in Hfind'. injection Hfind' as <-.
    rewrite get_image_downloads_eq, Ho. cbv zeta.
    rewrite He, Hok, (Hstep c Hc). unfold getitem. rewrite lookup_insert_eq.
    reflexivity.
  - intros image_id request w w' url Hrun.
    apply download_image_ok in Hrun as (o & d & d' & Ho & _ & _ & _ & _ & _ & _ & _ & Ht).
    exists o. split; assumption.
  - intros image_id request_info w w' dl o d c Hrun Ho Hfind Hc.
    apply record_download_ok in Hrun
      as (o' & Ho' & _ & _ & _ & Ht & _ & Himg).
    rewrite Ho in Ho'. injection Ho' as <-.
    rewrite Hfind in Himg. destruct Himg as (d' & Hinc & Himg).
    split; [|exact Ht].
    rewrite Himg. rewrite (inc_field_downloads d d' c Hc Hinc).
    apply (find_update_first _ _ d); [exact Hfind|].
    pose proof (find_holds _ _ _ Hfind) as Hp. unfold has_id in *.
    apply bool_decide_eq_true in Hp. apply bool_decide_eq_true.
    rewrite lookup_insert_ne; [exact Hp | discriminate].
Qed.

(** *** Updating an image *)

Lemma update_data_lookup (p : schemas_image.ImageUpdate) (now : Z) (k : string) :
  (filter (fun kv : string * value => kv.2 <> VNull) (schemas_image.dict p)
     ∪ {[ "updated_at" := VDate now ]}) !! k =
  if decide (k = "name") then VStr <$> schemas_image.name p
  else if decide (k = "description") then VStr <$> schemas_image.description p
  else if decide (k = "tags") then VList <$> schemas_image.tags p
  else if decide (k = "is_featured") then VBool <$> schemas_image.is_featured p
  else if decide (k = "updated_at") then Some (VDate now)
  else None.
Proof.
  rewrite lookup_union, map_lookup_filter. unfold schemas_image.dict.
  repeat case_decide; subst; simplify_map_eq.
  all: try (destruct p as [[n|] [de|] [t|] [f|]]; simpl; reflexivity).
Qed.

(** The document after the patch [p] was applied at time [now]. *)
Lemma patched_lookup (p : schemas_image.ImageUpdate) (now : Z) (d : document)
    (k : string) :
  ((filter (fun kv : string * value => kv.2 <> VNull) (schemas_image.dict p)
      ∪ {[ "updated_at" := VDate now ]}) ∪ d) !! k =
  if decide (k = "name") then from_option (Some ∘ VStr) (d !! k) (schemas_image.name p)
  else if decide (k = "description")
       then from_option (Some ∘ VStr) (d !! k) (schemas_image.description p)
  else if decide (k = "tags")
       then from_option (Some ∘ VList) (d !! k) (schemas_image.tags p)
  else if decide (k = "is_featured")
       then from_option (Some ∘ VBool) (d !! k) (schemas_image.is_featured p)
  else if decide (k = "updated_at") then Some (VDate now)
  else d !! k.
Proof.
  rewrite lookup_union, update_data_lookup.
  repeat case_decide; subst.
  1: destruct (schemas_image.name p); simpl.
  3: destruct (schemas_image.description p); simpl.
  5: destruct (schemas_image.tags p); simpl.
  7: destruct (schemas_image.is_featured p); simpl.
  all: destruct (d !! _); reflexivity.
Qed.

(** C7. update_image with a patch of the update schema fails with the
    not-found exception, changing nothing, when no record is stored under
    the id. Otherwise the only document it can change is that record, and
    the changed document has name, description, tags and the featured flag
    replaced where the patch gives a value and kept where it gives none,
    updated_at set to the current time, and every other field, among them
    filename, thumbnail URL, original URL and the download counter, as
    before. The record it returns on success shows the same. *)
Theorem update_image_frame (image_id : string) (p : schemas_image.ImageUpdate)
    (w : World) :
  let r := (ImageService.update_image image_id (schemas_image.dict p) w).1 in
  let w' := (ImageService.update_image image_id (schemas_image.dict p) w).2 in
  (stored_image image_id w = None ->
   r = Raise ImageNotFoundException /\ same_stores w w') /\
  db_downloads w' = db_downloads w /\
  original_bucket w' = original_bucket w /\
  thumbnail_bucket w' = thumbnail_bucket w /\
  ((db_images w' = db_images w /\ exists e, r = Raise e) \/
   exists o d d' now,
     ObjectId_of image_id = Ok o /\
     List.find (has_id o) (db_images w) = Some d /\
     db_images w' = update_first (has_id o) (fun _ => d') (db_images w) /\
     d' !! "filename" = d !! "filename" /\
     d' !! "thumbnail_url" = d !! "thumbnail_url" /\
     d' !! "hd_url" = d !! "hd_url" /\
     d' !! "downloads" = d !! "downloads" /\
     d' !! "updated_at" = Some (VDate now) /\
     d' !! "name" = from_option (Some ∘ VStr) (d !! "name") (schemas_image.name p) /\
     d' !! "description"
       = from_option (Some ∘ VStr) (d !! "description") (schemas_image.description p) /\
     d' !! "tags" = from_option (Some ∘ VList) (d !! "tags") (schemas_image.tags p) /\
     d' !! "is_featured"
       = from_option (Some ∘ VBool) (d !! "is_featured") (schemas_image.is_featured p) /\
     (forall k, k ∉ ["name"; "description"; "tags"; "is_featured"; "updated_at"] ->
                d' !! k = d !! k) /\
     (forall img, r = Ok img ->
        exists old,
          (ImageService.get_image image_id w).1 = Ok old /\
          models_image.filename img = models_image.filename old /\
          models_image.thumbnail_url img = models_image.thumbnail_url old /\
          models_image.hd_url img = models_image.hd_url old /\
          models_image.downloads img = models_image.downloads old /\
          models_image.updated_at img = Some now /\
          models_image.name img
            = default (models_image.name old) (schemas_image.name p) /\
          models_image.description img
            = default (models_image.description old) (schemas_image.description p))).
Proof.
  pose proof (get_image_frame image_id w) as (Hs & He & Ht).
  pose proof (get_image_missing image_id w) as Hmiss.
  pose proof (get_image_raises image_id w) as Hraise.
  pose proof (get_image_ok image_id w) as Hok.
  unfold ImageService.update_image, try_except, bind.
  destruct (ImageService.get_image image_id w) as [[old|e] w1] eqn:E1; cbn [fst snd] in *.
  2:{ specialize (Hraise e eq_refl). subst e. unfold raise. cbn [fst snd].
      destruct Hs as (Hs1 & Hs2 & Hs3 & Hs4).
      split; [intros _; split; [reflexivity | repeat split; assumption]|].
      repeat (split; [assumption|]). left. split; [assumption | eexists; reflexivity]. }
  destruct (Hok old eq_refl) as (o & d & Ho & Hfind & Hval & Hf & ->).
  clear Hok Hraise Ht He Hs.
  split; [intros Hnone; specialize (Hmiss Hnone); discriminate|]. clear Hmiss.
  unfold utcnow, lift. cbn [fst snd]. rewrite Ho.
  unfold update_one_set, external. cbn [fst snd env log trace db_images length].
  set (now := utcnow_at (env w) (S (length (trace w)))).
  set (upd := filter (fun kv : string * value => kv.2 <> VNull) (schemas_image.dict p)
                ∪ {[ "updated_at" := VDate now ]}).
  destruct (fails (env w) (S (length (trace w)))) eqn:F1; cbn [fst snd].
  { unfold raise. simpl. repeat (split; [reflexivity|]).
    left. split; [reflexivity | eexists; reflexivity]. }
  rewrite Hfind.
  assert (Hupd_id : upd !! "_id" = None).
  { unfold upd. rewrite update_data_lookup. reflexivity. }
  unfold set_fields. rewrite Hupd_id.
  set (d' := upd ∪ d).
  set (w2 := set_images _ _).
  pose proof (get_image_frame image_id w2) as ((Hs1 & Hs2 & Hs3 & Hs4) & _ & _).
  pose proof (get_image_ok image_id w2) as Hok2.
  assert (Hd' : forall k, d' !! k =
    if decide (k = "name") then from_option (Some ∘ VStr) (d !! k) (schemas_image.name p)
    else if decide (k = "description")
         then from_option (Some ∘ VStr) (d !! k) (schemas_image.description p)
    else if decide (k = "tags")
         then from_option (Some ∘ VList) (d !! k) (schemas_image.tags p)
    else if decide (k = "is_featured")
         then from_option (Some ∘ VBool) (d !! k) (schemas_image.is_featured p)
    else if decide (k = "updated_at") then Some (VDate now)
    else d !! k) by (intros k; apply patched_lookup).
  assert (Hfind2 : List.find (has_id o) (db_images w2) = Some d').
  { subst w2. simpl. apply (find_update_first _ _ d); [exact Hfind|].
    pose proof (find_holds _ _ _ Hfind) as Hp. unfold has_id in *.
    apply bool_decide_eq_true in Hp. apply bool_decide_eq_true.
    rewrite Hd'. simpl. exact Hp. }
  clearbody d'. clear Hupd_id. clearbody upd.
  destruct (ImageService.get_image image_id w2) as [r3 w3] eqn:E3; cbn [fst snd] in *.
  assert (Hres : (let (r, w'0) := (r3, w3) in
                  match r with
                  | Ok a => (Ok a, w'0)
                  | Raise e => raise e w'0
                  end) = (r3, w3)) by (destruct r3; reflexivity).
  rewrite Hres. cbn [fst snd]. clear Hres.
  rewrite Hs2, Hs3, Hs4. subst w2. simpl.
  repeat (split; [reflexivity|]).
  right. exists o, d, d', now.
  split; [first [reflexivity | exact Ho]|]. split; [exact Hfind|]. split; [exact Hs1|].
  do 9 (split; [rewrite Hd'; reflexivity|]).
  split.
  { intros k Hk. rewrite Hd'.
    repeat case_decide; subst; try reflexivity;
      exfalso; apply Hk; rewrite !elem_of_cons; tauto. }
  intros img ->. exists old. split; [reflexivity|].
  destruct (Hok2 img eq_refl) as (o2 & d2 & Ho2 & Hfind3 & Hval2 & _).
  rewrite Ho in Ho2. injection Ho2 as <-.
  change (db_images (set_images (update_first (has_id o) (fun _ => d'))
                       (log (DbUpdateOne o) (log (DbFindOne o) w))))
    with (update_first (has_id o) (fun _ => d') (db_images w)) in Hfind3.
  simpl in Hfind2. rewrite Hfind2 in Hfind3.
  assert (d2 = d') by congruence. subst d2.
  apply validate_fields in Hval
    as (Hfn & Hth & Hhd & Hnm & Hde & Hdl & Hdl0 & _).
  apply validate_fields in Hval2
    as (Hfn2 & Hth2 & Hhd2 & Hnm2 & Hde2 & Hdl2 & Hdl02 & _ & _ & _ & Hup2).
  rewrite Hd' in Hfn2, Hth2, Hhd2, Hnm2, Hde2, Hdl2, Hdl02. simpl in *.
  specialize (Hup2 now). rewrite Hd' in Hup2. simpl in Hup2.
  split; [congruence|]. split; [congruence|]. split; [congruence|].
  split.
  { destruct (d !! "downloads") as [v|] eqn:Hv.
    - pose proof (Hdl _ eq_refl). pose proof (Hdl2 _ eq_refl). congruence.
    - rewrite Hdl0, Hdl02; reflexivity. }
  split; [apply Hup2; reflexivity|].
  split.
  - destruct (schemas_image.name p); simpl in *; congruence.
  - destruct (schemas_image.description p); simpl in *; congruence.
Qed.

(** *** Listing images *)

Lemma bson_leb_total (a b : option value) :
  bson_leb a b = true \/ bson_leb b a = true.
Proof.
  destruct a as [[]|], b as [[]|]; simpl; auto.
  - destruct b0, b; simpl; auto.
  - destruct (Z.leb_spec n n0); auto. right. apply Z.leb_le. lia.
  - destruct (Z.leb_spec t t0); auto. right. apply Z.leb_le. lia.
Qed.

Lemma insert_desc_elem (k : string) (d x : document) (l : list document) :
  x ∈ insert_desc k d l <-> x = d \/ x ∈ l.
Proof.
  induction l as [|y l IH]; simpl.
  - rewrite list_elem_of_singleton, elem_of_nil. tauto.
  - destruct (bson_leb (y !! k) (d !! k)).
    + rewrite !elem_of_cons. tauto.
    + rewrite !elem_of_cons, IH. tauto.
Qed.

Lemma sort_desc_elem (k : string) (x : document) (l : list document) :
  x ∈ sort_desc k l <-> x ∈ l.
Proof.
  induction l as [|y l IH]; simpl; [reflexivity|].
  rewrite insert_desc_elem, IH, elem_of_cons. reflexivity.
Qed.

Lemma insert_desc_length (k : string) (d : document) (l : list document) :
  length (insert_desc k d l) = S (length l).
Proof.
  induction l as [|y l IH]; simpl; [reflexivity|].
  destruct (bson_leb (y !! k) (d !! k)); simpl; [reflexivity | rewrite IH; reflexivity].
Qed.

Lemma sort_desc_length (k : string) (l : list document) :
  length (sort_desc k l) = length l.
Proof.
  induction l as [|y l IH]; simpl; [reflexivity|].
  rewrite insert_desc_length, IH. reflexivity.
Qed.

Lemma insert_desc_sorted (k : string) (d : document) (l : list document) :
  Sorted (desc_on k) l -> Sorted (desc_on k) (insert_desc k d l).
Proof.
  induction l as [|y l IH]; simpl; intros Hs.
  - repeat constructor.
  - destruct (bson_leb (y !! k) (d !! k)) eqn:Hle.
    + constructor; [exact Hs|]. constructor. exact Hle.
    + apply Sorted_inv in Hs as (Hs & Hhd). constructor; [apply IH, Hs|].
      destruct l as [|z l]; simpl.
      * constructor. unfold desc_on.
        destruct (bson_leb_total (d !! k) (y !! k)); congruence.
      * destruct (bson_leb (z !! k) (d !! k)).
        -- constructor. unfold desc_on.
           destruct (bson_leb_total (d !! k) (y !! k)); congruence.
        -- constructor. apply HdRel_inv in Hhd. exact Hhd.
Qed.

Lemma sort_desc_sorted (k : string) (l : list document) :
  Sorted (desc_on k) (sort_desc k l).
Proof.
  induction l as [|y l IH]; simpl; [constructor | apply insert_desc_sorted, IH].
Qed.

Lemma Sorted_drop {A} (R : relation A) (n : nat) (l : list A) :
  Sorted R l -> Sorted R (drop n l).
Proof.
  revert l. induction n as [|n IH]; intros [|x l] Hs; simpl; try assumption.
  apply IH. apply Sorted_inv in Hs. tauto.
Qed.

Lemma Sorted_take {A} (R : relation A) (n : nat) (l : list A) :
  Sorted R l -> Sorted R (take n l).
Proof.
  revert l. induction n as [|n IH]; intros [|x l] Hs; simpl; try constructor.
  - apply IH. apply Sorted_inv in Hs. tauto.
  - apply Sorted_inv in Hs as (_ & Hhd).
    destruct l as [|y l]; destruct n; simpl; constructor.
    apply HdRel_inv in Hhd. exact Hhd.
Qed.

Lemma validate_all_spec (now : Z) (docs : list document)
    (imgs : list models_image.Image) :
  ImageService.validate_all now docs = Ok imgs ->
  Forall2 (fun d i => models_image.validate now d = Ok i) docs imgs.
Proof.
  revert imgs. induction docs as [|d docs IH]; simpl; intros imgs.
  - intros [= <-]. constructor.
  - destruct (models_image.validate now d) as [i|e] eqn:Hv; [|discriminate].
    destruct (ImageService.validate_all now docs) as [rest|e]; [|discriminate].
    intros [= <-]. constructor; [exact Hv | apply IH; reflexivity].
Qed.

Lemma validated_sorted (now : Z) (docs : list document)
    (imgs : list models_image.Image) :
  Forall2 (fun d i => models_image.validate now d = Ok i) docs imgs ->
  (forall d, d ∈ docs -> is_Some (d !! "created_at")) ->
  Sorted (desc_on "created_at") docs ->
  Sorted newest_first imgs.
Proof.
  assert (Hrel : forall d1 d2 i1 i2,
    models_image.validate now d1 = Ok i1 -> models_image.validate now d2 = Ok i2 ->
    is_Some (d1 !! "created_at") -> is_Some (d2 !! "created_at") ->
    desc_on "created_at" d1 d2 -> newest_first i1 i2).
  { intros d1 d2 i1 i2 H1 H2 [v1 E1] [v2 E2] Hd.
    apply validate_fields in H1 as (_ & _ & _ & _ & _ & _ & _ & _ & _ & Hc1 & _).
    apply validate_fields in H2 as (_ & _ & _ & _ & _ & _ & _ & _ & _ & Hc2 & _).
    rewrite (Hc1 _ E1) in E1. rewrite (Hc2 _ E2) in E2.
    unfold desc_on in Hd. rewrite E1, E2 in Hd. simpl in Hd.
    unfold newest_first. apply Z.leb_le. exact Hd. }
  induction 1 as [|d i docs imgs Hv Hall IH]; intros Hca Hs; [constructor|].
  apply Sorted_inv in Hs as (Hs & Hhd).
  constructor.
  - apply IH; [|exact Hs]. intros d0 Hd0. apply Hca. right. exact Hd0.
  - destruct Hall as [|d2 i2 docs imgs Hv2 Hall]; constructor.
    apply HdRel_inv in Hhd.
    apply (Hrel d d2); try assumption; apply Hca; [left | right; left].
Qed.

Lemma get_images_ok (skip limit : Z) (tags : option (list string))
    (featured : option bool) (w w' : World) (imgs : list models_image.Image) :
  ImageService.get_images skip limit tags featured w = (Ok imgs, w') ->
  0 <= skip /\ 0 <= limit /\ w' = log DbFind w /\
  ImageService.validate_all (utcnow_at (env w) (S (length (trace w))))
    (to_list limit
       (cursor_limit limit
          (cursor_skip skip
             (sort_desc "created_at"
                (List.filter (matches (ImageService.build_query tags featured))
                   (db_images w))))))
  = Ok imgs.
Proof.
  unfold ImageService.get_images, bind, find_to_list, external, utcnow, lift, raise.
  destruct (skip <? 0) eqn:Hs; simpl; [discriminate|].
  destruct (limit <? 0) eqn:Hl; simpl; [discriminate|].
  destruct (fails (env w) (length (trace w))); simpl; [discriminate|].
  match goal with |- context [ImageService.validate_all ?n ?d] =>
    destruct (ImageService.validate_all n d) as [is0|e] eqn:Hv end; [|discriminate].
  intros [= <- <-]. apply Z.ltb_ge in Hs, Hl. repeat split; assumption || reflexivity.
Qed.

(** C8. When the listing of the API returns, every returned record carries
    each of the listed tags (all of them, not one of them) and has the
    requested featured flag; the records come newest first, provided every
    stored document has its creation time; the total is the number of
    stored documents that match the filter, an expression in which skip and
    limit do not occur; the page holds min(limit, max(0, total - skip))
    records; and nothing in the stores has changed. *)
Theorem list_images_conjunctive (skip limit : Z) (tags : option (list string))
    (featured : option bool) (w w' : World) (imgs : list models_image.Image)
    (total : Z) :
  images_endpoints.get_images skip limit tags featured w = (Ok (imgs, total), w') ->
  (forall ts, tags = Some ts ->
     forall img t, img ∈ imgs -> t ∈ ts -> t ∈ models_image.tags img) /\
  (forall b, featured = Some b ->
     forall img, img ∈ imgs -> models_image.is_featured img = b) /\
  ((forall d, d ∈ db_images w -> is_Some (d !! "created_at")) ->
   Sorted newest_first imgs) /\
  total = Z.of_nat (length (List.filter
                              (matches (ImageService.build_query tags featured))
                              (db_images w))) /\
  Z.of_nat (length imgs) = Z.min limit (Z.max 0 (total - skip)) /\
  same_stores w w'.
Proof.
  unfold images_endpoints.get_images, bind, ret.
  destruct (ImageService.get_images skip limit tags featured w)
    as [[imgs0|e] w1] eqn:E1; [|discriminate].
  apply get_images_ok in E1 as (Hskip & Hlimit & -> & Hv).
  unfold ImageService.count_images, count_documents, external.
  cbn [env log trace db_images length].
  destruct (fails (env w) (S (length (trace w)))); [discriminate|].
  intros [= <- <- <-].
  set (q := ImageService.build_query tags featured) in *.
  set (hits := List.filter (matches q) (db_images w)) in *.
  set (docs := to_list limit (cursor_limit limit (cursor_skip skip
                 (sort_desc "created_at" hits)))) in *.
  apply validate_all_spec in Hv.
  assert (Hsub : forall d, d ∈ docs -> d ∈ db_images w /\ matches q d = true).
  { intros d Hd. unfold docs, to_list, cursor_limit, cursor_skip in Hd.
    apply subseteq_take in Hd.
    assert (Hd' : d ∈ sort_desc "created_at" hits).
    { destruct (limit =? 0); [|apply subseteq_take in Hd];
        apply subseteq_drop in Hd; exact Hd. }
    apply sort_desc_elem in Hd'. unfold hits in Hd'.
    apply list_elem_of_In, filter_In in Hd' as (Hin & Hm).
    split; [apply list_elem_of_In, Hin | exact Hm]. }
  assert (Hsrc : forall img, img ∈ imgs0 ->
            exists d, d ∈ docs /\ models_image.validate
                        (utcnow_at (env w) (S (length (trace w)))) d = Ok img).
  { intros img Hin. clear -Hv Hin.
    induction Hv as [|d i docs imgs Hvd Hall IH]; [inversion Hin|].
    apply elem_of_cons in Hin as [->|Hin].
    - exists d. split; [left | exact Hvd].
    - destruct (IH Hin) as (d0 & Hd0 & Hv0). exists d0. split; [right|]; assumption. }
  split.
  { intros ts -> img t Hin Ht.
    destruct (Hsrc img Hin) as (d & Hd & Hvd).
    destruct (Hsub d Hd) as (_ & Hm).
    apply validate_fields in Hvd as (_ & _ & _ & _ & _ & _ & _ & Htags & _).
    unfold matches, q, ImageService.build_query in Hm. simpl in Hm.
    destruct ts as [|t0 ts]; [inversion Ht|].
    apply andb_true_iff in Hm as (Hm & _). unfold all_in in Hm.
    destruct (d !! "tags") as [v|] eqn:Hv0; [|discriminate].
    rewrite (Htags v eq_refl) in Hm.
    rewrite forallb_forall in Hm. apply list_elem_of_In in Ht.
    specialize (Hm t Ht). apply bool_decide_eq_true in Hm. exact Hm. }
  split.
  { intros b -> img Hin.
    destruct (Hsrc img Hin) as (d & Hd & Hvd).
    destruct (Hsub d Hd) as (_ & Hm).
    apply validate_fields in Hvd as (_ & _ & _ & _ & _ & _ & _ & _ & Hfe & _).
    unfold matches, q, ImageService.build_query in Hm. simpl in Hm.
    apply andb_true_iff in Hm as (_ & Hm). apply bool_decide_eq_true in Hm.
    specialize (Hfe _ Hm). congruence. }
  split.
  { intros Hca. eapply validated_sorted; [exact Hv | |].
    - intros d Hd. apply Hca. apply (Hsub d Hd).
    - unfold docs, to_list, cursor_limit, cursor_skip.
      apply Sorted_take.
      destruct (limit =? 0); [|apply Sorted_take];
        apply Sorted_drop, sort_desc_sorted. }
  split; [reflexivity|].
  split; [|repeat split; reflexivity].
  rewrite <- (Forall2_length _ _ _ Hv).
  unfold docs, to_list, cursor_limit, cursor_skip.
  destruct (limit =? 0) eqn:Hz.
  - apply Z.eqb_eq in Hz. subst limit. simpl. lia.
  - apply Z.eqb_neq in Hz.
    rewrite !length_take, length_drop, sort_desc_length. lia.
Qed.

(** *** Rounding to binary64 *)

Section Rounding.
Import binary64.

Lemma rne_spec (n d : Z) :
  0 <= n -> 0 < d ->
  0 <= rne n d /\ - d <= 2 * (rne n d * d - n) <= d.
Proof.
  intros Hn Hd. unfold rne.
  pose proof (Z.div_mod n d ltac:(lia)) as Hdm.
  pose proof (Z.mod_pos_bound n d Hd) as Hm.
  pose proof (Z.div_pos n d Hn Hd) as Hq.
  destruct (Z.compare_spec (2 * (n mod d)) d) as [He|Hl|Hg];
    [destruct (Z.even (n / d))| |]; nia.
Qed.

Lemma rne_exact (q d : Z) : 0 <= q -> 0 < d -> rne (q * d) d = q.
Proof.
  intros Hq Hd. unfold rne.
  rewrite Z.div_mul by lia. rewrite Z.mod_mul by lia.
  destruct (Z.compare_spec (2 * 0) d); lia.
Qed.

Lemma div_le_cross (n1 d1 n2 d2 : Z) :
  0 <= n1 -> 0 < d1 -> 0 < d2 -> n1 * d2 <= n2 * d1 -> n1 / d1 <= n2 / d2.
Proof.
  intros Hn1 Hd1 Hd2 Hc.
  apply Z.div_le_lower_bound; [exact Hd2|].
  pose proof (Z.mul_div_le n1 d1 Hd1) as Hle.
  assert (d1 * (d2 * (n1 / d1)) <= d1 * n2) by nia.
  nia.
Qed.

Lemma rne_mono (n1 d1 n2 d2 : Z) :
  0 <= n1 -> 0 < d1 -> 0 < d2 -> n1 * d2 <= n2 * d1 -> rne n1 d1 <= rne n2 d2.
Proof.
  intros Hn1 Hd1 Hd2 Hc.
  assert (Hn2 : 0 <= n2) by nia.
  pose proof (div_le_cross n1 d1 n2 d2 Hn1 Hd1 Hd2 Hc) as Hq.
  pose proof (Z.div_mod n1 d1 ltac:(lia)) as Hdm1.
  pose proof (Z.mod_pos_bound n1 d1 Hd1) as Hm1.
  pose proof (Z.div_mod n2 d2 ltac:(lia)) as Hdm2.
  pose proof (Z.mod_pos_bound n2 d2 Hd2) as Hm2.
  unfold rne.
  set (q1 := n1 / d1) in *. set (r1 := n1 mod d1) in *.
  set (q2 := n2 / d2) in *. set (r2 := n2 mod d2) in *.
  destruct (Z.eq_dec q1 q2) as [Heq|Hne].
  - rewrite <- Heq in *. clear Hq.
    assert (Hr : r1 * d2 <= r2 * d1) by nia.
    destruct (Z.compare_spec (2 * r1) d1) as [E1|L1|G1];
      destruct (Z.compare_spec (2 * r2) d2) as [E2|L2|G2];
      try destruct (Z.even q1); try lia; exfalso; nia.
  - assert (q1 + 1 <= q2) by lia.
    destruct (2 * r1 ?= d1); destruct (2 * r2 ?= d2);
      try destruct (Z.even q1); try destruct (Z.even q2); lia.
Qed.

Lemma pow2_pos (e : Z) : 0 <= e -> 0 < 2 ^ e.
Proof. intros. apply Z.pow_pos_nonneg; lia. Qed.

(** The exponent of the last place: [n / d] has at most 53 bits above it. *)
Lemma ulp_exponent (x : Z) :
  0 <= x ->
  let e := Z.max 0 (Z.log2 x - 52) in
  0 <= e /\ x < 2 ^ (e + 53) /\ (0 < e -> 2 ^ (e + 52) <= x).
Proof.
  intros Hx e. subst e.
  destruct (Z.eq_dec x 0) as [->|Hne].
  - simpl. split; [lia|]. split; [|lia]. reflexivity.
  - pose proof (Z.log2_spec x ltac:(lia)) as (Hlo & Hhi).
    pose proof (Z.log2_nonneg x) as Hl0.
    split; [lia|]. split.
    + eapply Z.lt_le_trans; [exact Hhi|].
      apply Z.pow_le_mono_r; lia.
    + intros He. replace (Z.max 0 (Z.log2 x - 52) + 52) with (Z.log2 x) by lia.
      exact Hlo.
Qed.

Lemma round_pos_nonneg (n d : Z) : 0 <= n -> 0 < d -> 0 <= round_pos n d.
Proof.
  intros Hn Hd. unfold round_pos.
  pose proof (ulp_exponent (n / d) (Z.div_pos n d Hn Hd)) as (He & _).
  pose proof (pow2_pos _ He) as Hp.
  pose proof (rne_spec n (d * 2 ^ Z.max 0 (Z.log2 (n / d) - 52)) Hn ltac:(nia)) as (Hq & _).
  nia.
Qed.

Lemma round_pos_mono (n1 d1 n2 d2 : Z) :
  0 <= n1 -> 0 < d1 -> 0 < d2 -> n1 * d2 <= n2 * d1 ->
  round_pos n1 d1 <= round_pos n2 d2.
Proof.
  intros Hn1 Hd1 Hd2 Hc.
  assert (Hn2 : 0 <= n2) by nia.
  pose proof (div_le_cross n1 d1 n2 d2 Hn1 Hd1 Hd2 Hc) as Hq.
  pose proof (Z.div_pos n1 d1 Hn1 Hd1) as Hx1.
  pose proof (Z.div_pos n2 d2 Hn2 Hd2) as Hx2.
  pose proof (ulp_exponent (n1 / d1) Hx1) as (He1 & Hhi1 & _).
  pose proof (ulp_exponent (n2 / d2) Hx2) as (He2 & _ & Hlo2).
  pose proof (Z.log2_le_mono _ _ Hq) as Hlog.
  unfold round_pos.
  set (e1 := Z.max 0 (Z.log2 (n1 / d1) - 52)) in *.
  set (e2 := Z.max 0 (Z.log2 (n2 / d2) - 52)) in *.
  assert (He12 : e1 <= e2) by lia.
  pose proof (pow2_pos e1 He1) as Hp1. pose proof (pow2_pos e2 He2) as Hp2.
  destruct (Z.eq_dec e1 e2) as [Heq|Hne].
  - rewrite <- Heq in *.
    pose proof (rne_mono n1 (d1 * 2 ^ e1) n2 (d2 * 2 ^ e1) Hn1 ltac:(nia) ltac:(nia)
                  ltac:(nia)) as Hr.
    nia.
  - assert (Hlt : e1 + 1 <= e2) by lia.
    (* the first is at most 2^53 units of its last place *)
    assert (Hq1 : rne n1 (d1 * 2 ^ e1) <= 2 ^ 53).
    { assert (Hn : n1 < d1 * 2 ^ (e1 + 53)).
      { pose proof (Z.mul_succ_div_gt n1 d1 Hd1). nia. }
      rewrite Z.pow_add_r in Hn by lia.
      set (D := d1 * 2 ^ e1) in *. assert (HD : 0 < D) by (subst D; nia).
      assert (Hle : n1 <= 2 ^ 53 * D) by (subst D; nia).
      rewrite <- (rne_exact (2 ^ 53) D) by lia.
      apply rne_mono; try lia. nia. }
    (* the second is at least 2^52 units of its last place *)
    assert (Hq2 : 2 ^ 52 <= rne n2 (d2 * 2 ^ e2)).
    { specialize (Hlo2 ltac:(lia)).
      pose proof (Z.mul_div_le n2 d2 Hd2) as Hdiv.
      rewrite Z.pow_add_r in Hlo2 by lia.
      set (D := d2 * 2 ^ e2) in *. assert (HD : 0 < D) by (subst D; nia).
      assert (Hle : 2 ^ 52 * D <= n2) by (subst D; nia).
      rewrite <- (rne_exact (2 ^ 52) D) at 1 by lia.
      apply rne_mono; try lia. nia. }
    assert (Hpow : 2 ^ 53 * 2 ^ e1 <= 2 ^ 52 * 2 ^ e2).
    { replace e2 with ((e2 - e1 - 1) + (e1 + 1)) by lia.
      rewrite (Z.pow_add_r 2 (e2 - e1 - 1)) by lia.
      rewrite (Z.pow_add_r 2 e1 1) by lia.
      pose proof (pow2_pos (e2 - e1 - 1) ltac:(lia)). nia. }
    pose proof (rne_spec n1 (d1 * 2 ^ e1) Hn1 ltac:(nia)) as (Hq10 & _).
    nia.
Qed.

(** A number with at most 53 significant bits is kept as it is. *)
Lemma round_pos_exact (k j d : Z) :
  0 <= k < 2 ^ 53 -> 0 <= j -> 0 < d ->
  round_pos (k * 2 ^ j * d) d = k * 2 ^ j.
Proof.
  intros Hk Hj Hd. unfold round_pos.
  rewrite Z.div_mul by lia.
  pose proof (pow2_pos j Hj) as Hpj.
  destruct (Z.eq_dec k 0) as [->|Hk0].
  - rewrite !Z.mul_0_l. change (Z.max 0 (Z.log2 0 - 52)) with 0.
    rewrite Z.pow_0_r, Z.mul_1_r.
    pose proof (rne_exact 0 d ltac:(lia) Hd) as Hr.
    rewrite Z.mul_0_l in Hr. rewrite Z.mul_1_r. exact Hr.
  - assert (Hlog : Z.log2 (k * 2 ^ j) = j + Z.log2 k)
      by (apply Z.log2_mul_pow2; lia).
    assert (Hlk : Z.log2 k < 53) by (apply Z.log2_lt_pow2; lia).
    pose proof (Z.log2_nonneg k) as Hlk0.
    rewrite Hlog.
    set (e := Z.max 0 (j + Z.log2 k - 52)).
    assert (He : 0 <= e <= j) by lia.
    pose proof (pow2_pos e ltac:(lia)) as Hpe.
    assert (Hsplit : 2 ^ j = 2 ^ (j - e) * 2 ^ e).
    { rewrite <- Z.pow_add_r by lia. f_equal. lia. }
    pose proof (pow2_pos (j - e) ltac:(lia)) as Hpje.
    replace (k * 2 ^ j * d) with (k * 2 ^ (j - e) * (d * 2 ^ e))
      by (rewrite Hsplit; ring).
    rewrite rne_exact by nia. rewrite Hsplit. ring.
Qed.

(** In the normal range the relative error is at most 2^-53. *)
Lemma round_pos_error (n d : Z) :
  0 < d -> 2 ^ 52 * d <= n ->
  - n <= 2 ^ 53 * (round_pos n d * d - n) <= n.
Proof.
  intros Hd Hn.
  assert (Hn0 : 0 <= n) by nia.
  assert (Hx : 2 ^ 52 <= n / d) by (apply Z.div_le_lower_bound; lia).
  pose proof (Z.log2_le_mono _ _ Hx) as Hlog.
  rewrite Z.log2_pow2 in Hlog by lia.
  pose proof (Z.log2_spec (n / d) ltac:(lia)) as (Hlo & _).
  pose proof (Z.mul_div_le n d Hd) as Hdiv.
  unfold round_pos.
  set (e := Z.max 0 (Z.log2 (n / d) - 52)).
  assert (He : e = Z.log2 (n / d) - 52) by lia.
  assert (He0 : 0 <= e) by lia.
  pose proof (pow2_pos e He0) as Hpe.
  assert (Hpow : 2 ^ Z.log2 (n / d) = 2 ^ 52 * 2 ^ e).
  { rewrite <- Z.pow_add_r by lia. f_equal. lia. }
  rewrite Hpow in Hlo.
  set (D := d * 2 ^ e). assert (HD : 0 < D) by (subst D; nia).
  pose proof (rne_spec n D Hn0 HD) as (Hq & Hlo2 & Hhi2).
  assert (HDn : 2 ^ 52 * D <= n) by (subst D; nia).
  replace (rne n D * 2 ^ e * d) with (rne n D * D) by (subst D; ring).
  lia.
Qed.

Lemma one_pos : 0 < one.
Proof. reflexivity. Qed.

Lemma one_split : one = 2 ^ 1043 * 2 ^ 31.
Proof. vm_compute. reflexivity. Qed.

Lemma one_half : one = 2 * 2 ^ 1073.
Proof. vm_compute. reflexivity. Qed.

Lemma one_large : 2 ^ 84 <= 2 ^ 1043.
Proof. vm_compute. discriminate. Qed.

Lemma huge_large : 2 ^ 32 * one <= huge.
Proof. vm_compute. discriminate. Qed.

Lemma finite_ok (x : Z) : 0 <= x < huge -> finite x = Ok x.
Proof.
  intros Hx. unfold finite. rewrite Z.abs_eq by lia.
  destruct (Z.ltb_spec x huge); [reflexivity | lia].
Qed.

(** The quotient of two positive ints below 2^31. *)
Lemma int_truediv_small (a b : Z) :
  0 < a < 2 ^ 31 -> 0 < b ->
  int_truediv a b = Ok (round_pos (a * one) b) /\
  0 <= round_pos (a * one) b <= a * one.
Proof.
  intros Ha Hb. pose proof one_pos as H1.
  assert (Hb' : 0 <= round_pos (a * one) b <= a * one).
  { split; [apply round_pos_nonneg; nia|].
    apply Z.le_trans with (round_pos (a * 2 ^ 1074 * 1) 1).
    - apply round_pos_mono; try nia. fold one. nia.
    - rewrite round_pos_exact by lia. fold one. lia. }
  split; [|exact Hb'].
  unfold int_truediv. destruct (Z.eqb_spec b 0); [lia|].
  rewrite Z.sgn_pos, Z.abs_eq, Z.mul_1_l by lia.
  unfold round. destruct (Z.ltb_spec (a * one) 0); [nia|].
  apply finite_ok. pose proof huge_large. nia.
Qed.

(** The quotient is below 1.0 exactly when the numerator is smaller. *)
Lemma quotient_below_one (a b : Z) :
  0 < a -> 0 < b < 2 ^ 31 ->
  (round_pos (a * one) b < one <-> a < b).
Proof.
  intros Ha Hb. pose proof one_pos as H1.
  split.
  - intros Hlt. destruct (Z.lt_ge_cases a b) as [|Hge]; [assumption|]. exfalso.
    assert (one <= round_pos (a * one) b); [|lia].
    apply Z.le_trans with (round_pos (1 * 2 ^ 1074 * 1) 1).
    + rewrite round_pos_exact by lia. fold one. lia.
    + apply round_pos_mono; try lia. fold one. nia.
  - intros Hlt.
    assert (round_pos (a * one) b <= (2 ^ 31 - 1) * 2 ^ 1043).
    { apply Z.le_trans with (round_pos ((2 ^ 31 - 1) * 2 ^ 1043 * 1) 1).
      - apply round_pos_mono; try nia. rewrite one_split.
        pose proof one_large. assert (0 < 2 ^ 1043) by lia.
        assert (a * 2 ^ 31 <= (2 ^ 31 - 1) * b) by lia.
        set (P := 2 ^ 1043) in *. clearbody P.
        replace (a * (P * 2 ^ 31) * 1) with (P * (a * 2 ^ 31)) by ring.
        replace ((2 ^ 31 - 1) * P * 1 * b) with (P * ((2 ^ 31 - 1) * b)) by ring.
        apply Z.mul_le_mono_nonneg_l; lia.
      - rewrite round_pos_exact by lia. lia. }
    assert (Hone : (2 ^ 31 - 1) * 2 ^ 1043 < one) by (vm_compute; reflexivity).
    lia.
Qed.

Lemma of_int_small (a : Z) : 0 < a < 2 ^ 31 -> of_int a = Ok (a * one).
Proof.
  intros Ha. unfold of_int, round. pose proof one_pos.
  destruct (Z.ltb_spec (a * one) 0); [nia|].
  replace (a * one) with (a * 2 ^ 1074 * 1) at 1 by (unfold one; ring).
  rewrite round_pos_exact by lia. fold one.
  apply finite_ok. pose proof huge_large. nia.
Qed.

(** A dimension [W] scaled by the rounded quotient [sn / sd]: the product
    is within one of the exact [W * sn / sd] and does not exceed a bound
    [M] that the exact value does not exceed. *)
Lemma scaled_dimension (W M sn sd : Z) :
  0 < W < 2 ^ 31 -> 0 < M < 2 ^ 31 -> 0 < sn < 2 ^ 31 -> 0 < sd < 2 ^ 31 ->
  W * sn <= M * sd ->
  exists f,
    int_mul W (round_pos (sn * one) sd) = Ok f /\
    0 <= to_int f <= M /\
    W * sn / sd - 1 <= to_int f <= W * sn / sd + 1.
Proof.
  intros HW HM Hsn Hsd Hle.
  pose proof one_pos as HU. pose proof one_split as HUs. pose proof one_large as HUl.
  pose proof huge_large as Hhuge.
  set (U := one) in *.
  set (R := round_pos (sn * U) sd).
  assert (HR0 : 0 <= R) by (apply round_pos_nonneg; nia).
  (* the error of the quotient *)
  assert (HB : - (sn * U) <= 2 ^ 53 * (R * sd - sn * U) <= sn * U).
  { apply round_pos_error; [lia|]. rewrite HUs.
    set (P := 2 ^ 1043) in *. clearbody P. nia. }
  (* the quotient is not tiny *)
  assert (HRlow : 2 ^ 52 <= R).
  { assert (sn * U <= 2 * (R * sd)) by lia.
    assert (U <= 2 * (R * sd)) by nia.
    assert (2 * (R * sd) <= 2 ^ 32 * R) by nia.
    rewrite HUs in *. set (P := 2 ^ 1043) in *. clearbody P. lia. }
  set (f := round_pos (W * U * R) U).
  assert (Hf0 : 0 <= f) by (apply round_pos_nonneg; nia).
  (* the error of the product *)
  assert (HA : - (W * R) <= 2 ^ 53 * (f - W * R) <= W * R).
  { pose proof (round_pos_error (W * U * R) U HU ltac:(nia)) as He. fold f in He.
    assert (Heq : 2 ^ 53 * (f * U - W * U * R) = U * (2 ^ 53 * (f - W * R))) by ring.
    rewrite Heq in He. clear Heq.
    replace (W * U * R) with (U * (W * R)) in He by ring.
    split.
    - apply (Z.mul_le_mono_pos_l _ _ U HU). lia.
    - apply (Z.mul_le_mono_pos_l _ _ U HU). lia. }
  (* both together, as multiples of sd *)
  set (Q := W * sn * U).
  assert (HQ : 0 <= Q <= 2 ^ 31 * (sd * U)).
  { unfold Q. split; [nia|].
    assert (W * sn * U <= M * sd * U) by (apply Z.mul_le_mono_nonneg_r; lia).
    assert (M * (sd * U) <= 2 ^ 31 * (sd * U)) by (apply Z.mul_le_mono_nonneg_r; nia).
    lia. }
  assert (HWB : - Q <= 2 ^ 53 * (W * (R * sd - sn * U)) <= Q).
  { unfold Q. replace (W * sn * U) with (W * (sn * U)) by ring.
    replace (2 ^ 53 * (W * (R * sd - sn * U)))
      with (W * (2 ^ 53 * (R * sd - sn * U))) by ring.
    split.
    - rewrite <- Z.mul_opp_r. apply Z.mul_le_mono_nonneg_l; lia.
    - apply Z.mul_le_mono_nonneg_l; lia. }
  assert (HWR : W * R * sd = Q + W * (R * sd - sn * U)) by (unfold Q; ring).
  assert (HAS : - (W * R * sd) <= 2 ^ 53 * ((f - W * R) * sd) <= W * R * sd).
  { replace (2 ^ 53 * ((f - W * R) * sd)) with (sd * (2 ^ 53 * (f - W * R))) by ring.
    replace (W * R * sd) with (sd * (W * R)) by ring.
    split.
    - rewrite <- Z.mul_opp_r. apply Z.mul_le_mono_nonneg_l; lia.
    - apply Z.mul_le_mono_nonneg_l; lia. }
  assert (HT : f * sd - Q = (f - W * R) * sd + W * (R * sd - sn * U))
    by (unfold Q; ring).
  assert (Hmain : - (sd * U) <= 2 ^ 20 * (f * sd - Q) <= sd * U).
  { rewrite HT.
    set (X := (f - W * R) * sd) in *. set (Y := W * (R * sd - sn * U)) in *.
    set (V := W * R * sd) in *. set (S := sd * U) in *.
    clearbody X Y V S Q. lia. }
  (* the product is finite *)
  assert (Hfin : f < 2 ^ 32 * U).
  { assert (f * sd <= Q + sd * U) by lia.
    assert (f * sd < 2 ^ 32 * U * sd) by nia.
    nia. }
  exists f. split.
  { unfold int_mul. rewrite of_int_small by lia. unfold round.
    fold U. destruct (Z.ltb_spec (W * U * R) 0); [nia|]. fold f.
    apply finite_ok. lia. }
  assert (Hti : to_int f = f / U).
  { unfold to_int. fold U. apply Z.quot_div_nonneg; lia. }
  rewrite Hti.
  set (E := W * sn / sd).
  pose proof (Z.mul_div_le (W * sn) sd ltac:(lia)) as HE1.
  pose proof (Z.mul_succ_div_gt (W * sn) sd ltac:(lia)) as HE2.
  fold E in HE1, HE2.
  assert (HEM : E <= M).
  { apply Z.div_le_upper_bound; lia. }
  assert (Hlo : (E - 1) * U <= f).
  { assert ((E - 1) * U * sd <= f * sd); [|nia].
    assert (E * sd * U <= Q) by (unfold Q; nia).
    nia. }
  assert (Hhi : f < (E + 2) * U).
  { assert (f * sd < (E + 2) * U * sd); [|nia].
    assert (Q < (E + 1) * sd * U) by (unfold Q; nia).
    nia. }
  assert (HhiM : f < (M + 1) * U).
  { assert (f * sd < (M + 1) * U * sd); [|nia].
    assert (Q <= M * sd * U) by (unfold Q; nia).
    assert (2 ^ 20 * (f * sd) <= 2 ^ 20 * Q + sd * U) by lia.
    assert (0 < sd * U) by nia.
    nia. }
  assert (0 <= f / U) by (apply Z.div_pos; lia).
  assert (f / U <= M) by (apply Z.lt_succ_r, Z.div_lt_upper_bound; lia).
  assert (E - 1 <= f / U) by (apply Z.div_le_lower_bound; lia).
  assert (f / U <= E + 1) by (apply Z.lt_succ_r, Z.div_lt_upper_bound; lia).
  lia.
Qed.

(** *** The size computed by resize_image *)

Lemma py_min_rounded (w h mw mh : Z) :
  0 < w -> 0 < h -> 0 < mw -> 0 < mh ->
  py_min (round_pos (mw * one) w) (round_pos (mh * one) h) =
  round_pos (fst (exact_scale (w, h) (mw, mh)) * one) (snd (exact_scale (w, h) (mw, mh))).
Proof.
  intros Hw Hh Hmw Hmh. pose proof one_pos as HU.
  unfold exact_scale, py_min, ltb. simpl.
  destruct (Z.leb_spec (mw * h) (mh * w)) as [Hle|Hgt]; simpl.
  - assert (round_pos (mw * one) w <= round_pos (mh * one) h).
    { apply round_pos_mono; [nia | lia | lia |].
      replace (mw * one * h) with (one * (mw * h)) by ring.
      replace (mh * one * w) with (one * (mh * w)) by ring.
      apply Z.mul_le_mono_nonneg_l; lia. }
    destruct (Z.ltb_spec (round_pos (mh * one) h) (round_pos (mw * one) w));
      [lia | reflexivity].
  - assert (round_pos (mh * one) h <= round_pos (mw * one) w).
    { apply round_pos_mono; [nia | lia | lia |].
      replace (mw * one * h) with (one * (mw * h)) by ring.
      replace (mh * one * w) with (one * (mh * w)) by ring.
      apply Z.mul_le_mono_nonneg_l; lia. }
    destruct (Z.ltb_spec (round_pos (mh * one) h) (round_pos (mw * one) w));
      [reflexivity | lia].
Qed.

Lemma new_dimensions_spec (w h mw mh : Z) :
  0 < w < 2 ^ 31 -> 0 < h < 2 ^ 31 -> 0 < mw < 2 ^ 31 -> 0 < mh < 2 ^ 31 ->
  (w <= mw /\ h <= mh ->
   image_processing.new_dimensions (w, h) (mw, mh) = Ok None) /\
  (~ (w <= mw /\ h <= mh) ->
   exists nw nh,
     image_processing.new_dimensions (w, h) (mw, mh) = Ok (Some (nw, nh)) /\
     0 <= nw <= mw /\ 0 <= nh <= mh /\
     let s := exact_scale (w, h) (mw, mh) in
     w * fst s / snd s - 1 <= nw <= w * fst s / snd s + 1 /\
     h * fst s / snd s - 1 <= nh <= h * fst s / snd s + 1).
Proof.
  intros Hw Hh Hmw Hmh.
  unfold image_processing.new_dimensions, image_processing.rbind. cbn [fst snd].
  destruct (int_truediv_small mw w Hmw ltac:(lia)) as (-> & Hrw).
  destruct (int_truediv_small mh h Hmh ltac:(lia)) as (-> & Hrh).
  rewrite py_min_rounded by lia.
  pose proof (quotient_below_one mw w ltac:(lia) Hw) as Hqw.
  pose proof (quotient_below_one mh h ltac:(lia) Hh) as Hqh.
  set (s := exact_scale (w, h) (mw, mh)).
  assert (Hs : (s = (mw, w) /\ mw * h <= mh * w) \/ (s = (mh, h) /\ mh * w < mw * h)).
  { unfold s, exact_scale. simpl.
    destruct (Z.leb_spec (mw * h) (mh * w)); [left | right]; split; auto. }
  assert (Hsb : 0 < fst s < 2 ^ 31 /\ 0 < snd s < 2 ^ 31 /\
                w * fst s <= mw * snd s /\ h * fst s <= mh * snd s /\
                (round_pos (fst s * one) (snd s) < one <-> ~ (w <= mw /\ h <= mh))).
  { destruct Hs as [(-> & Hc) | (-> & Hc)]; simpl;
      (split; [lia|]); (split; [lia|]); (split; [nia|]); (split; [nia|]).
    - rewrite Hqw. split; [lia|]. intros Hn.
      destruct (Z.lt_ge_cases mw w); [assumption|].
      assert (mh < h) by lia. nia.
    - rewrite Hqh. split; [lia|]. intros Hn.
      destruct (Z.lt_ge_cases mh h); [assumption|].
      assert (mw < w) by lia. nia. }
  destruct Hsb as (Hsn & Hsd & Hcw & Hch & Hlt).
  unfold ltb.
  destruct (Z.ltb_spec (round_pos (fst s * one) (snd s)) one) as [Hb|Hb].
  - split; [intros Hfit; exfalso; apply Hlt in Hb; tauto|].
    intros _.
    destruct (scaled_dimension w mw (fst s) (snd s) Hw Hmw Hsn Hsd Hcw)
      as (fw & -> & Hbw & Hpw).
    destruct (scaled_dimension h mh (fst s) (snd s) Hh Hmh Hsn Hsd Hch)
      as (fh & -> & Hbh & Hph).
    exists (to_int fw), (to_int fh). repeat split; try lia.
  - split; [intros _; reflexivity|].
    intros Hn. apply Hlt in Hn. lia.
Qed.

End Rounding.


(** ** Further properties of the services *)

(** *** Reads *)

(** X1. The read operations of both services leave the image documents,
    the download events and both buckets as they are, whatever they
    return. *)
Theorem reads_change_nothing (w : World) :
  (forall image_id, same_stores w (ImageService.get_image image_id w).2) /\
  (forall skip limit tags featured,
     same_stores w (ImageService.get_images skip limit tags featured w).2) /\
  (forall tags featured, same_stores w (ImageService.count_images tags featured w).2) /\
  (forall image_id, same_stores w (DownloadService.get_image_downloads image_id w).2) /\
  same_stores w (DownloadService.get_total_downloads w).2.
Proof.
  split; [intros image_id; apply get_image_frame|].
  split.
  { intros skip limit tags featured.
    unfold ImageService.get_images, bind, find_to_list, external, utcnow, lift, raise,
      same_stores.
    destruct ((skip <? 0) || (limit <? 0)); simpl; [tauto|].
    destruct (fails (env w) (length (trace w))); simpl; tauto. }
  split.
  { intros tags featured.
    unfold ImageService.count_images, count_documents, external, same_stores.
    destruct (fails (env w) (length (trace w))); simpl; tauto. }
  split.
  { intros image_id. rewrite get_image_downloads_eq. unfold same_stores.
    destruct (ObjectId_of image_id); simpl; [|tauto].
    destruct (fails (env w) (length (trace w))); simpl; [tauto|].
    destruct (List.find _ (db_images w)); simpl; tauto. }
  rewrite get_total_downloads_eq. unfold same_stores. simpl.
  destruct (fails (env w) (length (trace w))); simpl; [tauto|].
  destruct (db_images w) eqn:E; simpl; tauto.
Qed.

(** X2. get_images refuses a negative skip or limit with ValueError before
    any call to the store is made, and with limit 0 it returns the empty
    page when the store answers. *)
Theorem get_images_bounds (skip limit : Z) (tags : option (list string))
    (featured : option bool) (w : World) :
  (skip < 0 \/ limit < 0 ->
   ImageService.get_images skip limit tags featured w = (Raise ValueError, w)) /\
  (0 <= skip -> limit = 0 -> next_ok w ->
   ImageService.get_images skip limit tags featured w = (Ok [], log DbFind w)).
Proof.
  unfold ImageService.get_images, bind, find_to_list, external, utcnow, lift, raise.
  split.
  - intros Hneg.
    assert (Hb : (skip <? 0) || (limit <? 0) = true).
    { apply orb_true_iff. destruct Hneg; [left | right]; apply Z.ltb_lt; assumption. }
    rewrite Hb. reflexivity.
  - intros Hs -> Hok. unfold next_ok in Hok.
    destruct (Z.ltb_spec skip 0); [lia|]. simpl. rewrite Hok. reflexivity.
Qed.

(** X3. An empty list of tags is no tag filter: get_images and
    count_images answer as they do when no tags are given. *)
Theorem empty_tags_no_filter (skip limit : Z) (featured : option bool) (w : World) :
  ImageService.get_images skip limit (Some []) featured w
    = ImageService.get_images skip limit None featured w /\
  ImageService.count_images (Some []) featured w
    = ImageService.count_images None featured w /\
  (forall d, matches (ImageService.build_query (Some []) None) d = true).
Proof. repeat split. Qed.

(** *** Recording a download *)

(** X4. DownloadService.record_download does not look the image up: for a
    well-formed id that no document has, with both store calls answering,
    it succeeds, appends an event that names the id, and changes no image
    document. (Only the endpoint, through get_image, refuses an unknown
    id.) *)
Theorem record_download_unchecked (image_id : string) (o : ObjectId)
    (info : document) (ip ua : string) (re cc : option string) (w : World) :
  ObjectId_of image_id = Ok o ->
  List.find (has_id o) (db_images w) = None ->
  fails (env w) (length (trace w)) = false ->
  fails (env w) (S (length (trace w))) = false ->
  existsb (has_id (object_id_at (env w) (S (length (trace w))))) (db_downloads w)
    = false ->
  dict_get info "ip_address" (VStr "unknown") = VStr ip ->
  dict_get info "user_agent" (VStr "unknown") = VStr ua ->
  as_opt_str (Some (dict_get info "referer" VNull)) = Some re ->
  as_opt_str (Some (dict_get info "country_code" VNull)) = Some cc ->
  exists ev w',
    DownloadService.record_download image_id info w
      = (Ok {| models_download.id := Some (object_id_at (env w) (S (length (trace w))));
               models_download.image_id := image_id;
               models_download.ip_address := ip;
               models_download.user_agent := ua;
               models_download.referer := re;
               models_download.country_code := cc;
               models_download.timestamp := utcnow_at (env w) (S (length (trace w))) |},
         w') /\
    db_images w' = db_images w /\
    db_downloads w' = db_downloads w ++ [ev] /\
    ev !! "image_id" = Some (VStr image_id).
Proof.
  intros Ho Hfind Hf0 Hf1 Hfresh Hip Hua Hre Hcc.
  unfold DownloadService.record_download, try_except, bind, lift, update_one_inc,
    insert_one_download, external, utcnow, raise, ret.
  rewrite Ho. cbn [fst snd env log trace db_images db_downloads length].
  rewrite Hf0. cbn [fst snd env log trace db_images db_downloads length].
  rewrite Hfind. cbn [fst snd env log trace db_images db_downloads length].
  rewrite Hf1, Hfresh. cbn [fst snd env log trace set_downloads db_images db_downloads length].
  rewrite Hip, Hua.
  unfold models_download.validate.
  rewrite lookup_insert_eq. cbn [mbind option_bind validate_object_id].
  repeat (rewrite lookup_insert_ne by discriminate).
  rewrite lookup_insert_eq. cbn [mbind option_bind as_str].
  repeat (rewrite lookup_insert_ne by discriminate).
  rewrite lookup_insert_eq. cbn [mbind option_bind as_str].
  repeat (rewrite lookup_insert_ne by discriminate).
  rewrite lookup_insert_eq. cbn [mbind option_bind as_str].
  repeat (rewrite lookup_insert_ne by discriminate).
  rewrite lookup_insert_eq. rewrite Hre. cbn [mbind option_bind].
  repeat (rewrite lookup_insert_ne by discriminate).
  rewrite lookup_insert_eq. rewrite Hcc. cbn [mbind option_bind].
  repeat (rewrite lookup_insert_ne by discriminate).
  rewrite lookup_insert_eq. cbn [mbind option_bind to_result].
  eexists _, _. split; [reflexivity|]. cbn [db_images db_downloads].
  split; [reflexivity|]. split; [reflexivity|].
  rewrite lookup_insert_ne by discriminate. apply lookup_insert_eq.
Qed.

(** X5. The increment and the event are two separate writes. When the
    increment succeeds and the insert of the event fails,
    record_download raises the store's error, no event is stored, and the
    counter of the image keeps its increment: the counter is then one
    ahead of the events. *)
Theorem record_download_counter_without_event (image_id : string) (o : ObjectId)
    (info d : document) (c : Z) (w : World) :
  ObjectId_of image_id = Ok o ->
  List.find (has_id o) (db_images w) = Some d ->
  d !! "downloads" = Some (VInt c) ->
  c + 1 <= int64_max ->
  fails (env w) (length (trace w)) = false ->
  fails (env w) (S (length (trace w))) = true ->
  let r := (DownloadService.record_download image_id info w).1 in
  let w' := (DownloadService.record_download image_id info w).2 in
  r = Raise PyMongoError /\
  db_downloads w' = db_downloads w /\
  List.find (has_id o) (db_images w') = Some (<["downloads" := VInt (c + 1)]> d) /\
  trace w' = DbInsertDownload :: DbUpdateOne o :: trace w.
Proof.
  intros Ho Hfind Hc Hmax Hf0 Hf1.
  unfold DownloadService.record_download, try_except, bind, lift, update_one_inc,
    insert_one_download, external, utcnow, raise, ret.
  rewrite Ho. cbn [fst snd env log trace db_images db_downloads length].
  rewrite Hf0. cbn [fst snd env log trace db_images db_downloads length].
  rewrite Hfind. unfold inc_field. rewrite Hc.
  destruct (Z.leb_spec (c + 1) int64_max) as [_|Hlt]; [|lia].
  cbn [fst snd env log trace set_images db_images db_downloads length].
  rewrite Hf1. cbn [fst snd env log trace set_images db_images db_downloads length].
  repeat split.
  apply (find_update_first _ _ d); [exact Hfind|].
  pose proof (find_holds _ _ _ Hfind) as Hp. unfold has_id in *.
  apply bool_decide_eq_true in Hp. apply bool_decide_eq_true.
  rewrite lookup_insert_ne; [exact Hp | discriminate].
Qed.

(** *** The object store *)

(** X6. StorageService.delete_image can be repeated: when no call fails
    it returns True, removes the original and its thumbnail and nothing
    else, and a second deletion of the same name returns True again and
    leaves both buckets as the first one left them. *)
Theorem storage_delete_image_idempotent (filename : string) (w : World) :
  (forall k, fails (env w) k = false) ->
  let w1 := (StorageService.delete_image filename w).2 in
  let w2 := (StorageService.delete_image filename w1).2 in
  (StorageService.delete_image filename w).1 = Ok true /\
  (StorageService.delete_image filename w1).1 = Ok true /\
  original_bucket w1 !! filename = None /\
  thumbnail_bucket w1 !! ("thumb_" +:+ filename) = None /\
  (forall k, k <> filename -> original_bucket w1 !! k = original_bucket w !! k) /\
  (forall k, k <> "thumb_" +:+ filename ->
     thumbnail_bucket w1 !! k = thumbnail_bucket w !! k) /\
  original_bucket w2 = original_bucket w1 /\
  thumbnail_bucket w2 = thumbnail_bucket w1.
Proof.
  intros Hok w1 w2.
  pose proof (storage_delete_image_spec filename w) as (_ & _ & _ & He1 & Hr1 & Hs1).
  fold w1 in He1, Hr1. rewrite (Hs1 Hok) in Hr1. destruct Hr1 as (_ & Ho1 & Ht1).
  pose proof (storage_delete_image_spec filename w1) as (_ & _ & _ & _ & Hr2 & Hs2).
  fold w2 in Hr2.
  assert (Hok1 : forall k, fails (env w1) k = false) by (rewrite He1; exact Hok).
  rewrite (Hs2 Hok1) in Hr2. destruct Hr2 as (_ & Ho2 & Ht2).
  split; [exact (Hs1 Hok)|]. split; [exact (Hs2 Hok1)|].
  rewrite Ho2, Ht2, Ho1, Ht1.
  split; [apply lookup_delete_eq|]. split; [apply lookup_delete_eq|].
  split; [intros k Hk; apply lookup_delete_ne; congruence|].
  split; [intros k Hk; apply lookup_delete_ne; congruence|].
  split; apply delete_absent, lookup_delete_eq.
Qed.

(** X7. upload_image stores the bytes of the file, with its content type,
    under the name the caller gives, or under a fresh uuid followed by the
    extension of the client's file name when the caller gives none or an
    empty one. The data it returns names that blob, and reading the blob
    back gives the bytes of the file. Other blobs, the thumbnails and the
    documents are untouched. When the store fails the error is a
    StorageException and nothing is stored. *)
Theorem upload_image_round_trip (file : UploadFile) (filename : option string)
    (w : World) :
  let fn :=
    match filename with
    | Some (String c s) => String c s
    | _ => uuid4_at (env w) (length (trace w)) +:+ splitext_ext (uf_filename file)
    end in
  let r := (StorageService.upload_image file filename w).1 in
  let w' := (StorageService.upload_image file filename w).2 in
  trace w' = BlobUpload Originals fn :: trace w /\
  db_images w' = db_images w /\ db_downloads w' = db_downloads w /\
  thumbnail_bucket w' = thumbnail_bucket w /\
  (fails (env w) (length (trace w)) = true ->
   r = Raise (StorageException "GoogleCloudError") /\
   original_bucket w' = original_bucket w) /\
  (fails (env w) (length (trace w)) = false ->
   r = Ok {| StorageService.sd_filename := fn;
             StorageService.sd_hd_url :=
               "https://storage.googleapis.com/" +:+ GCS_ORIGINAL_BUCKET +:+ "/" +:+ fn;
             StorageService.sd_content_type := uf_content_type file;
             StorageService.sd_file_size := Z.of_nat (length (uf_content file)) |} /\
   original_bucket w' = <[fn := (uf_content file, uf_content_type file)]> (original_bucket w) /\
   (fails (env w) (S (length (trace w))) = false ->
    (blob_download Originals fn w').1 = Ok (uf_content file))).
Proof.
  unfold StorageService.upload_image, try_except, bind, uuid4, blob_upload,
    blob_download, external, ret, raise.
  destruct filename as [[|c s]|];
    cbn [fst snd env log trace db_images db_downloads length];
    destruct (fails (env w) (length (trace w))) eqn:F0;
    cbn [fst snd env log trace set_bucket db_images db_downloads original_bucket
         thumbnail_bucket length get_bucket];
    repeat (split; [reflexivity|]).
  all: split; [first [discriminate | intros _; split; reflexivity]|].
  all: first [discriminate | intros _; split; [reflexivity|]; split; [reflexivity|]].
  all: intros ->; rewrite lookup_insert_eq; reflexivity.
Qed.

(** X8. The thumbnail of the storage service is always bounded by
    200 x 200, whatever the caller wants. The bytes are the caller's, or
    the stored original when the caller passes none. When they decode, the
    image is encoded in its own format (JPEG when it has none) and stored
    under "thumb_" followed by the name of the original, with content type
    "image/" followed by the lower-case format; the URL returned names
    that blob. When there are no bytes and no stored original the
    operation raises StorageException and stores nothing. *)
Theorem generate_thumbnail_stores (filename : string) (content : bytes) (w : World) :
  let calls :=
    match content with [] => 1%nat | _ :: _ => 0%nat end in
  let source :=
    match content with
    | [] => fst <$> original_bucket w !! filename
    | _ :: _ => Some content
    end in
  let r := (StorageService.generate_thumbnail filename content w).1 in
  let w' := (StorageService.generate_thumbnail filename content w).2 in
  (forall k, (k <= calls)%nat -> fails (env w) (k + length (trace w)) = false) ->
  (source = None ->
   r = Raise (StorageException "GoogleCloudError") /\
   thumbnail_bucket w' = thumbnail_bucket w) /\
  (forall bs image thumb,
     source = Some bs ->
     PIL_open bs = Some image ->
     let small := PIL_thumbnail image (200, 200) in
     let image_format :=
       match pil_format small with
       | Some (String c s) => String c s
       | _ => "JPEG"
       end in
     PIL_save small image_format = Some thumb ->
     r = Ok ("https://storage.googleapis.com/" +:+ GCS_THUMBNAIL_BUCKET +:+ "/thumb_"
             +:+ filename) /\
     thumbnail_bucket w'
       = <["thumb_" +:+ filename :=
             (thumb, Some ("image/" +:+ string_map lower image_format))]>
           (thumbnail_bucket w)).
Proof.
  intros calls source r w' Hok.
  subst r w'.
  unfold StorageService.generate_thumbnail, try_except, bind, blob_upload,
    blob_download, external, ret, raise.
  destruct content as [|b0 content]; subst calls source.
  - pose proof (Hok 0%nat ltac:(lia)) as Hk0. pose proof (Hok 1%nat ltac:(lia)) as Hk1.
    cbn [Nat.add] in Hk0, Hk1.
    cbn [fst snd env log trace get_bucket original_bucket thumbnail_bucket length]. rewrite Hk0.
    destruct (original_bucket w !! filename) as [[bs ct]|] eqn:L;
      cbn [fst snd env log trace get_bucket original_bucket thumbnail_bucket length fmap option_fmap option_map].
    + split; [discriminate|]. intros bs' image thumb [= <-] Hopen.
      rewrite Hopen. cbn [fst snd env log trace get_bucket original_bucket thumbnail_bucket length].
      intros Hsave. rewrite Hsave.
      cbn [fst snd env log trace get_bucket original_bucket thumbnail_bucket length]. rewrite Hk1.
      cbn [fst snd set_bucket thumbnail_bucket log].
      split; reflexivity.
    + split; [intros _; split; reflexivity|]. discriminate.
  - pose proof (Hok 0%nat ltac:(lia)) as Hk0. cbn [Nat.add] in Hk0.
    split; [discriminate|]. intros bs image thumb [= <-] Hopen.
    cbn [fst snd env log trace get_bucket original_bucket thumbnail_bucket length].
    rewrite Hopen. cbn [fst snd env log trace get_bucket original_bucket thumbnail_bucket length].
    intros Hsave. rewrite Hsave.
    cbn [fst snd env log trace get_bucket original_bucket thumbnail_bucket length]. rewrite Hk0.
    cbn [fst snd set_bucket thumbnail_bucket log].
    split; reflexivity.
Qed.

(** *** Resizing *)

(** X10. resize_image never enlarges. When the image does not fit the
    bound, neither new side is longer than the old one, at least one is
    shorter, and the side that limits the scale comes out as its bound or
    one pixel less (the quotient is rounded before it is multiplied). *)
Theorem resize_never_enlarges (w h mw mh : Z) :
  0 < w < 2 ^ 31 -> 0 < h < 2 ^ 31 -> 0 < mw < 2 ^ 31 -> 0 < mh < 2 ^ 31 ->
  ~ (w <= mw /\ h <= mh) ->
  exists nw nh,
    image_processing.new_dimensions (w, h) (mw, mh) = Ok (Some (nw, nh)) /\
    0 <= nw <= w /\ 0 <= nh <= h /\ (nw < w \/ nh < h) /\
    (if mw * h <=? mh * w then mw - 1 <= nw <= mw else mh - 1 <= nh <= mh).
Proof.
  intros Hw Hh Hmw Hmh Hn.
  destruct (new_dimensions_spec w h mw mh Hw Hh Hmw Hmh) as (_ & Hscale).
  destruct (Hscale Hn) as (nw & nh & Hd & Hbw & Hbh & Hpw & Hph).
  exists nw, nh. split; [exact Hd|].
  unfold exact_scale in Hpw, Hph. cbn [fst snd] in Hpw, Hph.
  destruct (Z.leb_spec (mw * h) (mh * w)) as [Hle|Hgt]; cbn [fst snd] in Hpw, Hph.
  - assert (Hlt : mw < w).
    { destruct (Z.lt_ge_cases mw w); [assumption|]. assert (mh < h) by lia. nia. }
    assert (Hq : w * mw / w = mw) by (rewrite Z.mul_comm; apply Z.div_mul; lia).
    assert (Hqh : h * mw / w < h) by (apply Z.div_lt_upper_bound; nia).
    rewrite Hq in Hpw. lia.
  - assert (Hlt : mh < h).
    { destruct (Z.lt_ge_cases mh h); [assumption|]. assert (mw < w) by lia. nia. }
    assert (Hq : h * mh / h = mh) by (rewrite Z.mul_comm; apply Z.div_mul; lia).
    assert (Hqw : w * mh / h < w) by (apply Z.div_lt_upper_bound; nia).
    rewrite Hq in Hph. lia.
Qed.

(** *** Ids that are not ObjectIds *)

Lemma ObjectId_of_invalid (image_id : string) :
  is_valid_object_id image_id = false -> ObjectId_of image_id = Raise InvalidId.
Proof. unfold ObjectId_of. intros ->. reflexivity. Qed.

Lemma bson_rejects_invalid (image_id : string) :
  bson_rejects image_id = true -> is_valid_object_id image_id = false.
Proof.
  unfold bson_rejects, is_valid_object_id. intros Hr.
  destruct (Nat.eqb (String.length image_id) 24); [|reflexivity].
  cbn [negb orb andb] in *.
  destruct (string_forallb is_hex image_id) eqn:Hhex; [|reflexivity].
  exfalso. apply negb_true_iff in Hr. revert Hr Hhex. clear.
  induction image_id as [|c s IH]; cbn [string_forallb]; [discriminate|].
  intros Hr Hhex. apply andb_true_iff in Hhex as (Hc & Hs).
  rewrite Hc in Hr. cbn [orb andb] in Hr. exact (IH Hr Hs).
Qed.

(** X11. An id that bson refuses for certain (it is not 24 characters
    long, or it holds a character that is neither a hex digit nor white
    space) never reaches the store. The operations that start with
    get_image (get, update and delete of the image service, and both
    download routes that take an id) answer it with the not-found
    exception, status 404. The two methods of the download service that
    parse the id themselves let bson's InvalidId through, which the API
    reports as status 500. (A text of 24 characters in which white space
    separates pairs of hex digits is taken by bson and is not covered
    here.) *)
Theorem malformed_id_handling (image_id : string) (w : World) :
  bson_rejects image_id = true ->
  ImageService.get_image image_id w = (Raise ImageNotFoundException, w) /\
  (forall image_data,
     ImageService.update_image image_id image_data w
       = (Raise ImageNotFoundException, w)) /\
  ImageService.delete_image image_id w = (Raise ImageNotFoundException, w) /\
  (forall request,
     downloads_endpoints.download_image image_id request w
       = (Raise ImageNotFoundException, w)) /\
  downloads_endpoints.get_image_downloads image_id w
    = (Raise ImageNotFoundException, w) /\
  (forall request_info,
     DownloadService.record_download image_id request_info w = (Raise InvalidId, w)) /\
  DownloadService.get_image_downloads image_id w = (Raise InvalidId, w) /\
  http_status ImageNotFoundException = 404 /\ http_status InvalidId = 500.
Proof.
  intros Hbad. apply bson_rejects_invalid, ObjectId_of_invalid in Hbad.
  assert (Hget : ImageService.get_image image_id w = (Raise ImageNotFoundException, w)).
  { rewrite get_image_eq, Hbad. reflexivity. }
  split; [exact Hget|].
  split; [intros image_data;
          unfold ImageService.update_image, try_except, bind; rewrite Hget; reflexivity|].
  split; [unfold ImageService.delete_image, try_except, bind; rewrite Hget; reflexivity|].
  split; [intros request;
          unfold downloads_endpoints.download_image, bind; rewrite Hget; reflexivity|].
  split; [unfold downloads_endpoints.get_image_downloads, bind; rewrite Hget; reflexivity|].
  split; [intros request_info;
          unfold DownloadService.record_download, try_except, bind, lift;
          rewrite Hbad; reflexivity|].
  split; [rewrite get_image_downloads_eq, Hbad; reflexivity|].
  split; reflexivity.
Qed.

(** *** Deleting an image *)

Lemma delete_image_path (image_id : string) (o : ObjectId) (img : models_image.Image)
    (w : World) :
  ObjectId_of image_id = Ok o ->
  (ImageService.get_image image_id w).1 = Ok img ->
  ImageService.delete_image image_id w =
  let w1 := log (DbFindOne o) w in
  match StorageService.delete_image (models_image.filename img) w1 with
  | (Raise e, w2) => (Raise e, w2)
  | (Ok _, w2) =>
      if fails (env w) (length (trace w2))
      then (Raise PyMongoError, log (DbDeleteOne o) w2)
      else (Ok true, set_images (remove_first (has_id o)) (log (DbDeleteOne o) w2))
  end.
Proof.
  intros Ho Hget.
  destruct (get_image_ok image_id w img Hget) as (o' & doc & Ho' & Hfind & _ & _ & Hw1).
  rewrite Ho in Ho'. injection Ho' as <-.
  unfold ImageService.delete_image, try_except, bind.
  destruct (ImageService.get_image image_id w) as [r w1] eqn:E1.
  cbn [fst snd] in Hget, Hw1. subst r w1. cbv zeta.
  pose proof (storage_delete_image_spec (models_image.filename img) (log (DbFindOne o) w))
    as (_ & Hi & _ & Henv & _).
  destruct (StorageService.delete_image (models_image.filename img) (log (DbFindOne o) w))
    as [[b|e] w2]; cbn [fst snd] in *; [|reflexivity].
  unfold lift. rewrite Ho. unfold delete_one, external, ret, raise.
  rewrite Henv. cbn [env log trace db_images].
  destruct (fails (env w) (length (trace w2))); [reflexivity|].
  rewrite Hi. cbn [db_images log]. rewrite (find_existsb _ _ _ Hfind). reflexivity.
Qed.

(** X12. The outcomes of ImageService.delete_image: it returns True or it
    raises the not-found exception, a StorageException or the error of the
    metadata store. It never returns False and lets no other exception
    through. *)
Theorem delete_image_outcomes (image_id : string) (w : World) :
  let r := (ImageService.delete_image image_id w).1 in
  r = Ok true \/ r = Raise ImageNotFoundException \/
  (exists detail, r = Raise (StorageException detail)) \/ r = Raise PyMongoError.
Proof.
  cbv zeta.
  destruct (ImageService.get_image image_id w) as [[img|e] w1] eqn:E1.
  - assert (Hget : (ImageService.get_image image_id w).1 = Ok img) by (rewrite E1; reflexivity).
    destruct (get_image_ok image_id w img Hget) as (o & _ & Ho & _).
    rewrite (delete_image_path image_id o img w Ho Hget). cbv zeta.
    pose proof (storage_delete_image_spec (models_image.filename img) (log (DbFindOne o) w))
      as (_ & _ & _ & _ & Hres & _).
    destruct (StorageService.delete_image (models_image.filename img) (log (DbFindOne o) w))
      as [[b|e] w2]; cbn [fst snd] in *.
    + destruct (fails (env w) (length (trace w2))); cbn [fst]; tauto.
    + destruct Hres as (detail & ->). right. right. left. exists detail. reflexivity.
  - assert (Hr : (ImageService.get_image image_id w).1 = Raise e) by (rewrite E1; reflexivity).
    apply get_image_raises in Hr. subst e.
    unfold ImageService.delete_image, try_except, bind. rewrite E1. cbn. tauto.
Qed.

(** X13. The two blobs are deleted one after the other and nothing is put
    back. When the original is removed and the object store then fails on
    the thumbnail, delete_image raises StorageException, the original is
    gone, and the document stays in the metadata store with the URL of the
    blob that no longer exists. *)
Theorem delete_image_partial (image_id : string) (o : ObjectId)
    (img : models_image.Image) (b : blob) (w : World) :
  ObjectId_of image_id = Ok o ->
  (ImageService.get_image image_id w).1 = Ok img ->
  original_bucket w !! models_image.filename img = Some b ->
  fails (env w) (1 + length (trace w)) = false ->
  fails (env w) (2 + length (trace w)) = false ->
  fails (env w) (3 + length (trace w)) = true ->
  let r := (ImageService.delete_image image_id w).1 in
  let w' := (ImageService.delete_image image_id w).2 in
  r = Raise (StorageException "GoogleCloudError") /\
  original_bucket w' = delete (models_image.filename img) (original_bucket w) /\
  thumbnail_bucket w' = thumbnail_bucket w /\
  db_images w' = db_images w /\
  stored_image image_id w' = stored_image image_id w /\
  is_Some (stored_image image_id w').
Proof.
  intros Ho Hget Hblob Hf1 Hf2 Hf3. cbv zeta.
  destruct (get_image_ok image_id w img Hget) as (o' & doc & Ho' & Hfind & _).
  rewrite Ho in Ho'. injection Ho' as <-.
  rewrite (delete_image_path image_id o img w Ho Hget). cbv zeta.
  unfold StorageService.delete_image, try_except, bind, blob_exists, blob_delete,
    external, ret, raise.
  cbn [fst snd env log trace length get_bucket original_bucket thumbnail_bucket Nat.add]
    in *.
  rewrite Hf1. cbn [fst snd env log trace length get_bucket original_bucket].
  rewrite Hblob.
  rewrite bool_decide_eq_true_2 by eauto.
  cbn [fst snd env log trace length get_bucket original_bucket].
  rewrite Hf2. rewrite Hblob.
  cbn [fst snd env log trace length get_bucket set_bucket original_bucket thumbnail_bucket].
  rewrite Hf3.
  cbn [fst snd env log trace length get_bucket set_bucket original_bucket thumbnail_bucket
       db_images].
  unfold stored_image. rewrite Ho. cbn [db_images]. rewrite Hfind.
  repeat split; eauto.
Qed.

(** *** The ids of the image collection *)

Lemma has_id_object_id (o : ObjectId) (d : document) :
  has_id o d = true <-> doc_object_id d = Some o.
Proof.
  unfold has_id, doc_object_id. rewrite bool_decide_eq_true.
  destruct (d !! "_id") as [[]|]; split; congruence.
Qed.

Lemma object_ids_cons (x : document) (l : list document) :
  object_ids (x :: l)
  = match doc_object_id x with
    | Some o => o :: object_ids l
    | None => object_ids l
    end.
Proof. reflexivity. Qed.

Lemma existsb_object_ids (o : ObjectId) (l : list document) :
  existsb (has_id o) l = false -> o ∉ object_ids l.
Proof.
  induction l as [|x l IH]; [intros _; apply not_elem_of_nil|].
  rewrite object_ids_cons. cbn [existsb].
  intros Hex. apply orb_false_iff in Hex as (Hx & Hl).
  destruct (doc_object_id x) as [o'|] eqn:Hid; [|apply IH, Hl].
  apply not_elem_of_cons. split; [|apply IH, Hl].
  intros ->. apply has_id_object_id in Hid. congruence.
Qed.

Lemma find_object_ids (o : ObjectId) (l : list document) :
  o ∉ object_ids l -> List.find (has_id o) l = None.
Proof.
  induction l as [|x l IH]; [reflexivity|].
  rewrite object_ids_cons. cbn [List.find].
  intros Hnot. destruct (has_id o x) eqn:Hx.
  - apply has_id_object_id in Hx. rewrite Hx in Hnot.
    exfalso. apply Hnot. left.
  - apply IH. destruct (doc_object_id x); [|exact Hnot].
    apply not_elem_of_cons in Hnot. tauto.
Qed.

Lemma object_ids_app (l1 l2 : list document) :
  object_ids (l1 ++ l2) = object_ids l1 ++ object_ids l2.
Proof. apply omap_app. Qed.

Lemma unique_ids_insert (o : ObjectId) (d : document) (l : list document) :
  unique_ids l -> existsb (has_id o) l = false ->
  unique_ids (l ++ [<["_id" := VObjectId o]> d]).
Proof.
  unfold unique_ids. intros Hl Hex. rewrite object_ids_app, object_ids_cons.
  unfold doc_object_id at 1. rewrite lookup_insert_eq.
  apply NoDup_app. split; [exact Hl|].
  split; [|apply NoDup_singleton].
  intros x Hx Hin. apply list_elem_of_singleton in Hin. subst x.
  exact (existsb_object_ids o l Hex Hx).
Qed.

Lemma object_ids_update_first (p : document -> bool) (l : list document)
    (d d' : document) :
  List.find p l = Some d -> doc_object_id d' = doc_object_id d ->
  object_ids (update_first p (fun _ => d') l) = object_ids l.
Proof.
  intros Hf Hid. induction l as [|x l IH]; [reflexivity|].
  cbn [List.find update_first] in *.
  destruct (p x).
  - injection Hf as ->. rewrite !object_ids_cons, Hid. reflexivity.
  - rewrite !object_ids_cons, (IH Hf). reflexivity.
Qed.

Lemma object_ids_remove_first (p : document -> bool) (l : list document) :
  object_ids (remove_first p l) `sublist_of` object_ids l.
Proof.
  induction l as [|x l IH]; [reflexivity|].
  cbn [remove_first]. destruct (p x); rewrite !object_ids_cons.
  - destruct (doc_object_id x); [apply sublist_cons|]; reflexivity.
  - destruct (doc_object_id x); [apply sublist_skip|]; exact IH.
Qed.

Lemma find_remove_first (o : ObjectId) (l : list document) :
  unique_ids l -> List.find (has_id o) (remove_first (has_id o) l) = None.
Proof.
  unfold unique_ids. induction l as [|x l IH]; [reflexivity|].
  rewrite object_ids_cons. cbn [remove_first].
  intros Hnd. destruct (has_id o x) eqn:Hx.
  - apply has_id_object_id in Hx. rewrite Hx in Hnd.
    apply NoDup_cons in Hnd as (Hnot & _). apply find_object_ids, Hnot.
  - cbn [List.find]. rewrite Hx. apply IH.
    destruct (doc_object_id x); [apply NoDup_cons in Hnd; tauto | exact Hnd].
Qed.

Lemma inc_field_object_id (k : string) (n : Z) (d d' : document) :
  k <> "_id" -> inc_field k n d = Ok d' -> doc_object_id d' = doc_object_id d.
Proof.
  unfold inc_field, doc_object_id. intros Hk.
  destruct (d !! k) as [[]|]; try discriminate.
  - destruct (_ <=? _); [|discriminate]. intros [= <-].
    rewrite lookup_insert_ne by exact Hk. reflexivity.
  - intros [= <-]. rewrite lookup_insert_ne by exact Hk. reflexivity.
Qed.

Lemma set_fields_object_id (upd d d' : document) :
  set_fields upd d = Ok d' -> d' !! "_id" = d !! "_id".
Proof.
  unfold set_fields. destruct (upd !! "_id") as [v|] eqn:Hu.
  - case_bool_decide as Hd; [|discriminate]. intros [= <-].
    rewrite lookup_union_l' by eauto. congruence.
  - intros [= <-]. rewrite lookup_union_r by exact Hu. reflexivity.
Qed.

Lemma keeps_ret {A} (a : A) : keeps_ids (ret a).
Proof. intros w Hw. exact Hw. Qed.

Lemma keeps_raise {A} (e : exn) : keeps_ids (@raise A e).
Proof. intros w Hw. exact Hw. Qed.

Lemma keeps_lift {A} (r : result A) : keeps_ids (lift r).
Proof. intros w Hw. exact Hw. Qed.

Lemma keeps_utcnow : keeps_ids utcnow.
Proof. intros w Hw. exact Hw. Qed.

Lemma keeps_uuid4 : keeps_ids uuid4.
Proof. intros w Hw. exact Hw. Qed.

Lemma keeps_bind {A B} (m : M A) (k : A -> M B) :
  keeps_ids m -> (forall a, keeps_ids (k a)) -> keeps_ids (bind m k).
Proof.
  intros Hm Hk w Hw. unfold bind. specialize (Hm w Hw).
  destruct (m w) as [[a|e] w1]; simpl in *; [apply Hk, Hm | exact Hm].
Qed.

Lemma keeps_try {A} (m : M A) (h : exn -> M A) :
  keeps_ids m -> (forall e, keeps_ids (h e)) -> keeps_ids (try_except m h).
Proof.
  intros Hm Hh w Hw. unfold try_except. specialize (Hm w Hw).
  destruct (m w) as [[a|e] w1]; simpl in *; [exact Hm | apply Hh, Hm].
Qed.

Lemma keeps_external {A} (c : call) (err : exn) (act : World -> result A * World) :
  keeps_ids act -> keeps_ids (external c err act).
Proof.
  intros Hact w Hw. unfold external.
  destruct (fails (env w) (length (trace w))); simpl; [exact Hw|].
  apply Hact. exact Hw.
Qed.

Lemma keeps_blob_upload (b : bucket) (key : string) (content : bytes)
    (ctype : option string) : keeps_ids (blob_upload b key content ctype).
Proof. apply keeps_external. intros w Hw. destruct b; exact Hw. Qed.

Lemma keeps_blob_download (b : bucket) (key : string) : keeps_ids (blob_download b key).
Proof.
  apply keeps_external. intros w Hw.
  destruct (get_bucket b w !! key) as [[? ?]|]; exact Hw.
Qed.

Lemma keeps_blob_exists (b : bucket) (key : string) : keeps_ids (blob_exists b key).
Proof. apply keeps_external. intros w Hw. exact Hw. Qed.

Lemma keeps_blob_delete (b : bucket) (key : string) : keeps_ids (blob_delete b key).
Proof.
  apply keeps_external. intros w Hw.
  destruct (get_bucket b w !! key); [destruct b|]; exact Hw.
Qed.

Lemma keeps_find_one (o : ObjectId) : keeps_ids (find_one o).
Proof. apply keeps_external. intros w Hw. exact Hw. Qed.

Lemma keeps_update_one_inc (o : ObjectId) (k : string) (n : Z) :
  k <> "_id" -> keeps_ids (update_one_inc o k n).
Proof.
  intros Hk. apply keeps_external. intros w Hw.
  destruct (List.find (has_id o) (db_images w)) as [d|] eqn:Hf; [|exact Hw].
  destruct (inc_field k n d) as [d'|e] eqn:Hinc; [|exact Hw].
  simpl. unfold unique_ids.
  rewrite (object_ids_update_first _ _ d d' Hf (inc_field_object_id k n d d' Hk Hinc)).
  exact Hw.
Qed.

Lemma keeps_update_one_set (o : ObjectId) (upd : document) :
  keeps_ids (update_one_set o upd).
Proof.
  apply keeps_external. intros w Hw.
  destruct (List.find (has_id o) (db_images w)) as [d|] eqn:Hf; [|exact Hw].
  destruct (set_fields upd d) as [d'|e] eqn:Hset; [|exact Hw].
  simpl. unfold unique_ids.
  rewrite (object_ids_update_first _ _ d d' Hf); [exact Hw|].
  unfold doc_object_id. rewrite (set_fields_object_id upd d d' Hset). reflexivity.
Qed.

Lemma keeps_insert_one_image (d : document) : keeps_ids (insert_one_image d).
Proof.
  intros w Hw. unfold insert_one_image, external.
  destruct (fails (env w) (length (trace w))); simpl; [exact Hw|].
  destruct (existsb _ (db_images w)) eqn:Hex; simpl; [exact Hw|].
  apply unique_ids_insert; assumption.
Qed.

Lemma keeps_insert_one_download (d : document) : keeps_ids (insert_one_download d).
Proof.
  intros w Hw. unfold insert_one_download, external.
  destruct (fails (env w) (length (trace w))); simpl; [exact Hw|].
  destruct (existsb _ (db_downloads w)); simpl; exact Hw.
Qed.

Lemma keeps_delete_one (o : ObjectId) : keeps_ids (delete_one o).
Proof.
  apply keeps_external. intros w Hw.
  destruct (existsb (has_id o) (db_images w)); simpl; [|exact Hw].
  unfold unique_ids. eapply sublist_NoDup; [exact Hw | apply object_ids_remove_first].
Qed.

Create HintDb keeps.

#[local] Hint Resolve keeps_ret keeps_raise keeps_lift keeps_utcnow keeps_uuid4
  keeps_blob_upload keeps_blob_download keeps_blob_exists keeps_blob_delete
  keeps_find_one keeps_update_one_set keeps_insert_one_image
  keeps_insert_one_download keeps_delete_one : keeps.

Ltac keeps_step :=
  first
    [ apply keeps_bind; [|intros ?]
    | apply keeps_try; [|intros ?]
    | solve [auto with keeps]
    | apply keeps_update_one_inc; discriminate
    | match goal with
      | |- keeps_ids (match ?x with _ => _ end) => destruct x
      | |- keeps_ids (if ?x then _ else _) => destruct x
      end ].

Lemma keeps_get_image (image_id : string) : keeps_ids (ImageService.get_image image_id).
Proof. unfold ImageService.get_image. repeat keeps_step. Qed.

Lemma keeps_storage_delete_image (filename : string) :
  keeps_ids (StorageService.delete_image filename).
Proof. unfold StorageService.delete_image. repeat keeps_step. Qed.

Lemma keeps_record_download (image_id : string) (request_info : document) :
  keeps_ids (DownloadService.record_download image_id request_info).
Proof. unfold DownloadService.record_download. repeat keeps_step. Qed.

(** X14. The write operations keep the ids of the image collection
    unique, whether they succeed or fail: create_image appends a document
    only under an id that no document has, update_image and the download
    counter rewrite one document without touching its _id, and
    delete_image only removes. *)
Theorem unique_ids_invariant (w : World) :
  unique_ids (db_images w) ->
  (forall file image_data,
     unique_ids (db_images (ImageService.create_image file image_data w).2)) /\
  (forall image_id image_data,
     unique_ids (db_images (ImageService.update_image image_id image_data w).2)) /\
  (forall image_id,
     unique_ids (db_images (ImageService.delete_image image_id w).2)) /\
  (forall image_id request_info,
     unique_ids (db_images (DownloadService.record_download image_id request_info w).2)) /\
  (forall image_id request,
     unique_ids (db_images (downloads_endpoints.download_image image_id request w).2)).
Proof.
  intros Hw. split; [|split; [|split; [|split]]].
  - intros file image_data. revert w Hw.
    change (keeps_ids (ImageService.create_image file image_data)).
    unfold ImageService.create_image, StorageService.upload_image,
      StorageService.generate_thumbnail.
    repeat keeps_step.
  - intros image_id image_data. revert w Hw.
    change (keeps_ids (ImageService.update_image image_id image_data)).
    unfold ImageService.update_image.
    repeat first [apply keeps_get_image | keeps_step].
  - intros image_id. revert w Hw.
    change (keeps_ids (ImageService.delete_image image_id)).
    unfold ImageService.delete_image.
    repeat first [apply keeps_get_image | apply keeps_storage_delete_image | keeps_step].
  - intros image_id request_info. revert w Hw.
    apply keeps_record_download.
  - intros image_id request. revert w Hw.
    change (keeps_ids (downloads_endpoints.download_image image_id request)).
    unfold downloads_endpoints.download_image.
    repeat first [apply keeps_get_image | apply keeps_record_download | keeps_step].
Qed.

(** X15. Under unique ids a deleted image is gone: after a successful
    delete_image no document has the id, so reading it, deleting it again
    and downloading it all fail with the not-found exception. *)
Theorem delete_image_then_absent (image_id : string) (b : bool) (w : World) :
  unique_ids (db_images w) ->
  (ImageService.delete_image image_id w).1 = Ok b ->
  let w' := (ImageService.delete_image image_id w).2 in
  stored_image image_id w' = None /\
  (ImageService.get_image image_id w').1 = Raise ImageNotFoundException /\
  (ImageService.delete_image image_id w').1 = Raise ImageNotFoundException /\
  (forall request,
     (downloads_endpoints.download_image image_id request w').1
       = Raise ImageNotFoundException).
Proof.
  intros Hu Hr. cbv zeta.
  assert (Hgone : stored_image image_id (ImageService.delete_image image_id w).2 = None).
  { destruct (ImageService.get_image image_id w) as [[img|e] w1] eqn:E1.
    2:{ exfalso. revert Hr. unfold ImageService.delete_image, try_except, bind.
        rewrite E1. discriminate. }
    assert (Hget : (ImageService.get_image image_id w).1 = Ok img) by (rewrite E1; reflexivity).
    destruct (get_image_ok image_id w img Hget) as (o & _ & Ho & _).
    revert Hr. rewrite (delete_image_path image_id o img w Ho Hget). cbv zeta.
    pose proof (storage_delete_image_spec (models_image.filename img) (log (DbFindOne o) w))
      as (_ & Hi & _).
    destruct (StorageService.delete_image (models_image.filename img) (log (DbFindOne o) w))
      as [[b0|e] w2]; cbn [fst snd] in *; [|discriminate].
    destruct (fails (env w) (length (trace w2))); cbn [fst snd]; [discriminate|].
    intros _. unfold stored_image. rewrite Ho. cbn [db_images set_images log].
    rewrite Hi. cbn [db_images log]. apply find_remove_first, Hu. }
  pose proof (get_image_missing image_id _ Hgone) as Hmiss.
  split; [exact Hgone|]. split; [exact Hmiss|].
  split.
  - unfold ImageService.delete_image at 1, try_except, bind.
    destruct (ImageService.get_image image_id _) as [r1 w1].
    cbn [fst] in Hmiss. subst r1. reflexivity.
  - intros request. unfold downloads_endpoints.download_image, bind.
    destruct (ImageService.get_image image_id _) as [r1 w1].
    cbn [fst] in Hmiss. subst r1. reflexivity.
Qed.

(** *** What create_image persists *)

Lemma generate_thumbnail_url (filename : string) (content : bytes) (w : World)
    (url : string) :
  (StorageService.generate_thumbnail filename content w).1 = Ok url ->
  url = "https://storage.googleapis.com/" +:+ GCS_THUMBNAIL_BUCKET +:+ "/"
        +:+ ("thumb_" +:+ filename) /\
  is_Some (thumbnail_bucket (StorageService.generate_thumbnail filename content w).2
             !! ("thumb_" +:+ filename)).
Proof.
  unfold StorageService.generate_thumbnail, try_except, bind, blob_upload,
    blob_download, external, ret, raise.
  destruct content as [|b0 content]; simpl.
  all: repeat (simpl;
    match goal with
    | |- context [fails ?e ?n] =>
        let F := fresh "F" in destruct (fails e n) eqn:F
    | |- context [match ?m !! ?k with _ => _ end] =>
        let L := fresh "L" in destruct (m !! k) as [[? ?]|] eqn:L
    | |- context [match PIL_open ?c with _ => _ end] =>
        let L := fresh "L" in destruct (PIL_open c) eqn:L
    | |- context [match PIL_save ?c ?f with _ => _ end] =>
        let L := fresh "L" in destruct (PIL_save c f) eqn:L
    end).
  all: simpl; try discriminate.
  all: intros [= <-]; split; [reflexivity|]; rewrite lookup_insert_eq; eauto.
Qed.

Lemma validate_now (now now' : Z) (d : document) :
  is_Some (d !! "created_at") ->
  models_image.validate now d = models_image.validate now' d.
Proof.
  intros (v & Hv). unfold models_image.validate. rewrite Hv. reflexivity.
Qed.

Lemma validate_identity (now : Z) (d : document) (img : models_image.Image) :
  models_image.validate now d = Ok img ->
  (forall o, d !! "_id" = Some (VObjectId o) -> models_image.id img = Some o) /\
  d !! "file_size" = Some (VInt (models_image.file_size img)) /\
  d !! "content_type" = Some (VStr (models_image.content_type img)).
Proof.
  unfold models_image.validate, to_result.
  destruct (d !! "_id") as [v0|]; simpl; [|discriminate].
  destruct (validate_object_id v0) as [i|] eqn:Hi; simpl; [|discriminate].
  destruct (d !! "name") as [[]|]; simpl; try discriminate.
  destruct (d !! "description") as [[]|]; simpl; try discriminate.
  destruct (d !! "filename") as [[]|]; simpl; try discriminate.
  destruct (d !! "thumbnail_url") as [[]|]; simpl; try discriminate.
  destruct (d !! "hd_url") as [[]|]; simpl; try discriminate.
  destruct (d !! "file_size") as [[]|]; simpl; try discriminate.
  destruct (d !! "content_type") as [[]|]; simpl; try discriminate.
  destruct (d !! "downloads") as [[]|]; simpl; try discriminate.
  all: destruct (d !! "tags") as [[]|]; simpl; try discriminate.
  all: destruct (d !! "created_at") as [[]|]; simpl; try discriminate.
  all: destruct (d !! "updated_at") as [[]|]; simpl; try discriminate.
  all: destruct (d !! "is_featured") as [[]|]; simpl; try discriminate.
  all: intros [= <-]; simpl; repeat split; try reflexivity.
  all: intros o0 [= ->]; simpl in Hi; congruence.
Qed.

Lemma create_image_inv (file : UploadFile) (image_data : document) (w w' : World)
    (img : models_image.Image) :
  ImageService.create_image file image_data w = (Ok img, w') ->
  let fn := uuid4_at (env w) (length (trace w)) +:+ splitext_ext (uf_filename file) in
  exists o d,
    db_images w' = db_images w ++ [d] /\
    existsb (has_id o) (db_images w) = false /\
    env w' = env w /\
    (forall now, models_image.validate now d = Ok img) /\
    original_bucket w' !! fn = Some (uf_content file, uf_content_type file) /\
    is_Some (thumbnail_bucket w' !! ("thumb_" +:+ fn)) /\
    d !! "_id" = Some (VObjectId o) /\
    d !! "name" = image_data !! "name" /\
    d !! "description" = Some (dict_get image_data "description" (VStr "")) /\
    d !! "filename" = Some (VStr fn) /\
    d !! "thumbnail_url"
      = Some (VStr ("https://storage.googleapis.com/" +:+ GCS_THUMBNAIL_BUCKET +:+ "/"
                    +:+ ("thumb_" +:+ fn))) /\
    d !! "hd_url"
      = Some (VStr ("https://storage.googleapis.com/" +:+ GCS_ORIGINAL_BUCKET +:+ "/"
                    +:+ fn)) /\
    d !! "file_size" = Some (VInt (Z.of_nat (length (uf_content file)))) /\
    d !! "content_type" = Some (from_option VStr VNull (uf_content_type file)) /\
    d !! "tags" = Some (dict_get image_data "tags" (VList [])) /\
    d !! "downloads" = Some (VInt 0) /\
    d !! "is_featured" = Some (dict_get image_data "is_featured" (VBool false)).
Proof.
  unfold ImageService.create_image, try_except, bind.
  rewrite upload_image_eq. cbv zeta.
  destruct (fails (env w) (length (trace w))); [discriminate|].
  match goal with |- context [StorageService.generate_thumbnail ?f ?c ?w0] =>
    pose proof (generate_thumbnail_spec f c w0) as (Hi & _ & Hob & He & _);
    pose proof (generate_thumbnail_url f c w0) as Hurl;
    destruct (StorageService.generate_thumbnail f c w0) as [[url|e] w2]
  end; cbn [fst snd] in *; [|discriminate].
  cbn [db_images env original_bucket set_bucket log] in Hi, Hob, He.
  destruct (Hurl url eq_refl) as (-> & Hthumb).
  unfold lift, raise.
  destruct (getitem image_data "name") as [name|e] eqn:Hname; cbn [fst snd]; [|discriminate].
  unfold insert_one_image, external, utcnow. cbn [fst snd env log trace db_images].
  destruct (fails (env w2) (length (trace w2))); [discriminate|].
  destruct (existsb _ (db_images w2)) eqn:Hex; [discriminate|].
  cbn [fst snd].
  match goal with |- context [models_image.validate ?n ?d] =>
    destruct (models_image.validate n d) as [img0|e] eqn:Hv end;
    cbn [fst snd]; [|discriminate].
  intros [= <- <-].
  eexists _, _.
  split; [cbn [db_images set_images log]; rewrite Hi; reflexivity|].
  split; [rewrite <- Hi; exact Hex|].
  split; [cbn [env set_images log]; exact He|].
  split.
  { intros now. rewrite <- Hv. apply validate_now.
    rewrite lookup_insert_ne by discriminate.
    repeat (rewrite lookup_insert_ne by discriminate).
    rewrite lookup_insert_eq. eauto. }
  split.
  { cbn [original_bucket thumbnail_bucket set_images log]. rewrite Hob.
    apply lookup_insert_eq. }
  split; [exact Hthumb|].
  unfold getitem in Hname. destruct (image_data !! "name") as [v|]; [|discriminate].
  injection Hname as <-.
  repeat split;
    repeat (rewrite lookup_insert_ne by discriminate); apply lookup_insert_eq.
Qed.

(** X16. What create_image returns can be read back. The record of a
    successful create_image carries the id that the store assigned; no
    document had that id before, and get_image on it afterwards returns a
    record with the same id, name, description, file name, URLs, size,
    content type, counter, tags, update time and featured flag (when the
    read reaches the store; the store hands out ids in their canonical
    form). The creation time is left out: the record that create_image
    returns carries the clock's reading, and the store keeps
    milliseconds. *)
Theorem create_image_then_get (file : UploadFile) (image_data : document)
    (w w' : World) (img : models_image.Image) :
  ImageService.create_image file image_data w = (Ok img, w') ->
  exists o,
    models_image.id img = Some o /\
    (ObjectId_of o = Ok o ->
     stored_image o w = None /\
     (fails (env w') (length (trace w')) = false ->
      exists img',
        ImageService.get_image o w' = (Ok img', log (DbFindOne o) w') /\
        same_but_created_at img img')).
Proof.
  intros Hrun.
  destruct (create_image_inv file image_data w w' img Hrun)
    as (o & d & Hdb & Hfresh & _ & Hval & _ & _ & Hid & _).
  exists o.
  destruct (validate_identity 0 d img (Hval 0)) as (Hi & _).
  split; [exact (Hi o Hid)|].
  intros Ho.
  assert (Hnone : List.find (has_id o) (db_images w) = None).
  { apply find_object_ids, existsb_object_ids, Hfresh. }
  split; [unfold stored_image; rewrite Ho; exact Hnone|].
  intros Hf. exists img. split; [|repeat split].
  rewrite get_image_eq, Ho. cbv zeta. rewrite Hf, Hdb.
  assert (Hfind : List.find (has_id o) (db_images w ++ [d]) = Some d).
  { rewrite (find_app_none _ _ _ Hnone). cbn [List.find]. unfold has_id.
    rewrite bool_decide_eq_true_2 by exact Hid. reflexivity. }
  rewrite Hfind, (Hval _). reflexivity.
Qed.

Lemma split_on_nonempty (sep : ascii) (s : string) :
  images_endpoints.split_on sep s <> [].
Proof.
  destruct s as [|c s]; cbn [images_endpoints.split_on]; [discriminate|].
  destruct (Ascii.eqb c sep); [discriminate|].
  destruct (images_endpoints.split_on sep s); discriminate.
Qed.

Lemma split_on_join (sep : ascii) (s : string) :
  join_with sep (images_endpoints.split_on sep s) = s.
Proof.
  induction s as [|c s IH]; [reflexivity|].
  cbn [images_endpoints.split_on].
  pose proof (split_on_nonempty sep s) as Hne.
  destruct (Ascii.eqb_spec c sep) as [->|Hc].
  - destruct (images_endpoints.split_on sep s) as [|x xs]; [congruence|].
    cbn [join_with]. cbn [join_with] in IH. rewrite IH. reflexivity.
  - destruct (images_endpoints.split_on sep s) as [|x xs]; [congruence|].
    cbn [join_with] in *. destruct xs as [|y ys].
    + rewrite IH. reflexivity.
    + rewrite <- IH. reflexivity.
Qed.

Lemma split_on_no_sep (sep : ascii) (s : string) :
  Forall (fun piece => string_mem sep piece = false) (images_endpoints.split_on sep s).
Proof.
  induction s as [|c s IH]; [repeat constructor|].
  cbn [images_endpoints.split_on].
  destruct (Ascii.eqb c sep) eqn:Hc; [constructor; [reflexivity | exact IH]|].
  destruct (images_endpoints.split_on sep s) as [|x xs];
    [repeat constructor; cbn [string_mem]; rewrite Hc; reflexivity|].
  apply Forall_cons in IH as (Hx & Hxs).
  constructor; [|exact Hxs]. cbn [string_mem]. rewrite Hc, Hx. reflexivity.
Qed.

(** X17. The record that POST /images returns, read off the form. Its
    name is the form's name, its description the form's description or the
    empty string, and its tags the pieces of the tags field between the
    commas, as they are (no tags for a missing or empty field): joined with
    commas they give the field back, and no piece holds a comma. The
    counter is 0, the size is the number of bytes of the file, the content
    type is that of the uploaded part, and the file name is a fresh uuid
    with the extension of the client's file name, from which both URLs
    follow. *)
Theorem create_image_endpoint_record (name : string) (description tags : option string)
    (is_featured : option bool) (file : UploadFile) (w w' : World)
    (img : models_image.Image) :
  images_endpoints.create_image name description tags is_featured file w = (Ok img, w') ->
  let fn := uuid4_at (env w) (length (trace w)) +:+ splitext_ext (uf_filename file) in
  models_image.name img = name /\
  models_image.description img = default EmptyString description /\
  models_image.tags img
    = match tags with
      | Some (String c s) => images_endpoints.split_on "," (String c s)
      | _ => []
      end /\
  (forall t, tags = Some t -> t <> EmptyString ->
     join_with "," (models_image.tags img) = t /\
     Forall (fun piece => string_mem "," piece = false) (models_image.tags img)) /\
  is_featured = Some (models_image.is_featured img) /\
  models_image.downloads img = 0 /\
  models_image.file_size img = Z.of_nat (length (uf_content file)) /\
  uf_content_type file = Some (models_image.content_type img) /\
  models_image.filename img = fn /\
  models_image.hd_url img
    = "https://storage.googleapis.com/" +:+ GCS_ORIGINAL_BUCKET +:+ "/" +:+ fn /\
  models_image.thumbnail_url img
    = "https://storage.googleapis.com/" +:+ GCS_THUMBNAIL_BUCKET +:+ "/thumb_" +:+ fn.
Proof.
  intros Hrun fn. unfold images_endpoints.create_image in Hrun.
  destruct (create_image_inv _ _ _ _ _ Hrun)
    as (o & d & _ & _ & _ & Hval & _ & _ & _ & Hname & Hdesc & Hfn & Hthumb & Hhd
        & Hsize & Hct & Htags & Hdl & Hfeat).
  fold fn in Hfn, Hthumb, Hhd.
  destruct (validate_fields 0 d img (Hval 0))
    as (Vfn & Vthumb & Vhd & Vname & Vdesc & Vdl & _ & Vtags & Vfeat & _).
  destruct (validate_identity 0 d img (Hval 0)) as (_ & Vsize & Vct).
  unfold dict_get in *.
  rewrite lookup_insert_eq in Hname.
  rewrite lookup_insert_ne, lookup_insert_eq in Hdesc by discriminate.
  do 2 rewrite lookup_insert_ne in Htags by discriminate.
  rewrite lookup_insert_eq in Htags.
  do 3 rewrite lookup_insert_ne in Hfeat by discriminate.
  rewrite lookup_insert_eq in Hfeat.
  cbn [default from_option id] in Hdesc, Htags, Hfeat.
  assert (Etags : models_image.tags img
                  = match tags with
                    | Some (String c s) => images_endpoints.split_on "," (String c s)
                    | _ => []
                    end).
  { specialize (Vtags _ Htags). congruence. }
  split; [congruence|].
  split; [destruct description as [[|c s]|]; cbn [default from_option id] in *; congruence|].
  split; [exact Etags|].
  split.
  { intros t -> Ht. rewrite Etags. destruct t as [|c s]; [congruence|].
    split; [apply split_on_join | apply split_on_no_sep]. }
  split.
  { specialize (Vfeat _ Hfeat). destruct is_featured as [b|]; cbn in Vfeat; congruence. }
  split; [specialize (Vdl _ Hdl); congruence|].
  split; [congruence|].
  split; [destruct (uf_content_type file); cbn in Hct; congruence|].
  split; [congruence|].
  split; [congruence|].
  rewrite Hthumb in Vthumb. injection Vthumb as <-. reflexivity.
Qed.

Lemma validate_null_content_type (now : Z) (d : document) :
  d !! "content_type" = Some VNull ->
  models_image.validate now d = Raise ValidationError.
Proof.
  intros Hct. unfold models_image.validate, to_result. rewrite Hct.
  destruct (d !! "_id") as [v0|]; simpl; [|reflexivity].
  destruct (validate_object_id v0); simpl; [|reflexivity].
  destruct (d !! "name") as [[]|]; simpl; try reflexivity.
  destruct (d !! "description") as [[]|]; simpl; try reflexivity.
  destruct (d !! "filename") as [[]|]; simpl; try reflexivity.
  destruct (d !! "thumbnail_url") as [[]|]; simpl; try reflexivity.
  destruct (d !! "hd_url") as [[]|]; simpl; try reflexivity.
  destruct (d !! "file_size") as [[]|]; simpl; reflexivity.
Qed.

(** X18. A file part without a content type is stored, recorded and then
    rejected. When every step up to the insert succeeds, create_image
    raises the validation error of the returned model (status 500) after
    the document has been appended to the collection, with a null content
    type, and with both blobs in the object store; nothing is undone. *)
Theorem create_image_without_content_type (file : UploadFile) (image_data : document)
    (name : value) (url : string) (w w2 : World) :
  uf_content_type file = None ->
  fails (env w) (length (trace w)) = false ->
  let fn := uuid4_at (env w) (length (trace w)) +:+ splitext_ext (uf_filename file) in
  StorageService.generate_thumbnail fn (uf_content file)
    (StorageService.upload_image file None w).2 = (Ok url, w2) ->
  image_data !! "name" = Some name ->
  fails (env w2) (length (trace w2)) = false ->
  existsb (has_id (object_id_at (env w2) (length (trace w2)))) (db_images w2) = false ->
  let r := (ImageService.create_image file image_data w).1 in
  let w' := (ImageService.create_image file image_data w).2 in
  r = Raise ValidationError /\ http_status ValidationError = 500 /\
  (exists d,
     db_images w' = db_images w ++ [d] /\
     d !! "content_type" = Some VNull /\
     d !! "filename" = Some (VStr fn)) /\
  is_Some (original_bucket w' !! fn) /\
  is_Some (thumbnail_bucket w' !! ("thumb_" +:+ fn)).
Proof.
  intros Hct Hf0 fn Hthumb Hname Hf2 Hfresh. cbv zeta.
  pose proof (generate_thumbnail_spec fn (uf_content file)
                (StorageService.upload_image file None w).2) as (Hi & _ & Hob & _).
  pose proof (generate_thumbnail_url fn (uf_content file)
                (StorageService.upload_image file None w).2 url) as Hurl.
  rewrite Hthumb in Hi, Hob, Hurl. cbn [fst snd] in Hi, Hob, Hurl.
  destruct (Hurl eq_refl) as (_ & Hblob).
  revert Hthumb Hi Hob.
  unfold ImageService.create_image, try_except, bind.
  rewrite upload_image_eq. cbv zeta. rewrite Hf0.
  cbn [fst snd StorageService.sd_filename StorageService.sd_hd_url
       StorageService.sd_content_type StorageService.sd_file_size].
  fold fn. intros Hthumb Hi Hob. rewrite Hthumb.
  cbn [db_images original_bucket set_bucket log] in Hi, Hob.
  unfold lift, raise, getitem. rewrite Hname. cbn [fst snd].
  unfold insert_one_image, external, utcnow. cbn [fst snd env log trace db_images].
  rewrite Hf2, Hfresh. cbn [fst snd].
  rewrite Hct. cbn [from_option].
  rewrite validate_null_content_type
    by (repeat (rewrite lookup_insert_ne by discriminate); apply lookup_insert_eq).
  cbn [fst snd].
  split; [reflexivity|]. split; [reflexivity|].
  cbn [db_images original_bucket thumbnail_bucket set_images log].
  split.
  { eexists. split; [rewrite Hi; reflexivity|].
    split; repeat (rewrite lookup_insert_ne by discriminate); apply lookup_insert_eq. }
  split; [rewrite Hob, lookup_insert_eq; eauto | exact Hblob].
Qed.

(** *** The counters *)

Lemma sum_update_first (p : document -> bool) (l : list document) (d d' : document) :
  List.find p l = Some d ->
  numeric (d' !! "downloads") = numeric (d !! "downloads") + 1 ->
  foldr (fun x acc => numeric (x !! "downloads") + acc) 0
        (update_first p (fun _ => d') l)
  = foldr (fun x acc => numeric (x !! "downloads") + acc) 0 l + 1.
Proof.
  intros Hf Hd. induction l as [|x l IH]; [discriminate|].
  cbn [List.find update_first] in *. destruct (p x).
  - injection Hf as ->. cbn [foldr]. lia.
  - cbn [foldr]. rewrite (IH Hf). lia.
Qed.

Lemma inc_field_numeric (d d' : document) :
  inc_field "downloads" 1 d = Ok d' ->
  numeric (d' !! "downloads") = numeric (d !! "downloads") + 1.
Proof.
  unfold inc_field. destruct (d !! "downloads") as [[]|] eqn:Hd; try discriminate.
  - destruct (_ <=? _); [|discriminate]. intros [= <-].
    rewrite lookup_insert_eq. reflexivity.
  - intros [= <-]. rewrite lookup_insert_eq. reflexivity.
Qed.

Lemma update_first_nonempty (p : document -> bool) (f : document -> document)
    (l : list document) :
  l <> [] -> update_first p f l <> [].
Proof. destruct l as [|x l]; [congruence|]. simpl. destruct (p x); discriminate. Qed.

(** X19. A successful download adds exactly 1 to the total over all
    images: the total that get_total_downloads returns after it is the
    total it returned before, plus 1. *)
Theorem download_adds_one_to_total (image_id : string) (request : Request)
    (w w' : World) (url : string) :
  downloads_endpoints.download_image image_id request w = (Ok url, w') ->
  next_ok w -> next_ok w' ->
  exists t,
    (DownloadService.get_total_downloads w).1 = Ok (VInt t) /\
    (DownloadService.get_total_downloads w').1 = Ok (VInt (t + 1)).
Proof.
  intros Hrun Hok Hok'.
  apply download_image_ok in Hrun
    as (o & d & d' & Ho & Hfind & Hinc & Himg & _).
  assert (Hne : db_images w <> []).
  { intros Hnil. rewrite Hnil in Hfind. discriminate. }
  assert (Hne' : db_images w' <> []).
  { rewrite Himg. apply update_first_nonempty, Hne. }
  eexists. split; [apply get_total_downloads_sum; assumption|].
  rewrite (get_total_downloads_sum w' Hne' Hok'), Himg.
  rewrite (sum_update_first _ _ d d' Hfind (inc_field_numeric d d' Hinc)).
  reflexivity.
Qed.

(** X20. A stored image without a downloads field. get_image shows it
    with the model's default, a counter of 0, while the counter lookup of
    the download service indexes the field and raises KeyError (status
    500). The first recorded download creates the field, and the lookup
    then returns 1. *)
Theorem counter_field_missing (image_id : string) (o : ObjectId) (d : document)
    (w : World) :
  ObjectId_of image_id = Ok o ->
  List.find (has_id o) (db_images w) = Some d ->
  d !! "downloads" = None ->
  (forall img, (ImageService.get_image image_id w).1 = Ok img ->
     models_image.downloads img = 0) /\
  (next_ok w ->
   (DownloadService.get_image_downloads image_id w).1 = Raise KeyError /\
   http_status KeyError = 500) /\
  (forall request url w',
     downloads_endpoints.download_image image_id request w = (Ok url, w') ->
     next_ok w' ->
     (DownloadService.get_image_downloads image_id w').1 = Ok (VInt 1)).
Proof.
  intros Ho Hfind Hnone. split; [|split].
  - intros img Hget.
    destruct (get_image_ok image_id w img Hget) as (o' & d0 & Ho' & Hfind' & Hval & _).
    rewrite Ho in Ho'. injection Ho' as <-.
    rewrite Hfind in Hfind'. injection Hfind' as <-.
    apply validate_fields in Hval as (_ & _ & _ & _ & _ & _ & Hdl & _).
    apply Hdl, Hnone.
  - intros Hok. unfold next_ok in Hok.
    rewrite get_image_downloads_eq, Ho. cbv zeta. rewrite Hok, Hfind.
    unfold getitem. rewrite Hnone. split; reflexivity.
  - intros request url w' Hrun Hok'. unfold next_ok in Hok'.
    apply download_image_ok in Hrun
      as (o' & d0 & d' & Ho' & Hfind' & Hinc & Himg & _).
    rewrite Ho in Ho'. injection Ho' as <-.
    rewrite Hfind in Hfind'. injection Hfind' as <-.
    unfold inc_field in Hinc. rewrite Hnone in Hinc. injection Hinc as <-.
    rewrite get_image_downloads_eq, Ho. cbv zeta. rewrite Hok', Himg.
    rewrite (find_update_first _ _ d _ Hfind).
    + unfold getitem. rewrite lookup_insert_eq. reflexivity.
    + pose proof (find_holds _ _ _ Hfind) as Hp. unfold has_id in *.
      apply bool_decide_eq_true in Hp. apply bool_decide_eq_true.
      rewrite lookup_insert_ne; [exact Hp | discriminate].
Qed.

(** *** The download event *)

Lemma record_download_event (image_id : string) (request_info : document)
    (w w' : World) (dl : models_download.Download) :
  DownloadService.record_download image_id request_info w = (Ok dl, w') ->
  exists ev,
    db_downloads w' = db_downloads w ++ [ev] /\
    ev !! "_id" = Some (VObjectId (object_id_at (env w) (S (length (trace w))))) /\
    ev !! "image_id" = Some (VStr image_id) /\
    ev !! "ip_address" = Some (dict_get request_info "ip_address" (VStr "unknown")) /\
    ev !! "user_agent" = Some (dict_get request_info "user_agent" (VStr "unknown")) /\
    ev !! "referer" = Some (dict_get request_info "referer" VNull) /\
    ev !! "country_code" = Some (dict_get request_info "country_code" VNull) /\
    ev !! "timestamp" = Some (VDate (utcnow_at (env w) (S (length (trace w))))).
Proof.
  unfold DownloadService.record_download, try_except, bind, lift, update_one_inc,
    insert_one_download, external, utcnow, raise, ret.
  destruct (ObjectId_of image_id) as [o|e]; simpl; [|discriminate].
  destruct (fails (env w) (length (trace w))); simpl; [discriminate|].
  destruct (List.find (has_id o) (db_images w)) as [d|] eqn:Fd; simpl.
  - destruct (inc_field "downloads" 1 d) as [d'|e] eqn:Hinc; simpl; [|discriminate].
    destruct (fails (env w) (S (length (trace w)))); simpl; [discriminate|].
    destruct (existsb _ (db_downloads w)); simpl; [discriminate|].
    match goal with |- context [models_download.validate ?n ?d] =>
      destruct (models_download.validate n d) end; simpl; [|discriminate].
    intros [= <- <-]. eexists. split; [reflexivity|].
    repeat split; repeat (rewrite lookup_insert_ne by discriminate);
      apply lookup_insert_eq.
  - destruct (fails (env w) (S (length (trace w)))); simpl; [discriminate|].
    destruct (existsb _ (db_downloads w)); simpl; [discriminate|].
    match goal with |- context [models_download.validate ?n ?d] =>
      destruct (models_download.validate n d) end; simpl; [|discriminate].
    intros [= <- <-]. eexists. split; [reflexivity|].
    repeat split; repeat (rewrite lookup_insert_ne by discriminate);
      apply lookup_insert_eq.
Qed.

(** X21. What a successful POST /downloads/{image_id} leaves behind and
    returns. The URL is the hd_url of the stored record. The one event
    appended names the image by the text of the path (not by the parsed
    id), the address of the client, its user-agent header or "unknown", its
    referer header or null, a null country code, and the time of the
    insert. *)
Theorem download_image_event (image_id : string) (request : Request) (w w' : World)
    (url : string) :
  downloads_endpoints.download_image image_id request w = (Ok url, w') ->
  exists img ev,
    (ImageService.get_image image_id w).1 = Ok img /\
    url = models_image.hd_url img /\
    db_downloads w' = db_downloads w ++ [ev] /\
    ev !! "image_id" = Some (VStr image_id) /\
    ev !! "ip_address" = Some (VStr (client_host request)) /\
    ev !! "user_agent"
      = Some (VStr (default "unknown" (headers request !! "user-agent"))) /\
    ev !! "referer" = Some (from_option VStr VNull (headers request !! "referer")) /\
    ev !! "country_code" = Some VNull /\
    ev !! "timestamp" = Some (VDate (utcnow_at (env w) (2 + length (trace w)))).
Proof.
  unfold downloads_endpoints.download_image, bind, ret.
  pose proof (get_image_ok image_id w) as Hok.
  destruct (ImageService.get_image image_id w) as [[img|e] w1] eqn:E1; cbn [fst snd] in *;
    [|discriminate].
  destruct (Hok img eq_refl) as (o & d & Ho & Hfind & _ & _ & ->).
  match goal with |- context [DownloadService.record_download ?i ?r ?w0] =>
    destruct (DownloadService.record_download i r w0) as [[dl|e] w2] eqn:E2 end;
    [|discriminate].
  intros [= <- <-].
  apply record_download_event in E2
    as (ev & Hdb & _ & Himg & Hip & Hua & Hre & Hcc & Hts).
  unfold dict_get in Hip, Hua, Hre, Hcc.
  rewrite lookup_insert_eq in Hip.
  rewrite lookup_insert_ne, lookup_insert_eq in Hua by discriminate.
  do 2 rewrite lookup_insert_ne in Hre by discriminate.
  rewrite lookup_insert_eq in Hre.
  do 3 rewrite lookup_insert_ne in Hcc by discriminate.
  rewrite lookup_empty in Hcc.
  exists img, ev. cbn [db_downloads env trace log length] in *.
  repeat split; assumption.
Qed.

(** *** update_image on an arbitrary dict *)

Lemma update_data_any (image_data : document) (now : Z) (k : string) :
  (filter (fun kv : string * value => kv.2 <> VNull) image_data
     ∪ {[ "updated_at" := VDate now ]}) !! k =
  match image_data !! k with
  | Some v =>
      if decide (v = VNull)
      then (if decide (k = "updated_at") then Some (VDate now) else None)
      else Some v
  | None => if decide (k = "updated_at") then Some (VDate now) else None
  end.
Proof.
  rewrite lookup_union, map_lookup_filter.
  destruct (image_data !! k) as [v|]; simpl.
  - destruct (decide (v = VNull)) as [->|Hv].
    + rewrite option_guard_False by (simpl; tauto). simpl.
      case_decide; subst; simplify_map_eq; reflexivity.
    + rewrite option_guard_True by (simpl; exact Hv). simpl.
      destruct (({[ "updated_at" := VDate now ]} : document) !! k); reflexivity.
  - case_decide; subst; simplify_map_eq; reflexivity.
Qed.

(** X22. The service method update_image filters nothing but nulls: for
    a stored, readable image and a dict without an _id, every key of the
    dict that holds a value is written to the document, whatever the key
    (the download counter and the file name included), a key that is
    absent or null is left as it was, and updated_at is set to the current
    time unless the dict brings its own. *)
Theorem update_image_writes_any_field (image_id : string) (o : ObjectId)
    (image_data : document) (img : models_image.Image) (w : World) :
  ObjectId_of image_id = Ok o ->
  (ImageService.get_image image_id w).1 = Ok img ->
  fails (env w) (S (length (trace w))) = false ->
  image_data !! "_id" = None ->
  let w' := (ImageService.update_image image_id image_data w).2 in
  let now := utcnow_at (env w) (S (length (trace w))) in
  exists d d',
    List.find (has_id o) (db_images w) = Some d /\
    List.find (has_id o) (db_images w') = Some d' /\
    db_images w' = update_first (has_id o) (fun _ => d') (db_images w) /\
    (forall k v, image_data !! k = Some v -> v <> VNull -> d' !! k = Some v) /\
    (forall k, image_data !! k = None \/ image_data !! k = Some VNull ->
       d' !! k = if decide (k = "updated_at") then Some (VDate now) else d !! k).
Proof.
  intros Ho Hget Hf1 Hid. cbv zeta.
  destruct (get_image_ok image_id w img Hget) as (o' & d & Ho' & Hfind & _ & _ & Hw1).
  rewrite Ho in Ho'. injection Ho' as <-.
  unfold ImageService.update_image, try_except, bind.
  destruct (ImageService.get_image image_id w) as [r1 w1] eqn:E1.
  cbn [fst snd] in Hget, Hw1. subst r1 w1.
  unfold utcnow, lift. cbn [fst snd]. rewrite Ho.
  unfold update_one_set, external. cbn [fst snd env log trace db_images length].
  rewrite Hf1, Hfind.
  set (now := utcnow_at (env w) (S (length (trace w)))).
  set (upd := filter (fun kv : string * value => kv.2 <> VNull) image_data
                ∪ {[ "updated_at" := VDate now ]}).
  assert (Hupd : forall k, upd !! k =
    match image_data !! k with
    | Some v =>
        if decide (v = VNull)
        then (if decide (k = "updated_at") then Some (VDate now) else None)
        else Some v
    | None => if decide (k = "updated_at") then Some (VDate now) else None
    end) by (intros k; apply update_data_any).
  assert (Hupd_id : upd !! "_id" = None).
  { rewrite Hupd, Hid. reflexivity. }
  unfold set_fields. rewrite Hupd_id.
  set (d' := upd ∪ d).
  set (w2 := set_images _ _).
  pose proof (get_image_frame image_id w2) as ((Hs1 & _) & _ & _).
  assert (Hfind2 : List.find (has_id o) (db_images w2) = Some d').
  { subst w2. cbn [db_images set_images log].
    apply (find_update_first _ _ d); [exact Hfind|].
    pose proof (find_holds _ _ _ Hfind) as Hp. unfold has_id in *.
    apply bool_decide_eq_true in Hp. apply bool_decide_eq_true.
    unfold d'. rewrite lookup_union_r by exact Hupd_id. exact Hp. }
  assert (Hd' : forall k, d' !! k = union_with (fun x _ => Some x) (upd !! k) (d !! k))
    by (intros k; apply lookup_union).
  clearbody d'. clear Hupd_id. clearbody upd.
  destruct (ImageService.get_image image_id w2) as [r3 w3] eqn:E3; cbn [fst snd] in *.
  assert (Hres : (let (r, w'0) := (r3, w3) in
                  match r with
                  | Ok a => (Ok a, w'0)
                  | Raise e => raise e w'0
                  end) = (r3, w3)) by (destruct r3; reflexivity).
  rewrite Hres. cbn [fst snd]. clear Hres.
  exists d, d'. rewrite Hs1.
  split; [first [exact Hfind | reflexivity]|]. split; [exact Hfind2|].
  split; [subst w2; reflexivity|].
  split.
  - intros k v Hk Hv. rewrite Hd', Hupd, Hk.
    destruct (decide (v = VNull)); [contradiction|].
    destruct (d !! k); reflexivity.
  - intros k Hk. rewrite Hd', Hupd.
    destruct Hk as [-> | ->]; [|rewrite decide_True by reflexivity];
      destruct (decide (k = "updated_at")); destruct (d !! k); reflexivity.
Qed.

(** *** Listing *)

Lemma validate_all_raise (now : Z) (docs : list document) (d : document) (e : exn) :
  d ∈ docs -> models_image.validate now d = Raise e ->
  ImageService.validate_all now docs = Raise ValidationError.
Proof.
  intros Hin Hd. induction docs as [|x docs IH]; [inversion Hin|].
  cbn [ImageService.validate_all].
  destruct (models_image.validate now x) as [i|e0] eqn:Hx.
  - apply elem_of_cons in Hin as [->|Hin]; [congruence|].
    rewrite (IH Hin). reflexivity.
  - unfold models_image.validate, to_result in Hx.
    match type of Hx with match ?o with _ => _ end = _ => destruct o end;
      [discriminate | congruence].
Qed.

Lemma validate_all_app (now : Z) (l1 l2 : list document)
    (p1 p2 : list models_image.Image) :
  ImageService.validate_all now l1 = Ok p1 ->
  ImageService.validate_all now l2 = Ok p2 ->
  ImageService.validate_all now (l1 ++ l2) = Ok (p1 ++ p2).
Proof.
  revert p1. induction l1 as [|x l1 IH]; intros p1 H1 H2.
  - injection H1 as <-. exact H2.
  - cbn [ImageService.validate_all app] in *.
    destruct (models_image.validate now x); [|discriminate].
    destruct (ImageService.validate_all now l1) as [rest|]; [|discriminate].
    injection H1 as <-. rewrite (IH rest eq_refl H2). reflexivity.
Qed.

Lemma get_images_eq (skip limit : Z) (tags : option (list string))
    (featured : option bool) (w : World) :
  0 <= skip -> 0 <= limit -> next_ok w ->
  ImageService.get_images skip limit tags featured w =
  (ImageService.validate_all (utcnow_at (env w) (S (length (trace w))))
     (take (Z.to_nat limit)
        (drop (Z.to_nat skip)
           (sort_desc "created_at"
              (List.filter (matches (ImageService.build_query tags featured))
                 (db_images w))))),
   log DbFind w).
Proof.
  intros Hs Hl Hok. unfold next_ok in Hok.
  unfold ImageService.get_images, bind, find_to_list, external, utcnow, lift, raise.
  destruct (Z.ltb_spec skip 0); [lia|]. destruct (Z.ltb_spec limit 0); [lia|].
  cbn [orb]. rewrite Hok. cbn [fst snd env log trace db_images length].
  unfold to_list, cursor_limit, cursor_skip.
  destruct (Z.eqb_spec limit 0) as [->|Hne].
  - reflexivity.
  - rewrite take_take, Nat.min_id.
    destruct (ImageService.validate_all _ _); reflexivity.
Qed.

(** X23. The listing is all or nothing: when one document of the
    requested page does not pass the model (a required field is missing or
    has the wrong type) get_images returns no page at all and raises the
    validation error, status 500, though get_image reports such a document
    as not found, status 404. *)
Theorem get_images_all_or_nothing (skip limit : Z) (tags : option (list string))
    (featured : option bool) (d : document) (e : exn) (w : World) :
  0 <= skip -> 0 <= limit -> next_ok w ->
  d ∈ take (Z.to_nat limit)
        (drop (Z.to_nat skip)
           (sort_desc "created_at"
              (List.filter (matches (ImageService.build_query tags featured))
                 (db_images w)))) ->
  models_image.validate (utcnow_at (env w) (S (length (trace w)))) d = Raise e ->
  (ImageService.get_images skip limit tags featured w).1 = Raise ValidationError /\
  http_status ValidationError = 500 /\
  (forall image_id o,
     ObjectId_of image_id = Ok o ->
     List.find (has_id o) (db_images w) = Some d ->
     (ImageService.get_image image_id w).1 = Raise ImageNotFoundException).
Proof.
  intros Hs Hl Hok Hin Hd.
  rewrite (get_images_eq skip limit tags featured w Hs Hl Hok). cbn [fst].
  split; [exact (validate_all_raise _ _ d e Hin Hd)|].
  split; [reflexivity|].
  intros image_id o Ho Hfind. unfold next_ok in Hok.
  rewrite get_image_eq, Ho. cbv zeta. rewrite Hok, Hfind, Hd. reflexivity.
Qed.

Lemma take_add_drop {A} (n m : nat) (l : list A) :
  take (n + m) l = take n l ++ take m (drop n l).
Proof.
  revert l. induction n as [|n IH]; intros l; [reflexivity|].
  destruct l as [|x l]; [cbn; rewrite take_nil; reflexivity|].
  cbn. rewrite IH. reflexivity.
Qed.

(** X24. Consecutive pages fit together. On one state of the store in
    which the matching documents all have a creation date and no two have
    the same (so that the order of the sort is fixed), the page at skip
    with limit n, followed by the page at skip + n with limit n, is the
    page at skip with limit 2n: no record is shown twice and none is left
    out between them. *)
Theorem get_images_pages_concatenate (skip limit : Z) (tags : option (list string))
    (featured : option bool) (w : World) (p1 p2 : list models_image.Image) :
  dated_apart (List.filter (matches (ImageService.build_query tags featured))
                 (db_images w)) = true ->
  0 <= skip -> 0 < limit -> next_ok w ->
  (ImageService.get_images skip limit tags featured w).1 = Ok p1 ->
  (ImageService.get_images (skip + limit) limit tags featured w).1 = Ok p2 ->
  (ImageService.get_images skip (2 * limit) tags featured w).1 = Ok (p1 ++ p2).
Proof.
  intros _ Hs Hl Hok.
  rewrite !get_images_eq by (assumption || lia). cbn [fst].
  intros H1 H2.
  replace (Z.to_nat (2 * limit)) with (Z.to_nat limit + Z.to_nat limit)%nat by lia.
  rewrite take_add_drop, drop_drop.
  replace (Z.to_nat skip + Z.to_nat limit)%nat with (Z.to_nat (skip + limit)) by lia.
  apply validate_all_app; assumption.
Qed.

(** *** Ids and their canonical form *)

Lemma lower_hex (c : ascii) :
  is_hex c = true -> is_hex (lower c) = true /\ lower (lower c) = lower c.
Proof.
  destruct c as [[] [] [] [] [] [] [] []]; vm_compute; intros Hc;
    first [discriminate Hc | split; reflexivity].
Qed.

Lemma string_map_length (f : ascii -> ascii) (s : string) :
  String.length (string_map f s) = String.length s.
Proof. induction s as [|c s IH]; simpl; congruence. Qed.

Lemma string_map_lower_hex (s : string) :
  string_forallb is_hex s = true ->
  string_forallb is_hex (string_map lower s) = true /\
  string_map lower (string_map lower s) = string_map lower s.
Proof.
  induction s as [|c s IH]; [split; reflexivity|].
  cbn [string_forallb string_map]. intros Hs.
  apply andb_true_iff in Hs as (Hc & Hs).
  destruct (lower_hex c Hc) as (Hc1 & Hc2). destruct (IH Hs) as (Hs1 & Hs2).
  rewrite Hc1, Hs1, Hc2, Hs2. split; reflexivity.
Qed.

Lemma ObjectId_of_canonical (s : string) (o : ObjectId) :
  ObjectId_of s = Ok o -> ObjectId_of o = Ok o.
Proof.
  unfold ObjectId_of, is_valid_object_id.
  destruct (Nat.eqb_spec (String.length s) 24) as [Hlen|]; [|discriminate].
  destruct (string_forallb is_hex s) eqn:Hhex; [|discriminate].
  cbn [andb]. intros [= <-].
  destruct (string_map_lower_hex s Hhex) as (Hh & Hl).
  rewrite string_map_length, Hlen, Hh, Hl. reflexivity.
Qed.

(** X25. The id of an image is read without regard to the case of its
    hex digits. A well-formed id and its canonical (lower-case) form name
    the same document: the canonical form is itself well formed and
    canonical, and get_image, delete_image and the counter lookup behave on
    the one exactly as on the other. *)
Theorem object_id_case_insensitive (image_id : string) (o : ObjectId) :
  ObjectId_of image_id = Ok o ->
  ObjectId_of o = Ok o /\
  forall w,
    ImageService.get_image o w = ImageService.get_image image_id w /\
    ImageService.delete_image o w = ImageService.delete_image image_id w /\
    DownloadService.get_image_downloads o w
      = DownloadService.get_image_downloads image_id w /\
    stored_image o w = stored_image image_id w.
Proof.
  intros Ho. pose proof (ObjectId_of_canonical image_id o Ho) as Hc.
  split; [exact Hc|]. intros w.
  assert (Hget : forall w0, ImageService.get_image o w0 = ImageService.get_image image_id w0).
  { intros w0. rewrite !get_image_eq, Ho, Hc. reflexivity. }
  split; [apply Hget|].
  split.
  { unfold ImageService.delete_image, try_except, bind, lift.
    rewrite Hget, Ho, Hc. reflexivity. }
  split; [rewrite !get_image_downloads_eq, Ho, Hc; reflexivity|].
  unfold stored_image. rewrite Ho, Hc. reflexivity.
Qed.

Lemma download_image_appends (image_id : string) (request : Request) (w w' : World)
    (url : string) :
  downloads_endpoints.download_image image_id request w = (Ok url, w') ->
  exists img ev,
    (ImageService.get_image image_id w).1 = Ok img /\
    url = models_image.hd_url img /\
    db_downloads w' = db_downloads w ++ [ev] /\
    ev !! "image_id" = Some (VStr image_id).
Proof.
  unfold downloads_endpoints.download_image, bind, ret.
  pose proof (get_image_ok image_id w) as Hok.
  destruct (ImageService.get_image image_id w) as [[img|e] w1] eqn:E1; cbn [fst snd] in *;
    [|discriminate].
  destruct (Hok img eq_refl) as (o & d & Ho & Hfind & _ & _ & ->).
  match goal with |- context [DownloadService.record_download ?i ?r ?w0] =>
    destruct (DownloadService.record_download i r w0) as [[dl|e] w2] eqn:E2 end;
    [|discriminate].
  intros [= <- <-].
  apply record_download_event in E2 as (ev & Hdb & _ & Himg & _).
  exists img, ev. cbn [db_downloads log] in Hdb. repeat split; assumption.
Qed.

(** X26. The events keep step with the counter. When a client makes N
    downloads of an image one after the other and all succeed, exactly N
    events are appended to the download collection, each naming the image,
    and N URLs are returned; the events that were there are untouched. *)
Theorem downloads_append_events (image_id : string) (requests : list Request) :
  forall (w w' : World) (urls : list string),
  download_each image_id requests w = (Ok urls, w') ->
  length urls = length requests /\
  exists events,
    db_downloads w' = db_downloads w ++ events /\
    length events = length requests /\
    Forall (fun ev => ev !! "image_id" = Some (VStr image_id)) events.
Proof.
  induction requests as [|request rest IH]; intros w w' urls Hrun.
  - simpl in Hrun. injection Hrun as <- <-. split; [reflexivity|].
    exists []. rewrite app_nil_r. repeat split. constructor.
  - simpl in Hrun. unfold bind in Hrun.
    destruct (downloads_endpoints.download_image image_id request w)
      as [[url|e] w1] eqn:E1; [|discriminate].
    destruct (download_each image_id rest w1) as [[us|e] w2] eqn:E2; [|discriminate].
    injection Hrun as <- <-.
    apply download_image_appends in E1 as (_ & ev & _ & _ & Hdb1 & Hev).
    destruct (IH w1 w2 us E2) as (Hlen & events & Hdb2 & Hn & Hall).
    split; [simpl; rewrite Hlen; reflexivity|].
    exists (ev :: events).
    split; [rewrite Hdb2, Hdb1, <- app_assoc; reflexivity|].
    split; [simpl; rewrite Hn; reflexivity|].
    constructor; assumption.
Qed.

(** X27. The route GET /downloads/{image_id}/count reads the image
    before it reads the counter. When get_image fails the route fails with
    the not-found exception and the counter is never looked up. When the
    image is stored and readable and both reads reach the store, the route
    makes two lookups and returns the stored counter, which is the counter
    of the record that get_image returns. Nothing is changed either
    way. *)
Theorem get_image_downloads_route (image_id : string) (w : World) :
  let r := (downloads_endpoints.get_image_downloads image_id w).1 in
  let w' := (downloads_endpoints.get_image_downloads image_id w).2 in
  same_stores w w' /\
  (forall e, (ImageService.get_image image_id w).1 = Raise e ->
     r = Raise ImageNotFoundException /\
     w' = (ImageService.get_image image_id w).2) /\
  (forall img o d v,
     (ImageService.get_image image_id w).1 = Ok img ->
     ObjectId_of image_id = Ok o ->
     List.find (has_id o) (db_images w) = Some d ->
     d !! "downloads" = Some v ->
     fails (env w) (S (length (trace w))) = false ->
     r = Ok v /\ v = VInt (models_image.downloads img) /\
     trace w' = DbFindOne o :: DbFindOne o :: trace w).
Proof.
  cbv zeta.
  pose proof (get_image_frame image_id w) as (Hs & _ & _).
  pose proof (get_image_raises image_id w) as Hraise.
  pose proof (get_image_ok image_id w) as Hok.
  unfold downloads_endpoints.get_image_downloads, bind.
  destruct (ImageService.get_image image_id w) as [[img|e] w1] eqn:E1; cbn [fst snd] in *.
  - destruct (Hok img eq_refl) as (o & d & Ho & Hfind & Hval & _ & ->).
    rewrite get_image_downloads_eq, Ho. cbv zeta.
    cbn [env log trace db_images length].
    split.
    { unfold same_stores.
      destruct (fails (env w) (S (length (trace w)))); cbn [fst snd]; [tauto|].
      rewrite Hfind. cbn [snd]. tauto. }
    split; [intros e [=]|].
    intros img' o' d' v [= <-] [= <-] Hd' Hv Hf.
    rewrite Hfind in Hd'. injection Hd' as <-.
    rewrite Hf, Hfind. unfold getitem. rewrite Hv. cbn [fst snd trace log].
    split; [reflexivity|]. split; [|reflexivity].
    apply validate_fields in Hval as (_ & _ & _ & _ & _ & Hdl & _).
    apply Hdl, Hv.
  - split; [exact Hs|]. split; [|intros img o d v [=]].
    intros e0 _. rewrite (Hraise e eq_refl). split; reflexivity.
Qed.

End Properties.

(** *** Initialising the database *)

(** X28. init_db never fails on the catalog, whatever it holds: a
    collection is created only when the listing does not show it. It keeps
    every collection and index that is there, and afterwards the two
    collections and the seven indexes exist. Run again on its own result it
    changes nothing. *)
Theorem init_db_idempotent (c : db_init.Catalog) :
  exists c',
    db_init.init_db c = Ok c' /\
    db_init.collections c' = {[ "images"; "downloads" ]} ∪ db_init.collections c /\
    db_init.indexes c' = db_init.wanted_indexes ∪ db_init.indexes c /\
    db_init.init_db c' = Ok c'.
Proof.
  assert (Hrun : forall c0,
    exists c',
      db_init.init_db c0 = Ok c' /\
      db_init.collections c' = {[ "images"; "downloads" ]} ∪ db_init.collections c0 /\
      db_init.indexes c' = db_init.wanted_indexes ∪ db_init.indexes c0).
  { intros [cs ix]. unfold db_init.init_db, db_init.list_collection_names,
      db_init.create_collection, db_init.create_index, db_init.wanted_indexes.
    cbn [db_init.collections db_init.indexes].
    destruct (decide ("images" ∈ cs)) as [Hi|Hi];
      destruct (decide ("downloads" ∈ cs)) as [Hd|Hd];
      cbn [db_init.collections db_init.indexes].
    all: repeat rewrite decide_False
           by first [ assumption
                    | rewrite elem_of_union, elem_of_singleton;
                      intros [Hx|Hx]; [discriminate Hx | contradiction] ].
    all: cbn [db_init.collections db_init.indexes].
    all: eexists; split; [reflexivity|];
      cbn [db_init.collections db_init.indexes]; split.
    all: apply set_eq; intros x;
      rewrite ?elem_of_union, ?elem_of_singleton; tauto. }
  destruct (Hrun c) as (c' & Hc' & Hcs & Hix).
  exists c'. split; [exact Hc'|]. split; [exact Hcs|]. split; [exact Hix|].
  destruct (Hrun c') as (c2 & Hc2 & Hcs2 & Hix2).
  rewrite Hc2. f_equal. destruct c2 as [cs2 ix2], c' as [cs' ix'].
  cbn [db_init.collections db_init.indexes] in *. subst cs2 ix2 cs' ix'.
  unfold db_init.wanted_indexes.
  f_equal; apply set_eq; intros x;
    rewrite ?elem_of_union, ?elem_of_singleton; tauto.
Qed.

(** C1, at an id that is well formed but not stored and at a malformed id. *)
Lemma download_image_missing_witness :
  stored_image cat_id (empty_world []) = None /\
  exists w',
    downloads_endpoints.download_image cat_id sample_request (empty_world [])
      = (Raise ImageNotFoundException, w') /\
    db_downloads w' = db_downloads (empty_world []) /\
    db_images w' = db_images (empty_world []) /\
    original_bucket w' = original_bucket (empty_world []) /\
    thumbnail_bucket w' = thumbnail_bucket (empty_world []) /\
    (trace w' = trace (empty_world []) \/
     exists o, trace w' = DbFindOne o :: trace (empty_world [])).
Proof.
  split; [reflexivity|].
  apply (download_image_missing cat_id sample_request (empty_world [])).
  reflexivity.
Defined.

(** C6, on the stored image and on an id that is not stored. *)
Lemma get_image_downloads_lenient_witness :
  (DownloadService.get_image_downloads cat_id (cat_world [])).1 = Ok (VInt 3) /\
  (DownloadService.get_image_downloads "507f191e810c19729de860ea" (cat_world [])).1
    = Ok (VInt 0).
Proof.
  split.
  - apply (proj1 (get_image_downloads_lenient cat_id cat_id (cat_world [])
                    eq_refl eq_refl) cat_doc (VInt 3)); reflexivity.
  - apply (proj1 (proj2 (get_image_downloads_lenient "507f191e810c19729de860ea"
                    "507f191e810c19729de860ea" (cat_world []) eq_refl eq_refl)));
      reflexivity.
Defined.

(** C10, on the empty store. *)
Lemma get_total_downloads_empty_witness :
  DownloadService.get_total_downloads (empty_world [])
    = (Ok (VInt 0), log DbAggregate (empty_world [])).
Proof.
  apply (proj2 (get_total_downloads_empty (empty_world []) eq_refl eq_refl)).
Defined.

(** C2, on a file that decodes: every step is taken, in order, and the
    record of the new document comes back. And on a file whose bytes do not
    decode: the original is uploaded, the thumbnail step fails, nothing is
    rolled back and nothing is persisted. *)
Lemma create_image_steps_witness :
  (exists img,
     (@ImageService.create_image sample_PIL sample_settings cat_file cat_data
        (empty_world [])).1 = Ok img /\
     models_image.filename img = "0b3f2c1e-7a4d-4e55-9c1f-2d6a8e9b0c11.png" /\
     models_image.downloads img = 0) /\
  trace (@ImageService.create_image sample_PIL sample_settings cat_file cat_data
           (empty_world [])).2
    = [DbInsertImage;
       BlobUpload Thumbnails "thumb_0b3f2c1e-7a4d-4e55-9c1f-2d6a8e9b0c11.png";
       BlobUpload Originals "0b3f2c1e-7a4d-4e55-9c1f-2d6a8e9b0c11.png"] /\
  length (db_images
            (@ImageService.create_image sample_PIL sample_settings cat_file cat_data
               (empty_world [])).2) = 1%nat /\
  (exists detail,
     (@ImageService.create_image sample_PIL sample_settings junk_file cat_data
        (empty_world [])).1 = Raise (StorageException detail)) /\
  original_bucket
    (@ImageService.create_image sample_PIL sample_settings junk_file cat_data
       (empty_world [])).2
  = <["0b3f2c1e-7a4d-4e55-9c1f-2d6a8e9b0c11.txt" :=
        (uf_content junk_file, uf_content_type junk_file)]> ∅ /\
  db_images
    (@ImageService.create_image sample_PIL sample_settings junk_file cat_data
       (empty_world [])).2 = [].
Proof.
  pose proof (@create_image_steps sample_PIL sample_settings cat_file cat_data
                (empty_world [])) as (_ & _ & _ & _ & _ & _ & _ & Hlive).
  destruct (Hlive ltac:(intros k; reflexivity)
              {| pil_size := (50, 30); pil_format := Some "PNG"; pil_data := [] |}
              [Byte.x32; Byte.x1e] "cat" EmptyString "image/png" ["pets"] false
              eq_refl eq_refl eq_refl eq_refl eq_refl eq_refl eq_refl eq_refl)
    as (Hr & Ht & _ & _ & d & Hdb & _).
  pose proof (@create_image_steps sample_PIL sample_settings junk_file cat_data
                (empty_world [])) as (_ & _ & _ & Hkeep & _ & Hthumb & _).
  destruct (Hthumb eq_refl) as (Hj & _ & Hi & _); [discriminate | reflexivity |].
  split; [eexists; split; [exact Hr | split; reflexivity]|].
  split; [exact Ht|]. split; [rewrite Hdb; reflexivity|].
  split; [eexists; exact Hj|].
  split; [exact (Hkeep eq_refl) | exact Hi].
Defined.



(** C5, on a record whose blobs are already gone: the delete succeeds. *)
Lemma delete_image_storage_first_witness :
  (ImageService.delete_image dawn_id (gallery_world [])).1 = Ok true.
Proof.
  apply (proj2 (proj2 (proj2 (delete_image_storage_first dawn_id (gallery_world []))))
           {| models_image.id := Some dawn_id; models_image.name := "dawn";
              models_image.description := ""; models_image.filename := "dawn.png";
              models_image.thumbnail_url :=
                "https://storage.googleapis.com/thumbnails/thumb_dawn.png";
              models_image.hd_url := "https://storage.googleapis.com/originals/dawn.png";
              models_image.file_size := 2; models_image.content_type := "image/png";
              models_image.downloads := 0; models_image.tags := ["sky"];
              models_image.created_at := 10; models_image.updated_at := None;
              models_image.is_featured := true |}).
  - reflexivity.
  - intros k. reflexivity.
Defined.

(** C7, on a rename of the stored image: the record that comes back has the
    new name and its file name, URLs and counter as before. *)
Lemma update_image_frame_witness :
  exists img,
    (ImageService.update_image cat_id (schemas_image.dict rename_patch)
       (cat_world [])).1 = Ok img /\
    models_image.name img = "tabby" /\
    models_image.filename img = "cat.png" /\
    models_image.downloads img = 3.
Proof.
  destruct (proj2 (proj2 (proj2 (proj2
              (update_image_frame cat_id rename_patch (cat_world []))))))
    as [(_ & e & He) | (o & d & d' & now & _ & _ & _ & _ & _ & _ & _ & _ & _ & _ & _
                        & _ & _ & Hret)].
  - vm_compute in He. discriminate He.
  - eexists. split; [vm_compute; reflexivity|].
    destruct (Hret _ ltac:(vm_compute; reflexivity))
      as (old & Hold & Hfn & _ & _ & Hdl & _ & Hnm & _).
    vm_compute in Hold. injection Hold as <-.
    split; [exact Hnm|]. split; [exact Hfn | exact Hdl].
Defined.

(** C7 as stated fails for a patch that names another field. The service
    method takes any dict: given the dict that holds only downloads = 0 it
    overwrites the counter of the stored image, which read 3. *)
Lemma update_image_frame_counterexample :
  (ImageService.get_image cat_id (cat_world [])).1 = Ok cat_image /\
  models_image.downloads cat_image = 3 /\
  (exists img,
     (ImageService.update_image cat_id reset_counter (cat_world [])).1 = Ok img /\
     models_image.downloads img = 0) /\
  (DownloadService.get_image_downloads cat_id
     (ImageService.update_image cat_id reset_counter (cat_world [])).2).1
    = Ok (VInt 0).
Proof.
  split; [reflexivity|]. split; [reflexivity|].
  split; [eexists; split; [vm_compute; reflexivity | reflexivity]|].
  vm_compute. reflexivity.
Qed.

(** C8, on the gallery: one featured record is asked for, the newest one
    comes back and the total counts both featured records. *)
Lemma list_images_conjunctive_witness :
  exists img w',
    images_endpoints.get_images 0 1 (Some ["sky"]) (Some true) (gallery_world [])
      = (Ok ([img], 2), w') /\
    "sky" ∈ models_image.tags img /\
    models_image.is_featured img = true /\
    models_image.name img = "noon".
Proof.
  eexists _, _.
  assert (Hrun : images_endpoints.get_images 0 1 (Some ["sky"]) (Some true)
                   (gallery_world [])
                 = (Ok ([{| models_image.id := Some noon_id; models_image.name := "noon";
                            models_image.description := "";
                            models_image.filename := "noon.png";
                            models_image.thumbnail_url :=
                              "https://storage.googleapis.com/thumbnails/thumb_noon.png";
                            models_image.hd_url :=
                              "https://storage.googleapis.com/originals/noon.png";
                            models_image.file_size := 2;
                            models_image.content_type := "image/png";
                            models_image.downloads := 0;
                            models_image.tags := ["sky"; "sun"];
                            models_image.created_at := 30;
                            models_image.updated_at := None;
                            models_image.is_featured := true |}], 2),
                    log DbCount (log DbFind (gallery_world []))))
    by reflexivity.
  split; [exact Hrun|].
  destruct (list_images_conjunctive _ _ _ _ _ _ _ _ Hrun) as (Htags & Hfeat & _).
  split; [|split; [|reflexivity]].
  - apply (Htags ["sky"] eq_refl); [left | left].
  - apply (Hfeat true eq_refl). left.
Defined.

(** C9, on the sample upload into the empty store: the new record and its
    stored counter read 0, and after three downloads through the API the
    counter reads 3. *)
Lemma download_counter_exact_witness :
  (exists img,
     (@ImageService.create_image sample_PIL sample_settings cat_file cat_data
        (empty_world [])).1 = Ok img /\
     models_image.id img = Some "65a000000000000000000002" /\
     models_image.downloads img = 0) /\
  (DownloadService.get_image_downloads "65a000000000000000000002"
     (@ImageService.create_image sample_PIL sample_settings cat_file cat_data
        (empty_world [])).2).1 = Ok (VInt 0) /\
  (DownloadService.get_image_downloads "65a000000000000000000002"
     (download_each "65a000000000000000000002"
        [sample_request; sample_request; sample_request]
        (@ImageService.create_image sample_PIL sample_settings cat_file cat_data
           (empty_world [])).2).2).1 = Ok (VInt 3).
Proof.
  destruct (@download_counter_exact sample_PIL sample_settings)
    as (_ & Hsum & Hcreate & _).
  destruct (Hcreate cat_file cat_data (empty_world [])
              {| pil_size := (50, 30); pil_format := Some "PNG"; pil_data := [] |}
              [Byte.x32; Byte.x1e] "cat" EmptyString "image/png" ["pets"] false
              ltac:(intros k; reflexivity)
              eq_refl eq_refl eq_refl eq_refl eq_refl eq_refl eq_refl eq_refl)
    as (img & w1 & Hrun & Hid & Hdl & Hcount).
  specialize (Hcount eq_refl).
  rewrite Hrun. cbn [fst snd].
  split; [exists img; split; [reflexivity | split; assumption]|].
  split; [exact Hcount|].
  destruct (download_each "65a000000000000000000002"
              [sample_request; sample_request; sample_request] w1)
    as [[urls|e] w'] eqn:E.
  - apply (Hsum "65a000000000000000000002" _ w1 w' urls 0 E Hcount).
    apply (f_equal snd) in Hrun, E. cbn [snd] in Hrun, E.
    rewrite <- E, <- Hrun. reflexivity.
  - apply (f_equal snd) in Hrun. cbn [snd] in Hrun. rewrite <- Hrun in E.
    apply (f_equal fst) in E. vm_compute in E. discriminate E.
Defined.

(** X4, on an id that no document of the store has. *)
Lemma record_download_unchecked_witness :
  exists ev w',
    DownloadService.record_download "507f191e810c19729de860ea" ∅ (cat_world [])
      = (Ok {| models_download.id := Some "65a000000000000000000001";
               models_download.image_id := "507f191e810c19729de860ea";
               models_download.ip_address := "unknown";
               models_download.user_agent := "unknown";
               models_download.referer := None;
               models_download.country_code := None;
               models_download.timestamp := 1700000001 |}, w') /\
    db_images w' = [cat_doc] /\
    db_downloads w' = [ev] /\
    ev !! "image_id" = Some (VStr "507f191e810c19729de860ea").
Proof.
  apply (record_download_unchecked "507f191e810c19729de860ea"
           "507f191e810c19729de860ea" ∅ "unknown" "unknown" None None (cat_world []));
    reflexivity.
Defined.

(** X5, on the stored image when the second call to the store fails. *)
Lemma record_download_counter_without_event_witness :
  (DownloadService.record_download cat_id ∅ (cat_world [1%nat])).1 = Raise PyMongoError /\
  db_downloads (DownloadService.record_download cat_id ∅ (cat_world [1%nat])).2 = [] /\
  List.find (has_id cat_id)
    (db_images (DownloadService.record_download cat_id ∅ (cat_world [1%nat])).2)
    = Some (<["downloads" := VInt 4]> cat_doc).
Proof.
  destruct (record_download_counter_without_event cat_id cat_id ∅ cat_doc 3
              (cat_world [1%nat]) eq_refl eq_refl eq_refl ltac:(vm_compute; discriminate)
              eq_refl eq_refl) as (Hr & Hd & Hf & _).
  split; [exact Hr|]. split; [exact Hd | exact Hf].
Defined.

(** X6, on the blobs of the stored image. *)
Lemma storage_delete_image_idempotent_witness :
  (StorageService.delete_image "cat.png" (cat_world [])).1 = Ok true /\
  (StorageService.delete_image "cat.png"
     (StorageService.delete_image "cat.png" (cat_world [])).2).1
    = Ok true.
Proof.
  destruct (storage_delete_image_idempotent "cat.png" (cat_world [])
              ltac:(intros k; reflexivity)) as (H1 & H2 & _).
  split; [exact H1 | exact H2].
Defined.
(** X8, on the two bytes that the sample codec reads as a 50 x 30 image. *)
Lemma generate_thumbnail_stores_witness :
  (@StorageService.generate_thumbnail sample_PIL sample_settings "cat.png"
     [Byte.x32; Byte.x1e] (empty_world [])).1
    = Ok "https://storage.googleapis.com/thumbnails/thumb_cat.png" /\
  thumbnail_bucket
    (@StorageService.generate_thumbnail sample_PIL sample_settings "cat.png"
       [Byte.x32; Byte.x1e] (empty_world [])).2
    = <["thumb_cat.png" := ([Byte.x32; Byte.x1e], Some "image/png")]> ∅.
Proof.
  destruct (@generate_thumbnail_stores sample_PIL sample_settings "cat.png"
              [Byte.x32; Byte.x1e] (empty_world [])
              ltac:(intros k _; reflexivity)) as (_ & Hok).
  exact (Hok [Byte.x32; Byte.x1e]
           {| pil_size := (50, 30); pil_format := Some "PNG"; pil_data := [] |}
           [Byte.x32; Byte.x1e] eq_refl eq_refl eq_refl).
Defined.

(** X10, on a 250 x 100 image with the bound 200 x 200. *)
Lemma resize_never_enlarges_witness :
  exists nw nh,
    image_processing.new_dimensions (250, 100) (200, 200) = Ok (Some (nw, nh)) /\
    0 <= nw <= 250 /\ 0 <= nh <= 100 /\ 199 <= nw <= 200.
Proof.
  destruct (resize_never_enlarges 250 100 200 200
              ltac:(lia) ltac:(lia) ltac:(lia) ltac:(lia) ltac:(lia))
    as (nw & nh & Hd & Hw & Hh & _ & Hlim).
  exists nw, nh. split; [exact Hd|]. split; [exact Hw|]. split; [exact Hh|].
  exact Hlim.
Defined.

(** X11, on a text that is no ObjectId. *)
Lemma malformed_id_handling_witness :
  ImageService.get_image "not-an-id" (cat_world [])
    = (Raise ImageNotFoundException, cat_world []) /\
  DownloadService.get_image_downloads "not-an-id" (cat_world [])
    = (Raise InvalidId, cat_world []).
Proof.
  destruct (malformed_id_handling "not-an-id" (cat_world []) eq_refl)
    as (Hget & _ & _ & _ & _ & _ & Hcount & _).
  split; [exact Hget | exact Hcount].
Defined.

(** X13, on the stored image when the fourth call, the look for the
    thumbnail, fails. *)
Lemma delete_image_partial_witness :
  (ImageService.delete_image cat_id (cat_world [3%nat])).1
    = Raise (StorageException "GoogleCloudError") /\
  original_bucket (ImageService.delete_image cat_id (cat_world [3%nat])).2 !! "cat.png"
    = None /\
  db_images (ImageService.delete_image cat_id (cat_world [3%nat])).2 = [cat_doc].
Proof.
  destruct (delete_image_partial cat_id cat_id cat_image
              ([Byte.x32; Byte.x1e], Some "image/png") (cat_world [3%nat])
              eq_refl eq_refl eq_refl eq_refl eq_refl eq_refl)
    as (Hr & Ho & _ & Hi & _).
  split; [exact Hr|]. split; [rewrite Ho; reflexivity | exact Hi].
Defined.
(** X14, on the store that holds the one image: a new image is added
    under a new id. *)
Lemma unique_ids_invariant_witness :
  unique_ids (db_images (cat_world [])) /\
  unique_ids
    (db_images (@ImageService.create_image sample_PIL sample_settings cat_file cat_data
                  (cat_world [])).2) /\
  unique_ids (db_images (ImageService.delete_image cat_id (cat_world [])).2).
Proof.
  assert (Hu : unique_ids (db_images (cat_world []))) by (apply NoDup_singleton).
  destruct (@unique_ids_invariant sample_PIL sample_settings (cat_world []) Hu)
    as (Hcreate & _ & Hdelete & _).
  split; [exact Hu|]. split; [apply Hcreate | apply Hdelete].
Defined.

(** X15, on the stored image: once deleted it cannot be read. *)
Lemma delete_image_then_absent_witness :
  (ImageService.delete_image cat_id (cat_world [])).1 = Ok true /\
  (ImageService.get_image cat_id (ImageService.delete_image cat_id (cat_world [])).2).1
    = Raise ImageNotFoundException.
Proof.
  assert (Hrun : (ImageService.delete_image cat_id (cat_world [])).1 = Ok true)
    by reflexivity.
  split; [exact Hrun|].
  apply (delete_image_then_absent cat_id true (cat_world [])
           ltac:(apply NoDup_singleton) Hrun).
Defined.

(** X16, on the sample upload into the empty store. *)
Lemma create_image_then_get_witness :
  exists img img',
    (@ImageService.create_image sample_PIL sample_settings cat_file cat_data
       (empty_world [])).1 = Ok img /\
    models_image.id img = Some "65a000000000000000000002" /\
    (ImageService.get_image "65a000000000000000000002"
       (@ImageService.create_image sample_PIL sample_settings cat_file cat_data
          (empty_world [])).2).1 = Ok img' /\
    same_but_created_at img img'.
Proof.
  destruct (@ImageService.create_image sample_PIL sample_settings cat_file cat_data
              (empty_world [])) as [[img|e] w'] eqn:E.
  - destruct (@create_image_then_get sample_PIL sample_settings cat_file cat_data
                (empty_world []) w' img E) as (o & Hid & Hget).
    assert (Himg : models_image.id img = Some "65a000000000000000000002").
    { apply (f_equal fst) in E. vm_compute in E. injection E as <-. reflexivity. }
    rewrite Himg in Hid. injection Hid as <-.
    destruct (Hget eq_refl) as (_ & Hread).
    destruct Hread as (img' & Hread & Hsame).
    { apply (f_equal snd) in E. cbn [snd] in E. rewrite <- E. vm_compute. reflexivity. }
    exists img, img'. split; [reflexivity|]. split; [exact Himg|].
    cbn [fst snd]. rewrite Hread. split; [reflexivity | exact Hsame].
  - apply (f_equal fst) in E. vm_compute in E. discriminate E.
Defined.

(** X17, on the form of the sample upload with the tags "pets,cats". *)
Lemma create_image_endpoint_record_witness :
  exists img,
    (@images_endpoints.create_image sample_PIL sample_settings "cat" None
       (Some "pets,cats") (Some true) cat_file (empty_world [])).1 = Ok img /\
    models_image.name img = "cat" /\
    models_image.description img = "" /\
    models_image.tags img = ["pets"; "cats"] /\
    models_image.downloads img = 0 /\
    models_image.file_size img = 2.
Proof.
  destruct (@images_endpoints.create_image sample_PIL sample_settings "cat" None
              (Some "pets,cats") (Some true) cat_file (empty_world []))
    as [[img|e] w'] eqn:E.
  - exists img. split; [reflexivity|].
    destruct (@create_image_endpoint_record sample_PIL sample_settings "cat" None
                (Some "pets,cats") (Some true) cat_file (empty_world []) w' img E)
      as (Hn & Hd & Ht & _ & _ & Hdl & Hsz & _).
    split; [exact Hn|]. split; [exact Hd|]. split; [exact Ht|].
    split; [exact Hdl | exact Hsz].
  - apply (f_equal fst) in E. vm_compute in E. discriminate E.
Defined.

(** X18, on the sample upload sent without a content type. *)
Lemma create_image_without_content_type_witness :
  (@ImageService.create_image sample_PIL sample_settings untyped_file cat_data
     (empty_world [])).1 = Raise ValidationError /\
  length (db_images (@ImageService.create_image sample_PIL sample_settings untyped_file
                       cat_data (empty_world [])).2) = 1%nat.
Proof.
  destruct (@StorageService.generate_thumbnail sample_PIL sample_settings
              ("0b3f2c1e-7a4d-4e55-9c1f-2d6a8e9b0c11" +:+ ".png")
              (uf_content untyped_file)
              (@StorageService.upload_image sample_settings untyped_file None
                 (empty_world [])).2) as [[url|e] w2] eqn:E.
  - assert (Hw2 : fails (env w2) (length (trace w2)) = false /\
                  existsb (has_id (object_id_at (env w2) (length (trace w2))))
                    (db_images w2) = false).
    { apply (f_equal snd) in E. cbn [snd] in E. rewrite <- E.
      split; vm_compute; reflexivity. }
    destruct (@create_image_without_content_type sample_PIL sample_settings untyped_file
                cat_data (VStr "cat") url (empty_world []) w2
                eq_refl eq_refl E eq_refl (proj1 Hw2) (proj2 Hw2))
      as (Hr & _ & (d & Hdb & _) & _).
    split; [exact Hr|]. rewrite Hdb. reflexivity.
  - apply (f_equal fst) in E. vm_compute in E. discriminate E.
Defined.
(** X19, on the stored image, whose counter is the whole total. *)
Lemma download_adds_one_to_total_witness :
  (DownloadService.get_total_downloads (cat_world [])).1 = Ok (VInt 3) /\
  (DownloadService.get_total_downloads
     (downloads_endpoints.download_image cat_id sample_request (cat_world [])).2).1
    = Ok (VInt 4).
Proof.
  split; [reflexivity|].
  destruct (downloads_endpoints.download_image cat_id sample_request (cat_world []))
    as [[url|e] w'] eqn:E.
  - assert (Hok' : next_ok w').
    { apply (f_equal snd) in E. cbn [snd] in E. rewrite <- E. reflexivity. }
    destruct (download_adds_one_to_total cat_id sample_request (cat_world []) w' url
                E eq_refl Hok') as (t & Hbefore & Hafter).
    assert (Ht : t = 3) by (vm_compute in Hbefore; congruence).
    subst t. exact Hafter.
  - apply (f_equal fst) in E. vm_compute in E. discriminate E.
Defined.

(** X20, on the stored image with its downloads field removed. *)
Lemma counter_field_missing_witness :
  (DownloadService.get_image_downloads cat_id (world_without "downloads")).1
    = Raise KeyError /\
  (DownloadService.get_image_downloads cat_id
     (downloads_endpoints.download_image cat_id sample_request
        (world_without "downloads")).2).1 = Ok (VInt 1).
Proof.
  destruct (counter_field_missing cat_id cat_id (delete "downloads" cat_doc)
              (world_without "downloads") eq_refl eq_refl eq_refl)
    as (_ & Hkey & Hfirst).
  split; [exact (proj1 (Hkey eq_refl))|].
  destruct (downloads_endpoints.download_image cat_id sample_request
              (world_without "downloads")) as [[url|e] w'] eqn:E.
  - apply (Hfirst sample_request url w' E).
    apply (f_equal snd) in E. cbn [snd] in E. rewrite <- E. reflexivity.
  - apply (f_equal fst) in E. vm_compute in E. discriminate E.
Defined.

(** X21, on a download of the stored image by the sample client. *)
Lemma download_image_event_witness :
  exists ev,
    (downloads_endpoints.download_image cat_id sample_request (cat_world [])).1
      = Ok "https://storage.googleapis.com/originals/cat.png" /\
    db_downloads
      (downloads_endpoints.download_image cat_id sample_request (cat_world [])).2
      = [ev] /\
    ev !! "ip_address" = Some (VStr "203.0.113.7") /\
    ev !! "user_agent" = Some (VStr "curl/8.0") /\
    ev !! "referer" = Some VNull.
Proof.
  destruct (downloads_endpoints.download_image cat_id sample_request (cat_world []))
    as [[url|e] w'] eqn:E.
  - destruct (download_image_event cat_id sample_request (cat_world []) w' url E)
      as (img & ev & Hget & Hurl & Hdb & _ & Hip & Hua & Hre & _).
    exists ev.
    assert (Himg : img = cat_image)
      by (vm_compute in Hget; injection Hget as <-; reflexivity).
    subst img url.
    split; [reflexivity|]. split; [exact Hdb|]. split; [exact Hip|].
    split; [exact Hua | exact Hre].
  - apply (f_equal fst) in E. vm_compute in E. discriminate E.
Defined.

(** X22, on a dict that resets the counter of the stored image. *)
Lemma update_image_writes_any_field_witness :
  exists d',
    List.find (has_id cat_id)
      (db_images (ImageService.update_image cat_id reset_counter
                    (cat_world [])).2) = Some d' /\
    d' !! "downloads" = Some (VInt 0) /\
    d' !! "filename" = Some (VStr "cat.png").
Proof.
  destruct (update_image_writes_any_field cat_id cat_id reset_counter
              cat_image (cat_world []) eq_refl eq_refl eq_refl eq_refl)
    as (d & d' & Hd & Hd' & _ & Hset & Hkeep).
  exists d'. split; [exact Hd'|].
  split; [apply Hset; [reflexivity | discriminate]|].
  rewrite (Hkeep "filename" (or_introl eq_refl)).
  assert (Hdoc : Some d = Some cat_doc) by (rewrite <- Hd; reflexivity).
  injection Hdoc as ->. reflexivity.
Defined.

(** X23, on a store whose one document has lost its name. *)
Lemma get_images_all_or_nothing_witness :
  (ImageService.get_images 0 20 None None (world_without "name")).1
    = Raise ValidationError /\
  (ImageService.get_image cat_id (world_without "name")).1
    = Raise ImageNotFoundException.
Proof.
  destruct (get_images_all_or_nothing 0 20 None None (delete "name" cat_doc)
              ValidationError (world_without "name")
              ltac:(lia) ltac:(lia) eq_refl
              ltac:(apply list_elem_of_here) eq_refl)
    as (Hlist & _ & Hone).
  split; [exact Hlist|].
  exact (Hone cat_id cat_id eq_refl eq_refl).
Defined.

(** X24, on the first two pages of one record of the gallery. *)
Lemma get_images_pages_concatenate_witness :
  exists p1 p2,
    (ImageService.get_images 0 1 None None (gallery_world [])).1 = Ok p1 /\
    (ImageService.get_images 1 1 None None (gallery_world [])).1 = Ok p2 /\
    (ImageService.get_images 0 2 None None (gallery_world [])).1 = Ok (p1 ++ p2) /\
    length p1 = 1%nat /\ length p2 = 1%nat.
Proof.
  destruct (ImageService.get_images 0 1 None None (gallery_world [])).1
    as [p1|e] eqn:E1; [|vm_compute in E1; discriminate E1].
  destruct (ImageService.get_images 1 1 None None (gallery_world [])).1
    as [p2|e] eqn:E2; [|vm_compute in E2; discriminate E2].
  exists p1, p2. split; [reflexivity|]. split; [reflexivity|].
  split.
  - exact (get_images_pages_concatenate 0 1 None None (gallery_world []) p1 p2
             eq_refl ltac:(lia) ltac:(lia) eq_refl E1 E2).
  - vm_compute in E1, E2. injection E1 as <-. injection E2 as <-.
    split; reflexivity.
Defined.

(** X25, on the id of the stored image written in upper case. *)
Lemma object_id_case_insensitive_witness :
  ObjectId_of cat_id_upper = Ok cat_id /\
  ImageService.get_image cat_id (cat_world [])
    = ImageService.get_image cat_id_upper (cat_world []).
Proof.
  assert (Ho : ObjectId_of cat_id_upper = Ok cat_id) by reflexivity.
  split; [exact Ho|].
  apply (proj2 (object_id_case_insensitive cat_id_upper cat_id Ho) (cat_world [])).
Defined.
(** X26, on two downloads of the stored image. *)
Lemma downloads_append_events_witness :
  length (db_downloads
            (download_each cat_id [sample_request; sample_request] (cat_world [])).2)
    = 2%nat.
Proof.
  destruct (download_each cat_id [sample_request; sample_request] (cat_world []))
    as [[urls|e] w'] eqn:E.
  - destruct (downloads_append_events cat_id _ _ _ _ E) as (_ & events & Hdb & Hn & _).
    cbn [snd]. rewrite Hdb, length_app, Hn. reflexivity.
  - apply (f_equal fst) in E. vm_compute in E. discriminate E.
Defined.
